(** * BookTable: the availability / booking consistency engine

    A shallow embedding of the booking controller (createBooking and the
    two cancelBooking implementations found in the repository) and of
    searchRestaurants from the restaurant controller, followed by the
    properties of the specification that concern them.

    Conventions of the model
    - A JavaScript [Date] is its time value: milliseconds since the epoch,
      an integer ([Z]).  [moment(x).utc().format('YYYY-MM-DD')] is
      injective on UTC day numbers, so two such strings are compared
      through [utcDay].
    - A MongoDB [ObjectId] is a number ([N]); collections are finite maps
      from [_id] to document.
    - An HTTP response is its status code together with either the JSON
      body or the [error] string of the source.
    - Exceptions raised by collaborators (persistence, mail, regular
      expression compilation) are not modelled: every [await] succeeds.
      The one exception a handler raises on its own data, the
      [toISOString] of an invalid search date, is modelled, with the 500
      answer of the handler's [catch].
    - [moment(s, 'HH:mm')], the server's UTC offset and the regular
      expression test are third-party or environment behaviour; they are
      parameters of the sections that need them. *)

From Stdlib Require Import ZArith Ascii String List Lia Bool Sorted.
From stdpp Require Import base option list gmap strings relations.

Local Open Scope string_scope.
Local Open Scope Z_scope.
Local Open Scope list_scope.

(** ** JavaScript values and helpers *)

Definition ObjectId := N.

(** A request field as the JSON body delivers it. Numbers are integers
    whose decimal rendering is plain (no exponent). *)
Inductive JSValue :=
| JSUndefined
| JSNumber (n : Z)
| JSString (s : string).

(** [!v] is [negb (truthy v)]. *)
Definition truthy (v : JSValue) : bool :=
  match v with
  | JSUndefined => false
  | JSNumber n => negb (n =? 0)
  | JSString s => negb (String.eqb s "")
  end.

(** Truthiness of an optional string ([undefined] and [''] are falsy). *)
Definition truthyStr (v : option string) : bool :=
  match v with
  | None => false
  | Some s => negb (String.eqb s "")
  end.

Definition isWhiteSpace (c : ascii) : bool :=
  let n := Z.of_N (N_of_ascii c) in
  (n =? 32) || ((9 <=? n) && (n <=? 13)).

Definition digitOf (c : ascii) : option Z :=
  let n := Z.of_N (N_of_ascii c) in
  if (48 <=? n) && (n <=? 57) then Some (n - 48) else None.

Fixpoint skipWhite (s : string) : string :=
  match s with
  | String c r => if isWhiteSpace c then skipWhite r else s
  | EmptyString => s
  end.

(** The longest prefix of decimal digits, [None] (NaN) when it is empty. *)
Fixpoint digitsPrefix (s : string) (acc : option Z) : option Z :=
  match s with
  | String c r =>
      match digitOf c with
      | Some d => digitsPrefix r (Some (10 * default 0 acc + d))
      | None => acc
      end
  | EmptyString => acc
  end.

(** [parseInt(s, 10)] on a string; [None] is NaN. *)
Definition parseInt10 (s : string) : option Z :=
  match skipWhite s with
  | String "-" r => Z.opp <$> digitsPrefix r None
  | String "+" r => digitsPrefix r None
  | t => digitsPrefix t None
  end.

(** [parseInt(v, 10)]: the argument is first converted to a string. *)
Definition parseInt (v : JSValue) : option Z :=
  match v with
  | JSUndefined => None
  | JSNumber n => Some n
  | JSString s => parseInt10 s
  end.

(** [s.split(sep)] for a one-character separator. *)
Fixpoint splitAcc (sep : ascii) (s : string) (cur : string) : list string :=
  match s with
  | EmptyString => [cur]
  | String c r =>
      if Ascii.eqb c sep then cur :: splitAcc sep r ""
      else splitAcc sep r (String.append cur (String c ""))
  end.

Definition split (sep : ascii) (s : string) : list string := splitAcc sep s "".

(** ** Dates *)

Definition msPerDay : Z := 86400000.

(** The UTC calendar day of an instant. *)
Definition utcDay (ms : Z) : Z := ms / msPerDay.

(** [moment(d).utc().startOf('day').toDate()]. *)
Definition startOfDayUTC (ms : Z) : Z := utcDay ms * msPerDay.

(** The calendar day of an instant on a server whose clock is
    [offset] minutes ahead of UTC: [moment(d).format('YYYY-MM-DD')]. *)
Definition localDay (offset : Z) (ms : Z) : Z := (ms + offset * 60000) / msPerDay.

(** Day number of the civil date [y]-[m]-[d], [m] in 1..12. *)
Definition daysFromCivil (y m d : Z) : Z :=
  let y' := if m <=? 2 then y - 1 else y in
  let era := y' / 400 in
  let yoe := y' - era * 400 in
  let mp := if 2 <? m then m - 3 else m + 9 in
  let doy := (153 * mp + 2) / 5 + d - 1 in
  let doe := yoe * 365 + yoe / 4 - yoe / 100 + doy in
  era * 146097 + doe - 719468.

(** ECMAScript MakeDay: months outside 0..11 carry into the year. *)
Definition MakeDay (year month dt : Z) : Z :=
  daysFromCivil (year + month / 12) (month mod 12 + 1) 1 + dt - 1.

(** [Date.UTC(year, month, dt)]; [None] is NaN (an invalid Date). *)
Definition DateUTC (year month dt : Z) : option Z :=
  let yr := if (0 <=? year) && (year <=? 99) then 1900 + year else year in
  let t := MakeDay yr month dt * msPerDay in
  if Z.abs t <=? 8640000000000000 then Some t else None.

(** ** Time of day *)

Definition digitChar (d : Z) : ascii := ascii_of_N (Z.to_N (48 + d)).

Definition pad2 (n : Z) : string :=
  String (digitChar (n / 10)) (String (digitChar (n mod 10)) "").

(** [format('HH:mm')] of a time given in minutes since midnight. *)
Definition formatHHmm (minutes : Z) : string :=
  let m := minutes mod 1440 in
  String.append (pad2 (m / 60)) (String ":" (pad2 (m mod 60))).

(** ** Documents *)

Record TableDefinition := {
  table_id : ObjectId;
  tableSize : Z;
  availableTimes : list string
}.

Record DateAvailability := {
  date : Z;
  tables : list TableDefinition
}.

Record Restaurant := {
  isApproved : bool;
  city : string;
  zip : string;
  availableTables : list DateAvailability;
  timesBookedToday : Z
}.

Inductive Status := confirmed | cancelled.

Record Booking := {
  booking_id : ObjectId;
  userId : ObjectId;
  restaurantId : ObjectId;
  bookingDate : Z;
  time : string;
  partySize : Z;
  bookedTableSize : Z;
  bookedTableDefinitionId : option ObjectId;
  status : Status
}.

Record User := {
  user_id : ObjectId;
  role : string
}.

(** The two collections, and the counter new [_id]s are drawn from. *)
Record Store := {
  restaurants : gmap ObjectId Restaurant;
  bookings : gmap ObjectId Booking;
  nextId : ObjectId
}.

Global Instance Status_eq_dec : EqDecision Status.
Proof. solve_decision. Defined.

(** ** Responses *)

Inductive Response (A : Type) :=
| Json (code : Z) (body : A)
| Error (code : Z) (error : string).
Arguments Json {A} code body.
Arguments Error {A} code error.

Definition MissingFieldsError {A} : Response A :=
  Error 400 "Missing required booking information.".
Definition InvalidPartySizeError {A} : Response A :=
  Error 400 "Invalid party size.".
Definition RestaurantNotFoundError {A} : Response A :=
  Error 404 "Restaurant not found".
Definition NoAvailabilityForDate {A} : Response A :=
  Error 400 "No tables available for this date".
Definition NoSuitableTable {A} : Response A :=
  Error 400 "No suitable table available for the requested time and party size".
Definition BookingNotFoundError {A} : Response A :=
  Error 404 "Booking not found".
Definition NotAuthorizedError {A} : Response A :=
  Error 403 "Not authorized to cancel this booking".
Definition AlreadyCancelledError {A} : Response A :=
  Error 400 "Booking is already cancelled".
Definition BookingNotFoundOrCancelledError {A} : Response A :=
  Error 404 "Booking not found or already cancelled".
Definition CancelInternalError {A} : Response A :=
  Error 500 "Error cancelling booking".
Definition InvalidTimeFormatError {A} : Response A :=
  Error 400 "Invalid time format. Expected format HH:mm.".
Definition SearchError {A} : Response A :=
  Error 500 "Error searching restaurants".

(** ** In-place update of the element an [Array.prototype.find] returns *)

Fixpoint updateFirst {A} (p : A -> bool) (f : A -> A) (l : list A) : list A :=
  match l with
  | [] => []
  | x :: r => if p x then f x :: r else x :: updateFirst p f r
  end.

(** [a.includes(x)] on an array of strings. *)
Definition includes (a : list string) (x : string) : bool :=
  existsb (String.eqb x) a.

Definition setAvailableTimes (a : list string) (t : TableDefinition) : TableDefinition :=
  {| table_id := table_id t; tableSize := tableSize t; availableTimes := a |}.

Definition setTables (ts : list TableDefinition) (e : DateAvailability) : DateAvailability :=
  {| date := date e; tables := ts |}.

Definition setAvailableTables (es : list DateAvailability) (r : Restaurant) : Restaurant :=
  {| isApproved := isApproved r; city := city r; zip := zip r;
     availableTables := es; timesBookedToday := timesBookedToday r |}.

Definition incTimesBookedToday (r : Restaurant) : Restaurant :=
  {| isApproved := isApproved r; city := city r; zip := zip r;
     availableTables := availableTables r;
     timesBookedToday := timesBookedToday r + 1 |}.

Definition setStatus (s : Status) (b : Booking) : Booking :=
  {| booking_id := booking_id b; userId := userId b;
     restaurantId := restaurantId b; bookingDate := bookingDate b;
     time := time b; partySize := partySize b;
     bookedTableSize := bookedTableSize b;
     bookedTableDefinitionId := bookedTableDefinitionId b; status := s |}.

Definition setRestaurants (rs : gmap ObjectId Restaurant) (st : Store) : Store :=
  {| restaurants := rs; bookings := bookings st; nextId := nextId st |}.

Definition setBookings (bs : gmap ObjectId Booking) (st : Store) : Store :=
  {| restaurants := restaurants st; bookings := bs; nextId := nextId st |}.

(** ** Middleware: authorize(...roles)

    [None] stands for the call of [next()]. The routes of the booking
    controller are not part of the sources at hand, so the controllers
    below are modelled from the point where [req.user] is set. *)
Definition RoleMissingError {A} : Response A :=
  Error 403 "User not authenticated or role missing for authorization".
Definition NotAuthorizedForResourceError {A} : Response A :=
  Error 403 "Not authorized to access this resource".

Definition authorize (roles : list string) (user : option User)
  : option (Response unit) :=
  match user with
  | None => Some RoleMissingError
  | Some u =>
      if String.eqb (role u) "" then Some RoleMissingError
      else if includes roles (role u) then None
      else Some NotAuthorizedForResourceError
  end.

(** ** Booking controller: createBooking

    The two copies of the controller in the repository have the same
    createBooking up to logging; one definition serves both. *)

(** [moment(entry.date).utc().format('YYYY-MM-DD') === searchDateStr]. *)
Definition sameUtcDay (d : Z) (entry : DateAvailability) : bool :=
  utcDay (date entry) =? utcDay d.

(** [restaurant.availableTables.find(...)]. *)
Definition availabilityForDate (restaurant : Restaurant) (d : Z)
  : option DateAvailability :=
  List.find (sameUtcDay d) (availableTables restaurant).

(** [table.tableSize >= numericPartySize && table.availableTimes.includes(time)]. *)
Definition suits (numericPartySize : Z) (tm : string) (table : TableDefinition) : bool :=
  (numericPartySize <=? tableSize table) && includes (availableTimes table) tm.

(** [availabilityForDate.tables.find(...)]. *)
Definition suitableTable (entry : DateAvailability) (numericPartySize : Z)
  (tm : string) : option TableDefinition :=
  List.find (suits numericPartySize tm) (tables entry).

(** [suitableTable.availableTimes = suitableTable.availableTimes.filter(t => t !== time)]. *)
Definition consumeSlot (tm : string) (table : TableDefinition) : TableDefinition :=
  setAvailableTimes
    (List.filter (fun t => negb (String.eqb t tm)) (availableTimes table)) table.

(** The restaurant document after the slot of the table found by
    [suitableTable] was removed in place. *)
Definition consumeIn (d numericPartySize : Z) (tm : string) (restaurant : Restaurant)
  : Restaurant :=
  setAvailableTables
    (updateFirst (sameUtcDay d)
       (fun entry =>
          setTables (updateFirst (suits numericPartySize tm) (consumeSlot tm)
                       (tables entry)) entry)
       (availableTables restaurant))
    restaurant.

(** The request body: [restaurantId] and [time] are [None] when the field
    is missing, [date] is the instant [moment(date)] denotes ([None] when
    the field is missing), [partySize] is the JSON value as sent. *)
Definition createBooking (user : User) (restaurantId : option ObjectId)
  (date : option Z) (time : option string) (partySize : JSValue) (st : Store)
  : Response Booking * Store :=
  match restaurantId, date, time with
  | Some rid, Some d, Some tm =>
    if negb (truthyStr (Some tm)) || negb (truthy partySize)
    then (MissingFieldsError, st)
    else
      match parseInt partySize with
      | None => (InvalidPartySizeError, st)
      | Some numericPartySize =>
        if numericPartySize <=? 0 then (InvalidPartySizeError, st)
        else
          match restaurants st !! rid with
          | None => (RestaurantNotFoundError, st)
          | Some restaurant =>
            match availabilityForDate restaurant d with
            | None => (NoAvailabilityForDate, st)
            | Some entry =>
              match suitableTable entry numericPartySize tm with
              | None => (NoSuitableTable, st)
              | Some table =>
                let booking :=
                  {| booking_id := nextId st;
                     userId := user_id user;
                     restaurantId := rid;
                     bookingDate := startOfDayUTC d;
                     time := tm;
                     partySize := numericPartySize;
                     bookedTableSize := tableSize table;
                     bookedTableDefinitionId := Some (table_id table);
                     status := confirmed |} in
                let restaurant' := consumeIn d numericPartySize tm restaurant in
                (Json 201 booking,
                 {| restaurants :=
                      <[rid := incTimesBookedToday restaurant']> (restaurants st);
                    bookings := <[nextId st := booking]> (bookings st);
                    nextId := N.succ (nextId st) |})
              end
            end
          end
      end
  | _, _, _ => (MissingFieldsError, st)
  end.

(** [t._id.toString() === id.toString()], [table._id.equals(id)]. *)
Definition hasId (tid : ObjectId) (table : TableDefinition) : bool :=
  (table_id table =? tid)%N.

(** ** Booking controller, first copy: owner or admin may cancel, the
    slot is appended to the table's list. *)
Module ControllerA.
Section Cancel.

(** Minutes the server's local time is ahead of UTC. *)
Variable utcOffset : Z.

(** [moment(entry.date).format('YYYY-MM-DD') === dateStr], local time. *)
Definition sameLocalDay (d : Z) (entry : DateAvailability) : bool :=
  localDay utcOffset (date entry) =? localDay utcOffset d.

(** [table.availableTimes.push(booking.time)]. *)
Definition pushSlot (tm : string) (table : TableDefinition) : TableDefinition :=
  setAvailableTimes (availableTimes table ++ [tm]) table.

Definition releaseIn (d : Z) (tid : ObjectId) (tm : string)
  (restaurant : Restaurant) : Restaurant :=
  setAvailableTables
    (updateFirst (sameLocalDay d)
       (fun entry =>
          setTables (updateFirst (hasId tid) (pushSlot tm) (tables entry)) entry)
       (availableTables restaurant))
    restaurant.

Definition cancelBooking (user : User) (id : ObjectId) (st : Store)
  : Response Booking * Store :=
  match bookings st !! id with
  | None => (BookingNotFoundError, st)
  | Some booking =>
    if negb (userId booking =? user_id user)%N
       && negb (String.eqb (role user) "admin")
    then (NotAuthorizedError, st)
    else
      match status booking with
      | cancelled => (AlreadyCancelledError, st)
      | confirmed =>
        let booking' := setStatus cancelled booking in
        let st1 := setBookings (<[id := booking']> (bookings st)) st in
        match restaurants st1 !! restaurantId booking with
        | None => (Json 200 booking', st1)
        | Some restaurant =>
          match List.find (sameLocalDay (bookingDate booking))
                  (availableTables restaurant) with
          | None => (Json 200 booking', st1)
          | Some entry =>
            match bookedTableDefinitionId booking, tables entry with
            | None, [] => (Json 200 booking', st1)
            | None, _ :: _ =>
                (* [undefined.toString()] throws inside the callback, after
                   the status was saved; the outer catch answers 500 *)
                (CancelInternalError, st1)
            | Some tid, _ =>
              match List.find (hasId tid) (tables entry) with
              | None => (Json 200 booking', st1)
              | Some _ =>
                (Json 200 booking',
                 setRestaurants
                   (<[restaurantId booking :=
                        releaseIn (bookingDate booking) tid (time booking) restaurant]>
                      (restaurants st1)) st1)
              end
            end
          end
        end
      end
  end.

End Cancel.
End ControllerA.

(** ** Booking controller, second copy: only the owner may cancel, "not
    found" and "already cancelled" share one answer, the slot is put back
    once and the list is sorted again. *)
Module ControllerB.
Section Cancel.

(** [moment(s, 'HH:mm')]: minutes since midnight, [None] when invalid. *)
Variable momentHHmm : string -> option Z.

(** [moment(a, 'HH:mm').diff(moment(b, 'HH:mm'))] in milliseconds; a NaN
    result counts as +0 for [Array.prototype.sort]. *)
Definition diffHHmm (a b : string) : Z :=
  match momentHHmm a, momentHHmm b with
  | Some x, Some y => (x - y) * 60000
  | _, _ => 0
  end.

Fixpoint insertSorted (x : string) (l : list string) : list string :=
  match l with
  | [] => [x]
  | y :: r => if diffHHmm x y <=? 0 then x :: l else y :: insertSorted x r
  end.

(** [a.sort((a, b) => diff)]: a stable sort (insertion sort; every stable
    sort gives the same array when the comparator is consistent). *)
Definition sort (l : list string) : list string :=
  foldr insertSorted [] l.

(** The guarded push followed by the sort. *)
Definition releaseSlot (tm : string) (table : TableDefinition) : TableDefinition :=
  if includes (availableTimes table) tm then table
  else setAvailableTimes (sort (availableTimes table ++ [tm])) table.

(** The table the slot goes back to: by id, or for a booking without
    [bookedTableDefinitionId] the first table of that size lacking the slot. *)
Definition releaseTarget (booking : Booking) (table : TableDefinition) : bool :=
  match bookedTableDefinitionId booking with
  | Some tid => hasId tid table
  | None =>
      (tableSize table =? bookedTableSize booking)
      && negb (includes (availableTimes table) (time booking))
  end.

Definition releaseIn (booking : Booking) (restaurant : Restaurant) : Restaurant :=
  setAvailableTables
    (updateFirst (sameUtcDay (bookingDate booking))
       (fun entry =>
          setTables (updateFirst (releaseTarget booking)
                       (releaseSlot (time booking)) (tables entry)) entry)
       (availableTables restaurant))
    restaurant.

Definition cancelBooking (user : User) (id : ObjectId) (st : Store)
  : Response Booking * Store :=
  match bookings st !! id with
  | None => (BookingNotFoundOrCancelledError, st)
  | Some booking =>
    if negb (userId booking =? user_id user)%N
    then (BookingNotFoundOrCancelledError, st)
    else
      match status booking with
      | cancelled => (BookingNotFoundOrCancelledError, st)
      | confirmed =>
        let booking' := setStatus cancelled booking in
        let st1 := setBookings (<[id := booking']> (bookings st)) st in
        match restaurants st1 !! restaurantId booking with
        | None => (Json 200 booking', st1)
        | Some restaurant =>
          match List.find (sameUtcDay (bookingDate booking))
                  (availableTables restaurant) with
          | None => (Json 200 booking', st1)
          | Some entry =>
            match List.find (releaseTarget booking) (tables entry) with
            | None => (Json 200 booking', st1)
            | Some specificTableDefinition =>
              if includes (availableTimes specificTableDefinition) (time booking)
              then (Json 200 booking', st1)
              else
                (Json 200 booking',
                 setRestaurants
                   (<[restaurantId booking := releaseIn booking restaurant]>
                      (restaurants st1)) st1)
            end
          end
        end
      end
  end.

End Cancel.
End ControllerB.

(** ** Restaurant controller: searchRestaurants *)
Module Search.
Section Search.

(** [moment(s, 'HH:mm')]: minutes since midnight, [None] when invalid. *)
Variable momentHHmm : string -> option Z.

(** [new RegExp(pattern, 'i').test(subject)]. *)
Variable regexTestI : string -> string -> bool.

(** The [$match] on [isApproved] and, when a location is given, on
    [address.city] (pattern) or [address.zip] (equality). *)
Definition initialQuery (location : option string) (r : Restaurant) : bool :=
  isApproved r
  && match location with
     | Some loc =>
         if truthyStr location
         then regexTestI loc (city r) || String.eqb (zip r) loc
         else true
     | None => true
     end.

(** [parseInt(part, 10)] of the i-th piece, NaN when it is missing. *)
Definition parsePart (parts : list string) (i : nat) : option Z :=
  parts !! i ≫= parseInt10.

(** [new Date(Date.UTC(year, month - 1, day))] from [date.split('-')];
    [None] is an invalid Date. *)
Definition searchDate (date : string) : option Z :=
  let parts := split "-" date in
  match parsePart parts 0, parsePart parts 1, parsePart parts 2 with
  | Some y, Some m, Some d => DateUTC y (m - 1) d
  | _, _, _ => None
  end.

(** [numericPartySize] and [filterByPartySize]. *)
Definition partySizeFilter (partySize : option string) : Z * bool :=
  if truthyStr partySize then
    match partySize ≫= parseInt10 with
    | Some n => if 0 <? n then (n, true) else (n, false)
    | None => (0, false)
    end
  else (0, false).

(** [$gte: ["$$slot", startTimeStr]] and [$lte: ["$$slot", endTimeStr]]:
    strings compare byte by byte. *)
Definition inWindow (startTimeStr endTimeStr slot : string) : bool :=
  String.leb startTimeStr slot && String.leb slot endTimeStr.

(** The [$filter] producing [dateEntry]: stored date equal to [searchDate]. *)
Definition dateEntry (sd : option Z) (r : Restaurant) : list DateAvailability :=
  List.filter (fun entry => bool_decide (Some (date entry) = sd))
    (availableTables r).

(** The condition of the [$filter] producing [matchingTables]. *)
Definition tableMatches (filterByPartySize : bool) (numericPartySize : Z)
  (startTimeStr endTimeStr : string) (table : TableDefinition) : bool :=
  (if filterByPartySize then numericPartySize <=? tableSize table else true)
  && (0 <? Z.of_nat
        (length (List.filter (inWindow startTimeStr endTimeStr)
                   (availableTimes table)))).

Definition matchingTables (filterByPartySize : bool) (numericPartySize : Z)
  (startTimeStr endTimeStr : string) (entry : DateAvailability)
  : list TableDefinition :=
  List.filter
    (tableMatches filterByPartySize numericPartySize startTimeStr endTimeStr)
    (tables entry).

(** The stages of the aggregation pipeline up to the [$project]. *)
Definition pipeline (location : option string) (sd : option Z)
  (filterByPartySize : bool) (numericPartySize : Z)
  (startTimeStr endTimeStr : string) (r : Restaurant) : bool :=
  initialQuery location r
  && match dateEntry sd r with
     | [] => false
     | entry :: _ =>
         match matchingTables filterByPartySize numericPartySize
                 startTimeStr endTimeStr entry with
         | [] => false
         | _ :: _ => true
         end
     end.

(** The documents a [Restaurant.aggregate] keeps; the review and manager
    annotations and the order of the documents are left out. *)
Definition aggregate (keep : Restaurant -> bool)
  (rs : gmap ObjectId Restaurant) : gmap ObjectId Restaurant :=
  filter (fun kv => Is_true (keep kv.2)) rs.

(** With a date and a time: the time is checked first (400); then the
    handler logs [searchDate.toISOString()], which throws a RangeError on
    an invalid Date, and the [catch] answers 500; then the pipeline runs. *)
Definition searchRestaurants (location date time partySize : option string)
  (rs : gmap ObjectId Restaurant) : Response (gmap ObjectId Restaurant) :=
  match date, time with
  | Some dt, Some tm =>
    if truthyStr date && truthyStr time then
      let sd := searchDate dt in
      let '(numericPartySize, filterByPartySize) := partySizeFilter partySize in
      match momentHHmm tm with
      | None => InvalidTimeFormatError
      | Some searchTime =>
        match sd with
        | None => SearchError
        | Some _ =>
          let startTimeStr := formatHHmm (searchTime - 30) in
          let endTimeStr := formatHHmm (searchTime + 30) in
          Json 200
            (aggregate
               (pipeline location sd filterByPartySize numericPartySize
                  startTimeStr endTimeStr) rs)
        end
      end
    else Json 200 (aggregate (initialQuery location) rs)
  | _, _ => Json 200 (aggregate (initialQuery location) rs)
  end.

End Search.
End Search.

(** ** A parser for the canonical wire format

    An instance of the [moment(s, 'HH:mm')] parameter on which the model
    can be run: two digits, a colon, two digits, hour below 24 and minute
    below 60. *)
Definition canonicalHHmm (s : string) : option Z :=
  match s with
  | String a (String b (String ":" (String c (String d "")))) =>
      match digitOf a, digitOf b, digitOf c, digitOf d with
      | Some a, Some b, Some c, Some d =>
          let h := 10 * a + b in
          let m := 10 * c + d in
          if (h <? 24) && (m <? 60) then Some (60 * h + m) else None
      | _, _, _, _ => None
      end
  | _ => None
  end.

(** An instance of the regular expression test: substring search that
    ignores nothing (enough for patterns without metacharacters or case). *)
Fixpoint substringTest (pattern subject : string) : bool :=
  String.prefix pattern subject
  || match subject with
     | EmptyString => false
     | String _ r => substringTest pattern r
     end.

(** ** A sample store (the scenarios of the specification)

    Restaurant 1 has, on 2024-06-01, one table of size 4 that is open at
    18:00 and 18:30. *)
Module Sample.

Definition june1 : Z := 1717200000000.

Definition table7 : TableDefinition :=
  {| table_id := 7%N; tableSize := 4; availableTimes := ["18:00"; "18:30"] |}.

Definition restaurantX : Restaurant :=
  {| isApproved := true; city := "San Jose"; zip := "95112";
     availableTables := [ {| date := june1; tables := [table7] |} ];
     timesBookedToday := 0 |}.

Definition store0 : Store :=
  {| restaurants := {[ 1%N := restaurantX ]}; bookings := ∅; nextId := 100%N |}.

Definition diner : User := {| user_id := 5%N; role := "customer" |}.
Definition other : User := {| user_id := 6%N; role := "customer" |}.
Definition admin : User := {| user_id := 9%N; role := "admin" |}.

(** Scenario A: the diner books the table for four at 18:00. *)
Definition store1 : Store :=
  (createBooking diner (Some 1%N) (Some june1) (Some "18:00") (JSNumber 4) store0).2.

(** The availableTimes of the only table of restaurant 1. *)
Definition slotsOf (st : Store) : list (list string) :=
  match restaurants st !! 1%N with
  | Some r => flat_map (fun e => map availableTimes (tables e)) (availableTables r)
  | None => []
  end.

End Sample.

(** ** Notions the properties are stated with *)

(** A table qualifies for a party and a time. *)
Definition qualifies (n : Z) (tm : string) (table : TableDefinition) : Prop :=
  n <= tableSize table /\ In tm (availableTimes table).

(** A request that passes validation and names an existing restaurant. *)
Definition validRequest (tm : string) (ps : JSValue) (n : Z) : Prop :=
  tm <> "" /\ truthy ps = true /\ parseInt ps = Some n /\ 0 < n.



(** The inclusive window of thirty minutes either side, on HH:mm strings. *)
Definition withinWindow (searchTime : Z) (slot : string) : Prop :=
  String.leb (formatHHmm (searchTime - 30)) slot = true
  /\ String.leb slot (formatHHmm (searchTime + 30)) = true.

Definition belowSixty : list Z := map Z.of_nat (seq 0 60).

(** Restaurant Y stores its entry for 2024-06-01 with a time of day (noon
    UTC) instead of midnight. *)
Module SampleNoon.

Definition noon : Z := Sample.june1 + 43200000.

Definition entryY : DateAvailability :=
  {| date := noon; tables := [Sample.table7] |}.

Definition restaurantY : Restaurant :=
  {| isApproved := true; city := "San Jose"; zip := "95112";
     availableTables := [entryY]; timesBookedToday := 0 |}.

Definition store0 : Store :=
  {| restaurants := {[ 2%N := restaurantY ]}; bookings := ∅; nextId := 100%N |}.

End SampleNoon.

(** Restaurant Z is open late on 2024-06-01: one table of size 4 at 23:30
    and 23:45, stored under UTC midnight of that day. *)
Module SampleLate.

Definition tableZ : TableDefinition :=
  {| table_id := 8%N; tableSize := 4; availableTimes := ["23:30"; "23:45"] |}.

Definition entryZ : DateAvailability :=
  {| date := Sample.june1; tables := [tableZ] |}.

Definition restaurantZ : Restaurant :=
  {| isApproved := true; city := "San Jose"; zip := "95112";
     availableTables := [entryZ]; timesBookedToday := 0 |}.

Definition collection : gmap ObjectId Restaurant := {[ 3%N := restaurantZ ]}.

End SampleLate.


(** The table a booking key designates: restaurant, UTC day, table id,
    each resolved the way the controllers resolve it (first match). *)
Definition onDay (day : Z) (e : DateAvailability) : bool := utcDay (date e) =? day.

Definition tableAt (rs : gmap ObjectId Restaurant) (rid : ObjectId) (day : Z)
  (tid : ObjectId) : option TableDefinition :=
  match rs !! rid with
  | Some r =>
      match List.find (onDay day) (availableTables r) with
      | Some e => List.find (hasId tid) (tables e)
      | None => None
      end
  | None => None
  end.

Definition slotTimes (rs : gmap ObjectId Restaurant) (rid : ObjectId) (day : Z)
  (tid : ObjectId) : list string :=
  match tableAt rs rid day tid with
  | Some t => availableTimes t
  | None => []
  end.

(** A confirmed booking holds the slot. *)
Definition confirmedOn (bs : gmap ObjectId Booking) (rid : ObjectId) (day : Z)
  (tid : ObjectId) (s : string) : Prop :=
  exists id b,
    bs !! id = Some b /\ status b = confirmed /\ restaurantId b = rid
    /\ bookedTableDefinitionId b = Some tid
    /\ utcDay (bookingDate b) = day /\ time b = s.

(** Stored dates are UTC midnights of distinct days, and table ids are
    distinct within an entry. *)
Definition wellFormedRestaurant (r : Restaurant) : Prop :=
  List.NoDup (map (fun e => utcDay (date e)) (availableTables r))
  /\ forall e, In e (availableTables r) ->
               date e mod msPerDay = 0 /\ List.NoDup (map table_id (tables e)).

(** The in-place update all three mutations share: the first table
    satisfying [pt] in the first entry satisfying [pd]. *)
Definition updateTable (pd : DateAvailability -> bool) (pt : TableDefinition -> bool)
  (ft : TableDefinition -> TableDefinition) (r : Restaurant) : list DateAvailability :=
  updateFirst pd (fun e => setTables (updateFirst pt ft (tables e)) e)
    (availableTables r).

(** What the two controllers maintain, relative to the store [st0] the
    inventory was seeded in. *)
Record Inv (st0 st : Store) : Prop := {
  inv_wf : forall rid r,
    restaurants st !! rid = Some r -> wellFormedRestaurant r;
  inv_tables : forall rid day tid,
    tableAt (restaurants st0) rid day tid <> None ->
    tableAt (restaurants st) rid day tid <> None;
  inv_slots : forall rid day tid s,
    In s (slotTimes (restaurants st) rid day tid) <->
    In s (slotTimes (restaurants st0) rid day tid)
    /\ ~ confirmedOn (bookings st) rid day tid s;
  inv_fresh : forall id b, bookings st !! id = Some b -> (id < nextId st)%N;
  inv_booked : forall id b,
    bookings st !! id = Some b -> status b = confirmed ->
    bookingDate b mod msPerDay = 0
    /\ exists tid,
         bookedTableDefinitionId b = Some tid
         /\ In (time b)
              (slotTimes (restaurants st0) (restaurantId b)
                 (utcDay (bookingDate b)) tid);
  inv_unique : forall id1 b1 id2 b2,
    bookings st !! id1 = Some b1 -> bookings st !! id2 = Some b2 ->
    status b1 = confirmed -> status b2 = confirmed ->
    restaurantId b1 = restaurantId b2 ->
    bookedTableDefinitionId b1 = bookedTableDefinitionId b2 ->
    utcDay (bookingDate b1) = utcDay (bookingDate b2) ->
    time b1 = time b2 -> id1 = id2
}.

(** The inventory of [st'] is that of [st] with table [t] at the given
    key replaced by [t']. *)
Definition inventoryChange (st st' : Store) (rid : ObjectId) (day : Z)
  (tid : ObjectId) (t t' : TableDefinition) : Prop :=
  (forall rid' r', restaurants st' !! rid' = Some r' -> wellFormedRestaurant r')
  /\ tableAt (restaurants st) rid day tid = Some t
  /\ forall rid' day' tid',
       tableAt (restaurants st') rid' day' tid'
       = if decide (rid' = rid /\ day' = day /\ tid' = tid)
         then Some t' else tableAt (restaurants st) rid' day' tid'.

(** A store as the seeding step leaves it: no booking yet, every
    restaurant well formed. *)
Definition seeded (st0 : Store) : Prop :=
  bookings st0 = ∅
  /\ forall rid r, restaurants st0 !! rid = Some r -> wellFormedRestaurant r.

(** C1 as the specification words it. *)
Definition slotInvariant (st : Store) : Prop :=
  forall rid r entry table s,
    restaurants st !! rid = Some r ->
    In entry (availableTables r) -> In table (tables entry) ->
    (In s (availableTimes table) <->
     ~ confirmedOn (bookings st) rid (utcDay (date entry)) (table_id table) s).

(** C1 restricted to the slots the table was seeded with. *)
Definition seededSlotInvariant (st0 st : Store) : Prop :=
  forall rid r entry table s,
    restaurants st !! rid = Some r ->
    In entry (availableTables r) -> In table (tables entry) ->
    (In s (availableTimes table) <->
     In s (slotTimes (restaurants st0) rid (utcDay (date entry)) (table_id table))
     /\ ~ confirmedOn (bookings st) rid (utcDay (date entry)) (table_id table) s).

(** ** Runs of the controllers *)
Section Runs.

(** The environment of the controllers. *)
Variable utcOffset : Z.
Variable momentHHmm : string -> option Z.

(** One request served, by either copy of the controller. *)
Inductive step (st : Store) : Store -> Prop :=
| step_create user rid d tm ps :
    step st (createBooking user rid d tm ps st).2
| step_cancelA user id :
    step st (ControllerA.cancelBooking utcOffset user id st).2
| step_cancelB user id :
    step st (ControllerB.cancelBooking momentHHmm user id st).2.

Definition reachable : Store -> Store -> Prop := rtc step.

(** Chronological order without duplicates, as moment reads the times. *)
Definition chronological (l : list string) : Prop :=
  StronglySorted (fun a b => ControllerB.diffHHmm momentHHmm a b < 0) l.

End Runs.

(** ** Booking controller: getUserBookings, getRestaurantBookings

    [Booking.find(filter).sort({ date: -1 })]: the matching documents,
    latest date first. MongoDB leaves the order of documents with equal
    dates open; here they keep the order of the collection. The populated
    fields of the answer are left out. *)
Fixpoint insertByDateDesc (b : Booking) (l : list Booking) : list Booking :=
  match l with
  | [] => [b]
  | c :: r =>
      if bookingDate c <=? bookingDate b then b :: l
      else c :: insertByDateDesc b r
  end.

Definition sortByDateDesc (l : list Booking) : list Booking :=
  foldr insertByDateDesc [] l.

Definition findBookings (p : Booking -> bool) (bs : gmap ObjectId Booking)
  : list Booking :=
  sortByDateDesc (List.filter p (map snd (map_to_list bs))).

Definition getUserBookings (user : User) (st : Store) : Response (list Booking) :=
  Json 200 (findBookings (fun b => (userId b =? user_id user)%N) (bookings st)).

Definition getRestaurantBookings (restaurantIdParam : ObjectId) (st : Store)
  : Response (list Booking) :=
  Json 200 (findBookings (fun b => (restaurantId b =? restaurantIdParam)%N)
              (bookings st)).

(** The body of a [Json] answer holding a list, empty for an error. *)
Definition listed {A} (r : Response (list A)) : list A :=
  match r with
  | Json _ l => l
  | Error _ _ => []
  end.

(** What a cancellation or a booking leaves alone in a restaurant
    document: everything but the lists of available times (and, for a
    booking, the display counter). *)
Definition tableShape (t : TableDefinition) : ObjectId * Z :=
  (table_id t, tableSize t).

Definition entryShape (e : DateAvailability) : Z * list (ObjectId * Z) :=
  (date e, map tableShape (tables e)).

Definition restaurantShape (r : Restaurant)
  : bool * string * string * list (Z * list (ObjectId * Z)) :=
  (isApproved r, city r, zip r, map entryShape (availableTables r)).

(** Order by time of day, as the comparator of the second copy reads it. *)
Definition earlierOrSame (momentHHmm : string -> option Z) (a b : string) : Prop :=
  ControllerB.diffHHmm momentHHmm a b <= 0.

(** What a cancellation of booking [id] may change between [st] and
    [st']: the status of that booking, and available times. *)
Definition cancelFrame (id : ObjectId) (st st' : Store) : Prop :=
  nextId st' = nextId st
  /\ (forall id', id' <> id -> bookings st' !! id' = bookings st !! id')
  /\ (bookings st' !! id = bookings st !! id
      \/ exists b, bookings st !! id = Some b /\ status b = confirmed
                   /\ bookings st' !! id = Some (setStatus cancelled b))
  /\ (forall rid, restaurantShape <$> (restaurants st' !! rid)
                  = restaurantShape <$> (restaurants st !! rid))
  /\ (forall rid, timesBookedToday <$> (restaurants st' !! rid)
                  = timesBookedToday <$> (restaurants st !! rid))
  /\ (forall b rid, bookings st !! id = Some b -> rid <> restaurantId b ->
                    restaurants st' !! rid = restaurants st !! rid).

(** Order of a listing: latest date first. *)
Definition laterOrSame (a b : Booking) : Prop := bookingDate b <= bookingDate a.

(** A non-empty run of decimal digits. *)
Fixpoint allDigits (s : string) : bool :=
  match s with
  | EmptyString => true
  | String c r => match digitOf c with Some _ => allDigits r | None => false end
  end.

Definition isNumeral (s : string) : bool :=
  match s with
  | EmptyString => false
  | String _ _ => allDigits s
  end.

(** The text is empty or starts with a character that is not a digit. *)
Definition noLeadingDigit (s : string) : bool :=
  match s with
  | EmptyString => true
  | String c _ => match digitOf c with Some _ => false | None => true end
  end.

(** The text up to the first occurrence of [sep]. *)
Fixpoint upTo (sep : ascii) (s : string) : string :=
  match s with
  | EmptyString => EmptyString
  | String c r => if Ascii.eqb c sep then EmptyString else String c (upTo sep r)
  end.

(** ** Restaurant controller: moderation, update, deletion, listings

    A restaurant document with the two further paths these handlers read
    or write. The booking controller and the search see its [fields]. *)
Record RestaurantDoc := {
  fields : Restaurant;
  isPending : bool;
  managerId : ObjectId
}.

Definition setIsApproved (a : bool) (r : Restaurant) : Restaurant :=
  {| isApproved := a; city := city r; zip := zip r;
     availableTables := availableTables r;
     timesBookedToday := timesBookedToday r |}.

(** [isApproved] and [isPending] written together. *)
Definition setApproval (approved pending : bool) (d : RestaurantDoc) : RestaurantDoc :=
  {| fields := setIsApproved approved (fields d); isPending := pending;
     managerId := managerId d |}.

Definition OnlyAdminsApproveError {A} : Response A :=
  Error 403 "Forbidden: Only admins can approve restaurants.".
Definition NotFoundOrNotAuthorizedToDeleteError {A} : Response A :=
  Error 404 "Restaurant not found or not authorized to delete".
Definition PleaseAuthenticateError {A} : Response A :=
  Error 401 "Please authenticate".

(** [Restaurant.findByIdAndUpdate(id, { isApproved: true, isPending: false })]
    behind the handler's own role check. *)
Definition approveRestaurant (user : User) (id : ObjectId)
  (docs : gmap ObjectId RestaurantDoc)
  : Response RestaurantDoc * gmap ObjectId RestaurantDoc :=
  if negb (String.eqb (role user) "admin") then (OnlyAdminsApproveError, docs)
  else
    match docs !! id with
    | None => (RestaurantNotFoundError, docs)
    | Some d =>
        let restaurant := setApproval true false d in
        (Json 200 restaurant, <[id := restaurant]> docs)
    end.

Definition setRestaurantOnHold (id : ObjectId) (docs : gmap ObjectId RestaurantDoc)
  : Response RestaurantDoc * gmap ObjectId RestaurantDoc :=
  match docs !! id with
  | None => (RestaurantNotFoundError, docs)
  | Some d =>
      let updatedRestaurant := setApproval false true d in
      (Json 200 updatedRestaurant, <[id := updatedRestaurant]> docs)
  end.

(** [findOneAndDelete(query)]: the query names the manager only when the
    requester's role is 'manager'. *)
Definition deleteRestaurant (user : User) (id : ObjectId)
  (docs : gmap ObjectId RestaurantDoc)
  : Response string * gmap ObjectId RestaurantDoc :=
  match docs !! id with
  | Some d =>
      if String.eqb (role user) "manager" && negb (managerId d =? user_id user)%N
      then (NotFoundOrNotAuthorizedToDeleteError, docs)
      else (Json 200 "Restaurant deleted successfully", delete id docs)
  | None => (NotFoundOrNotAuthorizedToDeleteError, docs)
  end.

(** [getAllRestaurants]: an admin sees every document, anyone else the
    approved ones. The model says which documents are listed; the
    [$lookup] and [$project] stages, which reshape each listed document,
    are left out. *)
Definition getAllRestaurants (user : option User) (docs : gmap ObjectId RestaurantDoc)
  : gmap ObjectId RestaurantDoc :=
  match user with
  | Some u =>
      if String.eqb (role u) "admin" then docs
      else filter (fun kv => Is_true (isApproved (fields kv.2))) docs
  | None => filter (fun kv => Is_true (isApproved (fields kv.2))) docs
  end.

(** [getManagedRestaurants]: the documents whose manager is the requester,
    before the same reshaping stages. *)
Definition getManagedRestaurants (user : User) (docs : gmap ObjectId RestaurantDoc)
  : gmap ObjectId RestaurantDoc :=
  filter (fun kv => managerId kv.2 = user_id user) docs.

(** ** Routes of the restaurant controller

    [auth] leaves the user of a valid token on the request ([None]: the
    token is missing or invalid, the answer is 401); [authorize(...roles)]
    follows, then the handler. *)
Definition refused {A} (r : Response unit) : Response A :=
  match r with
  | Error code msg => Error code msg
  | Json code _ => Error code ""
  end.

Definition guarded {A S} (roles : list string) (user : option User)
  (handler : User -> S -> Response A * S) (s : S) : Response A * S :=
  match user with
  | None => (PleaseAuthenticateError, s)
  | Some u =>
      match authorize roles (Some u) with
      | Some r => (refused r, s)
      | None => handler u s
      end
  end.

(** [router.put('/:id/approve', auth, authorize('admin'), approveRestaurant)]. *)
Definition routeApprove (user : option User) (id : ObjectId) :=
  guarded ["admin"] user (fun u => approveRestaurant u id).

(** [router.put('/:id/hold', auth, authorize('admin'), setRestaurantOnHold)]. *)
Definition routeHold (user : option User) (id : ObjectId) :=
  guarded ["admin"] user (fun _ => setRestaurantOnHold id).

(** [router.delete('/:id', auth, authorize('manager', 'admin'), deleteRestaurant)]. *)
Definition routeDelete (user : option User) (id : ObjectId) :=
  guarded ["manager"; "admin"] user (fun u => deleteRestaurant u id).

(** [router.get('/', auth, authorize('admin'), getAllRestaurants)]. *)
Definition routeGetAll (user : option User) :=
  guarded ["admin"] user
    (fun u (docs : gmap ObjectId RestaurantDoc) =>
       (Json 200 (getAllRestaurants (Some u) docs), docs)).

(** [router.get('/my-restaurants', auth, authorize('manager'), getManagedRestaurants)]. *)
Definition routeMyRestaurants (user : option User) :=
  guarded ["manager"] user
    (fun u (docs : gmap ObjectId RestaurantDoc) =>
       (Json 200 (getManagedRestaurants u docs), docs)).

(** What the public search sees of the collection. *)
Definition publicView (docs : gmap ObjectId RestaurantDoc) : gmap ObjectId Restaurant :=
  fields <$> docs.

(** ** Restaurant controller: updateRestaurant

    [Object.assign(restaurant, req.body)] for a body made of the top-level
    paths below ([None]: the body does not hold the path). Bodies with
    other paths (name, address, hours, ...) are outside this model. *)
Record RestaurantBody := {
  body_isApproved : option bool;
  body_isPending : option bool;
  body_managerId : option ObjectId;
  body_availableTables : option (list DateAvailability);
  body_timesBookedToday : option Z
}.

Definition emptyBody : RestaurantBody :=
  {| body_isApproved := None; body_isPending := None; body_managerId := None;
     body_availableTables := None; body_timesBookedToday := None |}.

Definition assign (body : RestaurantBody) (d : RestaurantDoc) : RestaurantDoc :=
  {| fields :=
       {| isApproved := default (isApproved (fields d)) (body_isApproved body);
          city := city (fields d);
          zip := zip (fields d);
          availableTables :=
            default (availableTables (fields d)) (body_availableTables body);
          timesBookedToday :=
            default (timesBookedToday (fields d)) (body_timesBookedToday body) |};
     isPending := default (isPending d) (body_isPending body);
     managerId := default (managerId d) (body_managerId body) |}.

(** [Restaurant.findOne({ _id, managerId: req.user._id })], then the
    assignment and the save. *)
Definition updateRestaurant (user : User) (id : ObjectId) (body : RestaurantBody)
  (docs : gmap ObjectId RestaurantDoc)
  : Response RestaurantDoc * gmap ObjectId RestaurantDoc :=
  match docs !! id with
  | Some d =>
      if (managerId d =? user_id user)%N then
        let restaurant := assign body d in
        (Json 200 restaurant, <[id := restaurant]> docs)
      else (RestaurantNotFoundError, docs)
  | None => (RestaurantNotFoundError, docs)
  end.

(** [router.put('/:id', auth, authorize('manager'), updateRestaurant)]. *)
Definition routeUpdate (user : option User) (id : ObjectId) (body : RestaurantBody) :=
  guarded ["manager"] user (fun u => updateRestaurant u id body).

(** A collection with one restaurant awaiting approval, and its manager. *)
Module SampleDocs.

Definition pending : RestaurantDoc :=
  {| fields := setIsApproved false Sample.restaurantX; isPending := true;
     managerId := 8%N |}.

Definition collection : gmap ObjectId RestaurantDoc := {[ 1%N := pending ]}.

Definition manager : User := {| user_id := 8%N; role := "manager" |}.

End SampleDocs.

(** ** Mail service: sendBookingConfirmationEmail

    The decision to send, the recipient and the subject; the sender
    address and the markup of the body are left out. [None] for an
    argument is [null] or [undefined]; the result is [None] when the
    function returns without calling the transporter. *)
Record MailUser := {
  email : string;
  firstName : string
}.

Record Mail := {
  mailTo : string;
  subject : string
}.

Definition sendBookingConfirmationEmail (user : option MailUser)
  (booking : option Booking) (restaurantName : option string) : option Mail :=
  match user with
  | Some u =>
      if String.eqb (email u) "" || String.eqb (firstName u) "" then None
      else
        match booking with
        | Some b =>
            if String.eqb (time b) "" || (partySize b =? 0) then None
            else
              match restaurantName with
              | Some name =>
                  if String.eqb name "" then None
                  else Some {| mailTo := email u;
                               subject :=
                                 String.append "Your Booking Confirmation at " name |}
              | None => None
              end
        | None => None
        end
  | None => None
  end.

(** ** Dashboard: filterBookings

    [tabValue] 0 is the tab of upcoming bookings, any other value the tab
    of past and cancelled ones. The moment built from a booking's date
    and time in the browser's zone is a parameter: its instant, or [None]
    when the moment is invalid, in which case [isAfter] and [isBefore]
    both answer false. [now] is a parameter too. *)
Definition isAfter (m : option Z) (now : Z) : bool :=
  match m with Some t => now <? t | None => false end.

Definition isBefore (m : option Z) (now : Z) : bool :=
  match m with Some t => t <? now | None => false end.

Definition filterBookings (bookingDateTime : Booking -> option Z) (now : Z)
  (tabValue : Z) (userBookings : list Booking) : list Booking :=
  List.filter
    (fun booking =>
       if tabValue =? 0
       then isAfter (bookingDateTime booking) now
            && negb (bool_decide (status booking = cancelled))
       else isBefore (bookingDateTime booking) now
            || bool_decide (status booking = cancelled))
    userBookings.

(** ** Properties *)

(** *** Lists and [find] *)


Lemma find_app_first {A} (p : A -> bool) (pre post : list A) (x : A) :
  (forall y, In y pre -> p y = false) -> p x = true ->
  List.find p (pre ++ x :: post) = Some x.
Proof.
  induction pre as [|a pre IH]; simpl; intros Hpre Hx.
  - now rewrite Hx.
  - rewrite (Hpre a) by auto. apply IH; auto.
Qed.

Lemma find_none_iff {A} (p : A -> bool) (l : list A) :
  List.find p l = None <-> (forall y, In y l -> p y = false).
Proof.
  split; [apply find_none|].
  induction l as [|a l IH]; simpl; auto.
  intros H. rewrite (H a) by auto. apply IH. auto.
Qed.

Lemma find_ext {A} (p q : A -> bool) (l : list A) :
  (forall y, In y l -> p y = q y) -> List.find p l = List.find q l.
Proof.
  induction l as [|a l IH]; simpl; auto.
  intros H. rewrite (H a) by auto. destruct (q a); auto.
Qed.

Lemma updateFirst_ext {A} (p q : A -> bool) (f g : A -> A) (l : list A) :
  (forall y, In y l -> p y = q y) -> (forall y, In y l -> f y = g y) ->
  updateFirst p f l = updateFirst q g l.
Proof.
  induction l as [|a l IH]; simpl; auto.
  intros Hp Hf. rewrite (Hp a), (Hf a) by auto.
  destruct (q a); auto. f_equal. apply IH; auto.
Qed.

Lemma includes_In (a : list string) (x : string) :
  includes a x = true <-> In x a.
Proof.
  unfold includes. rewrite existsb_exists. split.
  - intros (y & Hy & Heq). apply String.eqb_eq in Heq. now subst.
  - intros H. exists x. split; auto. apply String.eqb_refl.
Qed.

(** *** The matcher *)

Lemma suits_qualifies n tm table : suits n tm table = true <-> qualifies n tm table.
Proof.
  unfold suits, qualifies. rewrite andb_true_iff, Z.leb_le, includes_In. tauto.
Qed.

Lemma suits_false n tm table : suits n tm table = false <-> ~ qualifies n tm table.
Proof.
  rewrite <- suits_qualifies. destruct (suits n tm table); split; congruence.
Qed.

Lemma createBooking_valid user rid d tm ps n st restaurant :
  validRequest tm ps n -> restaurants st !! rid = Some restaurant ->
  createBooking user (Some rid) (Some d) (Some tm) ps st =
  match availabilityForDate restaurant d with
  | None => (NoAvailabilityForDate, st)
  | Some entry =>
    match suitableTable entry n tm with
    | None => (NoSuitableTable, st)
    | Some table =>
      (Json 201
         {| booking_id := nextId st; userId := user_id user; restaurantId := rid;
            bookingDate := startOfDayUTC d; time := tm; partySize := n;
            bookedTableSize := tableSize table;
            bookedTableDefinitionId := Some (table_id table);
            status := confirmed |},
       {| restaurants :=
            <[rid := incTimesBookedToday (consumeIn d n tm restaurant)]> (restaurants st);
          bookings :=
            <[nextId st :=
                {| booking_id := nextId st; userId := user_id user; restaurantId := rid;
                   bookingDate := startOfDayUTC d; time := tm; partySize := n;
                   bookedTableSize := tableSize table;
                   bookedTableDefinitionId := Some (table_id table);
                   status := confirmed |}]> (bookings st);
          nextId := N.succ (nextId st) |})
    end
  end.
Proof.
  intros (Htm & Hps & Hn & Hpos) Hr. unfold createBooking, truthyStr.
  assert (String.eqb tm "" = false) as -> by now apply String.eqb_neq.
  rewrite Hps, Hn. simpl.
  assert ((n <=? 0) = false) as -> by lia.
  rewrite Hr. reflexivity.
Qed.

Lemma first_entry_of_the_day restaurant d before entry after :
  availableTables restaurant = before ++ entry :: after ->
  utcDay (date entry) = utcDay d ->
  (forall e, In e before -> utcDay (date e) <> utcDay d) ->
  availabilityForDate restaurant d = Some entry.
Proof.
  intros Hl He Hbefore. unfold availabilityForDate. rewrite Hl.
  apply find_app_first.
  - intros e Hin. apply Z.eqb_neq. auto.
  - now apply Z.eqb_eq.
Qed.

(** C6. When the restaurant stores an entry for the requested UTC day,
    the matcher works on the first such entry and returns its first
    table, in the order of the stored array, whose tableSize is at least
    partySize and whose availableTimes holds exactly the requested string;
    without such a table the answer is NoSuitableTable, and without an
    entry for the day it is NoAvailabilityForDate. *)
Theorem C6_first_fit_matcher user rid d tm ps n st restaurant :
  validRequest tm ps n -> restaurants st !! rid = Some restaurant ->
  let result := createBooking user (Some rid) (Some d) (Some tm) ps st in
  ((forall e, In e (availableTables restaurant) -> utcDay (date e) <> utcDay d) ->
   result = (NoAvailabilityForDate, st))
  /\ (forall before entry after,
      availableTables restaurant = before ++ entry :: after ->
      utcDay (date entry) = utcDay d ->
      (forall e, In e before -> utcDay (date e) <> utcDay d) ->
      ((forall t, In t (tables entry) -> ~ qualifies n tm t) ->
       result = (NoSuitableTable, st))
      /\ (forall pre table post,
            tables entry = pre ++ table :: post ->
            (forall t, In t pre -> ~ qualifies n tm t) ->
            qualifies n tm table ->
            exists b st',
              result = (Json 201 b, st')
              /\ status b = confirmed
              /\ bookedTableDefinitionId b = Some (table_id table)
              /\ bookedTableSize b = tableSize table
              /\ suitableTable entry n tm = Some table)).
Proof.
  intros Hv Hr result. subst result.
  rewrite (createBooking_valid _ _ _ _ _ _ _ _ Hv Hr).
  split.
  - intros Hno.
    assert (availabilityForDate restaurant d = None) as ->; [|reflexivity].
    apply find_none_iff. intros e He. unfold sameUtcDay.
    apply Z.eqb_neq. auto.
  - intros before entry after Hl He Hbefore.
    rewrite (first_entry_of_the_day _ _ _ _ _ Hl He Hbefore). split.
    + intros Hno.
      assert (suitableTable entry n tm = None) as ->; [|reflexivity].
      apply find_none_iff. intros t Ht. apply suits_false. auto.
    + intros pre table post Htabs Hpre Hq.
      assert (suitableTable entry n tm = Some table) as Hfind.
      { unfold suitableTable. rewrite Htabs. apply find_app_first.
        - intros t Ht. apply suits_false. auto.
        - now apply suits_qualifies. }
      rewrite Hfind. eexists _, _. repeat split; reflexivity || exact Hfind.
Qed.

Lemma sample_valid : validRequest "18:00" (JSNumber 4) 4.
Proof. repeat split; try reflexivity. discriminate. Defined.

(** A request at 10:00 UTC of 2024-06-01 is matched on the entry stored
    under midnight of that day. *)
Lemma C6_first_fit_matcher_witness :
  exists b st',
    createBooking Sample.diner (Some 1%N) (Some (Sample.june1 + 36000000))
      (Some "18:00") (JSNumber 4) Sample.store0 = (Json 201 b, st')
    /\ status b = confirmed
    /\ bookedTableDefinitionId b = Some 7%N
    /\ bookedTableSize b = 4
    /\ suitableTable {| date := Sample.june1; tables := [Sample.table7] |} 4 "18:00"
       = Some Sample.table7.
Proof.
  refine (proj2 (proj2 (C6_first_fit_matcher Sample.diner 1%N
            (Sample.june1 + 36000000) "18:00"
            (JSNumber 4) 4 Sample.store0 Sample.restaurantX sample_valid eq_refl)
            [] {| date := Sample.june1; tables := [Sample.table7] |} []
            eq_refl eq_refl _)
            [] Sample.table7 [] eq_refl _ _).
  - intros e [].
  - intros t [].
  - split; [vm_compute; discriminate | simpl; auto].
Defined.

(** *** Party size validation *)

Lemma createBooking_falsy_partySize user rid d tm ps st :
  truthy ps = false ->
  createBooking user rid d tm ps st = (MissingFieldsError, st).
Proof.
  intros Hps. unfold createBooking.
  destruct rid, d, tm; try reflexivity.
  rewrite Hps, orb_true_r. reflexivity.
Qed.

Lemma createBooking_nonpositive user rid d tm ps n st :
  tm <> "" -> truthy ps = true -> parseInt ps = Some n -> n <= 0 ->
  createBooking user (Some rid) (Some d) (Some tm) ps st = (InvalidPartySizeError, st).
Proof.
  intros Htm Hps Hn Hle. unfold createBooking, truthyStr.
  assert (String.eqb tm "" = false) as -> by now apply String.eqb_neq.
  rewrite Hps, Hn. simpl.
  assert ((n <=? 0) = true) as -> by lia. reflexivity.
Qed.

(** C7 as written fails for the number 0: it is falsy, the presence check
    answers first. *)
Lemma C7_counterexample :
  parseInt (JSNumber 0) = Some 0
  /\ (createBooking Sample.diner (Some 1%N) (Some Sample.june1) (Some "18:00")
        (JSNumber 0) Sample.store0).1 = MissingFieldsError
  /\ (createBooking Sample.diner (Some 1%N) (Some Sample.june1) (Some "18:00")
        (JSNumber 0) Sample.store0).1 <> InvalidPartySizeError.
Proof.
  split; [reflexivity|]. split; [reflexivity|].
  vm_compute. discriminate.
Qed.

(** C7 (amended). With the other fields present: a partySize that is
    truthy in JavaScript and parses to zero or below (a negative number, a
    text such as "0" or "-3") is answered InvalidPartySizeError; a falsy
    partySize (the number 0, the empty text, undefined) is answered
    MissingFieldsError by the presence check that comes first. A table
    whose tableSize equals partySize is eligible, a table whose tableSize
    is partySize minus one is not. *)
Theorem C7_party_size_boundary user rid d tm st :
  tm <> "" ->
  (forall ps n, truthy ps = true -> parseInt ps = Some n -> n <= 0 ->
     createBooking user (Some rid) (Some d) (Some tm) ps st
     = (InvalidPartySizeError, st))
  /\ (forall n, n < 0 -> truthy (JSNumber n) = true /\ parseInt (JSNumber n) = Some n)
  /\ (forall ps, truthy ps = false ->
        createBooking user (Some rid) (Some d) (Some tm) ps st
        = (MissingFieldsError, st))
  /\ (forall table, In tm (availableTimes table) ->
        suits (tableSize table) tm table = true)
  /\ (forall table, suits (tableSize table + 1) tm table = false).
Proof.
  intros Htm. repeat split.
  - intros ps n Hps Hn Hle. now apply createBooking_nonpositive with n.
  - simpl. apply negb_true_iff, Z.eqb_neq. lia.
  - intros ps Hps. now apply createBooking_falsy_partySize.
  - intros table Hin. apply suits_qualifies. split; [lia | exact Hin].
  - intros table. apply suits_false. intros [Hle _]. lia.
Qed.

Lemma C7_party_size_boundary_witness :
  createBooking Sample.diner (Some 1%N) (Some Sample.june1) (Some "18:00")
    (JSString "0") Sample.store0 = (InvalidPartySizeError, Sample.store0)
  /\ createBooking Sample.diner (Some 1%N) (Some Sample.june1) (Some "18:00")
       (JSNumber (-2)) Sample.store0 = (InvalidPartySizeError, Sample.store0)
  /\ suits 4 "18:00" Sample.table7 = true
  /\ suits 5 "18:00" Sample.table7 = false.
Proof.
  assert ("18:00" <> "") as Hne by discriminate.
  pose proof (C7_party_size_boundary Sample.diner 1%N Sample.june1 "18:00"
                Sample.store0 Hne) as (Hinv & _ & _ & Heq & Hnext).
  split; [|split; [|split]].
  - apply (Hinv (JSString "0") 0); [reflexivity | reflexivity | lia].
  - apply (Hinv (JSNumber (-2)) (-2)); [reflexivity | reflexivity | lia].
  - apply (Heq Sample.table7). simpl. auto.
  - apply (Hnext Sample.table7).
Defined.

(** *** Cancellation: errors and idempotence *)

Lemma cancelA_success utcOffset user id st c b' st' :
  ControllerA.cancelBooking utcOffset user id st = (Json c b', st') ->
  exists b, bookings st !! id = Some b /\ status b = confirmed
            /\ b' = setStatus cancelled b
            /\ bookings st' = <[id := b']> (bookings st).
Proof.
  unfold ControllerA.cancelBooking. intros H.
  destruct (bookings st !! id) as [b|] eqn:Hb; [|discriminate].
  exists b.
  destruct (negb (userId b =? user_id user)%N && negb (String.eqb (role user) "admin"));
    [discriminate|].
  destruct (status b) eqn:Hs; [|discriminate].
  repeat case_match; simplify_eq; auto.
Qed.

Lemma cancelB_success momentHHmm user id st c b' st' :
  ControllerB.cancelBooking momentHHmm user id st = (Json c b', st') ->
  exists b, bookings st !! id = Some b /\ status b = confirmed
            /\ userId b = user_id user
            /\ b' = setStatus cancelled b
            /\ bookings st' = <[id := b']> (bookings st).
Proof.
  unfold ControllerB.cancelBooking. intros H.
  destruct (bookings st !! id) as [b|] eqn:Hb; [|discriminate].
  exists b.
  destruct (userId b =? user_id user)%N eqn:Hu; [|discriminate].
  apply N.eqb_eq in Hu. simpl in H.
  destruct (status b) eqn:Hs; [|discriminate].
  repeat case_match; simplify_eq; auto.
Qed.

Lemma cancelA_cancelled utcOffset user id st b :
  bookings st !! id = Some b -> status b = cancelled ->
  userId b = user_id user \/ role user = "admin" ->
  ControllerA.cancelBooking utcOffset user id st = (AlreadyCancelledError, st).
Proof.
  intros Hb Hs Hauth. unfold ControllerA.cancelBooking. rewrite Hb, Hs.
  assert (negb (userId b =? user_id user)%N && negb (String.eqb (role user) "admin")
          = false) as ->; [|reflexivity].
  destruct Hauth as [->| ->].
  - now rewrite N.eqb_refl.
  - simpl. apply andb_false_r.
Qed.

Lemma cancelB_cancelled momentHHmm user id st b :
  bookings st !! id = Some b -> status b = cancelled ->
  ControllerB.cancelBooking momentHHmm user id st
  = (BookingNotFoundOrCancelledError, st).
Proof.
  intros Hb Hs. unfold ControllerB.cancelBooking. rewrite Hb, Hs.
  now destruct (negb (userId b =? user_id user)%N).
Qed.

(** C4 as written fails on the second copy of the controller: the second
    cancellation is answered 404 "Booking not found or already cancelled",
    not the AlreadyCancelledError of the first copy. *)
Lemma C4_counterexample :
  let st2 := (ControllerB.cancelBooking canonicalHHmm Sample.diner 100%N
                Sample.store1).2 in
  (exists b, (ControllerB.cancelBooking canonicalHHmm Sample.diner 100%N
                Sample.store1).1 = Json 200 b /\ status b = cancelled)
  /\ (ControllerB.cancelBooking canonicalHHmm Sample.diner 100%N st2).1
     = BookingNotFoundOrCancelledError
  /\ (ControllerB.cancelBooking canonicalHHmm Sample.diner 100%N st2).1
     <> AlreadyCancelledError.
Proof.
  split; [|split].
  - eexists. split; vm_compute; reflexivity.
  - vm_compute. reflexivity.
  - vm_compute. discriminate.
Qed.

(** C4 (amended). After a successful cancellation, a second cancellation
    of the same booking by the same user changes nothing in the store; it
    is answered AlreadyCancelledError by the first copy of the controller
    and the merged "not found or already cancelled" error by the second. *)
Theorem C4_second_cancel_is_rejected user id st c b st' :
  (forall utcOffset,
     ControllerA.cancelBooking utcOffset user id st = (Json c b, st') ->
     ControllerA.cancelBooking utcOffset user id st' = (AlreadyCancelledError, st'))
  /\ (forall momentHHmm,
        ControllerB.cancelBooking momentHHmm user id st = (Json c b, st') ->
        ControllerB.cancelBooking momentHHmm user id st'
        = (BookingNotFoundOrCancelledError, st')).
Proof.
  split.
  - intros utcOffset H.
    destruct (cancelA_success _ _ _ _ _ _ _ H) as (b0 & Hb0 & Hs & -> & Hbs).
    apply cancelA_cancelled with (setStatus cancelled b0).
    + rewrite Hbs. apply lookup_insert_eq.
    + reflexivity.
    + simpl. revert H. unfold ControllerA.cancelBooking. rewrite Hb0.
      destruct (userId b0 =? user_id user)%N eqn:Hu.
      * intros _. left. now apply N.eqb_eq.
      * destruct (String.eqb (role user) "admin") eqn:Hr; simpl.
        -- intros _. right. now apply String.eqb_eq.
        -- discriminate.
  - intros momentHHmm H.
    destruct (cancelB_success _ _ _ _ _ _ _ H) as (b0 & Hb0 & Hs & Hu & -> & Hbs).
    apply cancelB_cancelled with (setStatus cancelled b0).
    + rewrite Hbs. apply lookup_insert_eq.
    + reflexivity.
Qed.

Lemma C4_second_cancel_is_rejected_witness :
  let st2 := (ControllerA.cancelBooking 0 Sample.diner 100%N Sample.store1).2 in
  ControllerA.cancelBooking 0 Sample.diner 100%N st2 = (AlreadyCancelledError, st2).
Proof.
  intros st2.
  refine (proj1 (C4_second_cancel_is_rejected Sample.diner 100%N Sample.store1 200
                   (setStatus cancelled
                      {| booking_id := 100%N; userId := 5%N; restaurantId := 1%N;
                         bookingDate := Sample.june1; time := "18:00"; partySize := 4;
                         bookedTableSize := 4; bookedTableDefinitionId := Some 7%N;
                         status := confirmed |}) st2) 0 _).
  vm_compute. reflexivity.
Defined.

(** *** Cancellation: lookup and authorization *)

Lemma cancelA_status utcOffset user id st b :
  bookings st !! id = Some b -> status b = confirmed ->
  userId b = user_id user \/ role user = "admin" ->
  bookings (ControllerA.cancelBooking utcOffset user id st).2 !! id
  = Some (setStatus cancelled b)
  /\ (bookedTableDefinitionId b <> None ->
      (ControllerA.cancelBooking utcOffset user id st).1
      = Json 200 (setStatus cancelled b)).
Proof.
  intros Hb Hs Hauth. unfold ControllerA.cancelBooking. rewrite Hb, Hs.
  assert (negb (userId b =? user_id user)%N && negb (String.eqb (role user) "admin")
          = false) as ->.
  { destruct Hauth as [->| ->].
    - now rewrite N.eqb_refl.
    - simpl. apply andb_false_r. }
  split.
  - repeat case_match; simpl; apply lookup_insert_eq.
  - intros Hid. repeat case_match; simpl; congruence.
Qed.

(** C5 as written fails on the second copy of the controller: an admin
    who does not own the booking is answered the merged 404 and the
    booking stays confirmed. *)
Lemma C5_counterexample :
  role Sample.admin = "admin"
  /\ (exists b, bookings Sample.store1 !! 100%N = Some b
                /\ userId b <> user_id Sample.admin /\ status b = confirmed)
  /\ ControllerB.cancelBooking canonicalHHmm Sample.admin 100%N Sample.store1
     = (BookingNotFoundOrCancelledError, Sample.store1)
  /\ (ControllerB.cancelBooking canonicalHHmm Sample.admin 100%N Sample.store1).1
     <> NotAuthorizedError.
Proof.
  split; [reflexivity|]. split; [|split].
  - eexists. split; [vm_compute; reflexivity|]. split; [discriminate | reflexivity].
  - vm_compute. reflexivity.
  - vm_compute. discriminate.
Qed.

(** C5 (amended). First copy of the controller: an unknown booking id is
    answered BookingNotFoundError; a requester who is neither the owner
    nor an admin is answered NotAuthorizedError and the store is
    untouched; an admin who does not own a confirmed booking cancels it.
    Second copy: an unknown id and any requester other than the owner,
    admin or not, are answered the merged "not found or already
    cancelled" error and the store is untouched. *)
Theorem C5_cancel_lookup_and_authorization user id st :
  (forall utcOffset,
     (bookings st !! id = None ->
      ControllerA.cancelBooking utcOffset user id st = (BookingNotFoundError, st))
     /\ (forall b, bookings st !! id = Some b ->
           userId b <> user_id user -> role user <> "admin" ->
           ControllerA.cancelBooking utcOffset user id st = (NotAuthorizedError, st))
     /\ (forall b, bookings st !! id = Some b ->
           userId b <> user_id user -> role user = "admin" ->
           status b = confirmed ->
           bookings (ControllerA.cancelBooking utcOffset user id st).2 !! id
           = Some (setStatus cancelled b)
           /\ (bookedTableDefinitionId b <> None ->
               (ControllerA.cancelBooking utcOffset user id st).1
               = Json 200 (setStatus cancelled b))))
  /\ (forall momentHHmm,
        (bookings st !! id = None ->
         ControllerB.cancelBooking momentHHmm user id st
         = (BookingNotFoundOrCancelledError, st))
        /\ (forall b, bookings st !! id = Some b -> userId b <> user_id user ->
              ControllerB.cancelBooking momentHHmm user id st
              = (BookingNotFoundOrCancelledError, st))).
Proof.
  split.
  - intros utcOffset. split; [|split].
    + intros Hb. unfold ControllerA.cancelBooking. now rewrite Hb.
    + intros b Hb Hu Hr. unfold ControllerA.cancelBooking. rewrite Hb.
      apply N.eqb_neq in Hu. apply String.eqb_neq in Hr. now rewrite Hu, Hr.
    + intros b Hb Hu Hr Hs. apply cancelA_status; auto.
  - intros momentHHmm. split.
    + intros Hb. unfold ControllerB.cancelBooking. now rewrite Hb.
    + intros b Hb Hu. unfold ControllerB.cancelBooking. rewrite Hb.
      apply N.eqb_neq in Hu. now rewrite Hu.
Qed.

Lemma C5_cancel_lookup_and_authorization_witness :
  ControllerA.cancelBooking 0 Sample.other 100%N Sample.store1
  = (NotAuthorizedError, Sample.store1)
  /\ (exists b, (ControllerA.cancelBooking 0 Sample.admin 100%N Sample.store1).1
                = Json 200 b /\ status b = cancelled)
  /\ ControllerA.cancelBooking 0 Sample.diner 101%N Sample.store1
     = (BookingNotFoundError, Sample.store1).
Proof.
  pose (b := {| booking_id := 100%N; userId := 5%N; restaurantId := 1%N;
                bookingDate := Sample.june1; time := "18:00"; partySize := 4;
                bookedTableSize := 4; bookedTableDefinitionId := Some 7%N;
                status := confirmed |}).
  assert (bookings Sample.store1 !! 100%N = Some b) as Hb by (vm_compute; reflexivity).
  split; [|split].
  - apply (proj1 (proj2 (proj1 (C5_cancel_lookup_and_authorization
                                  Sample.other 100%N Sample.store1) 0)) b Hb);
      discriminate.
  - exists (setStatus cancelled b). split; [|reflexivity].
    apply (proj2 (proj2 (proj1 (C5_cancel_lookup_and_authorization
                                  Sample.admin 100%N Sample.store1) 0)) b Hb);
      try reflexivity; discriminate.
  - apply (proj1 (proj1 (C5_cancel_lookup_and_authorization
                           Sample.diner 101%N Sample.store1) 0)).
    vm_compute. reflexivity.
Defined.

Lemma authorize_passes roles u :
  authorize roles (Some u) = None <-> role u <> "" /\ In (role u) roles.
Proof.
  unfold authorize. rewrite <- includes_In, <- String.eqb_neq.
  destruct (String.eqb (role u) ""); [split; [discriminate | intros [? _]; congruence]|].
  destruct (includes roles (role u)); split; try tauto; try discriminate.
  intros [_ ?]. discriminate.
Qed.

(** *** Two requests for the only slot, served one after the other *)

Example second_request_for_the_slot :
  (exists b, (createBooking Sample.other (Some 1%N) (Some Sample.june1)
                (Some "18:00") (JSNumber 2) Sample.store0).1 = Json 201 b
             /\ status b = confirmed)
  /\ createBooking Sample.other (Some 1%N) (Some Sample.june1) (Some "18:00")
        (JSNumber 2) Sample.store1 = (NoSuitableTable, Sample.store1).
Proof.
  split; [eexists; split; vm_compute; reflexivity|].
  vm_compute. reflexivity.
Qed.

(** *** Search without both date and time *)

Lemma aggregate_lookup (keep : Restaurant -> bool) (rs : gmap ObjectId Restaurant)
  (id : ObjectId) (r : Restaurant) :
  Search.aggregate keep rs !! id = Some r <-> rs !! id = Some r /\ keep r = true.
Proof.
  unfold Search.aggregate. rewrite map_lookup_filter_Some. simpl.
  rewrite Is_true_true. tauto.
Qed.




(** *** Search with date and time *)

Lemma filter_nonempty {A} (p : A -> bool) (l : list A) :
  List.filter p l <> [] <-> exists x, In x l /\ p x = true.
Proof.
  split.
  - destruct (List.filter p l) as [|x r] eqn:Hf; [congruence|].
    intros _. exists x. apply filter_In. rewrite Hf. now left.
  - intros (x & Hx & Hp) Hnil.
    assert (In x (List.filter p l)) as Hin by (apply filter_In; auto).
    rewrite Hnil in Hin. destruct Hin.
Qed.





(** The string window is the numeric one for canonical slots, as long as
    the window does not cross midnight. *)
Lemma digitOf_inv c x : digitOf c = Some x -> c = digitChar x /\ 0 <= x <= 9.
Proof.
  destruct c as [[] [] [] [] [] [] [] []]; vm_compute; intros [= <-];
    split; try reflexivity; split; discriminate.
Qed.

Lemma pad2_digits a b :
  0 <= a <= 9 -> 0 <= b <= 9 ->
  pad2 (10 * a + b) = String (digitChar a) (String (digitChar b) "").
Proof.
  intros Ha Hb. unfold pad2.
  replace ((10 * a + b) / 10) with a by (apply Z.div_unique with b; lia).
  replace ((10 * a + b) mod 10) with b by (apply Z.mod_unique with a; lia).
  reflexivity.
Qed.

Lemma canonicalHHmm_format s m :
  canonicalHHmm s = Some m -> s = formatHHmm m /\ 0 <= m < 1440.
Proof.
  unfold canonicalHHmm.
  destruct s as [|a [|b [|k [|c [|d [|e r]]]]]]; try discriminate;
    destruct k as [[] [] [] [] [] [] [] []]; try discriminate.
  destruct (digitOf a) as [x1|] eqn:H1; [|discriminate].
  destruct (digitOf b) as [x2|] eqn:H2; [|discriminate].
  destruct (digitOf c) as [x3|] eqn:H3; [|discriminate].
  destruct (digitOf d) as [x4|] eqn:H4; [|discriminate].
  apply digitOf_inv in H1, H2, H3, H4.
  destruct H1 as [-> R1], H2 as [-> R2], H3 as [-> R3], H4 as [-> R4].
  destruct ((10 * x1 + x2 <? 24) && (10 * x3 + x4 <? 60)) eqn:Hb; [|discriminate].
  apply andb_true_iff in Hb. destruct Hb as [Hh Hm].
  apply Z.ltb_lt in Hh, Hm. intros [= <-].
  split; [|lia]. unfold formatHHmm.
  replace ((60 * (10 * x1 + x2) + (10 * x3 + x4)) mod 1440)
    with (60 * (10 * x1 + x2) + (10 * x3 + x4))
    by (symmetry; apply Z.mod_small; lia).
  replace ((60 * (10 * x1 + x2) + (10 * x3 + x4)) / 60) with (10 * x1 + x2)
    by (apply Z.div_unique with (10 * x3 + x4); lia).
  replace ((60 * (10 * x1 + x2) + (10 * x3 + x4)) mod 60) with (10 * x3 + x4)
    by (apply Z.mod_unique with (10 * x1 + x2); lia).
  rewrite !pad2_digits by lia. reflexivity.
Qed.

Lemma belowSixty_In m : 0 <= m < 60 -> In m belowSixty.
Proof.
  intros H. unfold belowSixty. apply in_map_iff.
  exists (Z.to_nat m). split; [lia|]. apply in_seq. lia.
Qed.

Lemma pad2_order_table :
  forallb (fun a =>
    forallb (fun b =>
      match String.compare (pad2 a) (pad2 b), a ?= b with
      | Eq, Eq | Lt, Lt | Gt, Gt => true
      | _, _ => false
      end) belowSixty) belowSixty = true.
Proof. vm_compute. reflexivity. Qed.

Lemma pad2_compare a b :
  0 <= a < 60 -> 0 <= b < 60 -> String.compare (pad2 a) (pad2 b) = (a ?= b).
Proof.
  intros Ha Hb. pose proof pad2_order_table as H.
  rewrite forallb_forall in H. specialize (H a (belowSixty_In a Ha)).
  rewrite forallb_forall in H. specialize (H b (belowSixty_In b Hb)).
  destruct (String.compare (pad2 a) (pad2 b)), (a ?= b); congruence.
Qed.

Lemma compare_pad2_app a b s t :
  String.compare (String.append (pad2 a) s) (String.append (pad2 b) t)
  = match String.compare (pad2 a) (pad2 b) with
    | Eq => String.compare s t
    | o => o
    end.
Proof.
  unfold pad2. simpl.
  destruct (Ascii.compare (digitChar (a / 10)) (digitChar (b / 10))); auto.
  destruct (Ascii.compare (digitChar (a mod 10)) (digitChar (b mod 10))); auto.
Qed.

Lemma compare_colon s t :
  String.compare (String ":" s) (String ":" t) = String.compare s t.
Proof. reflexivity. Qed.

Lemma formatHHmm_leb a b :
  0 <= a < 1440 -> 0 <= b < 1440 ->
  String.leb (formatHHmm a) (formatHHmm b) = (a <=? b).
Proof.
  intros Ha Hb. unfold String.leb, formatHHmm. cbv zeta.
  rewrite (Z.mod_small a 1440), (Z.mod_small b 1440) by lia.
  pose proof (Z.div_mod a 60 ltac:(lia)) as Ea.
  pose proof (Z.div_mod b 60 ltac:(lia)) as Eb.
  pose proof (Z.mod_pos_bound a 60 ltac:(lia)) as Ma.
  pose proof (Z.mod_pos_bound b 60 ltac:(lia)) as Mb.
  assert (0 <= a / 60 < 60 /\ 0 <= b / 60 < 60) as (? & ?) by lia.
  rewrite compare_pad2_app, pad2_compare by lia.
  destruct (Z.compare_spec (a / 60) (b / 60)) as [Hh|Hh|Hh].
  - rewrite compare_colon, pad2_compare by lia.
    destruct (Z.compare_spec (a mod 60) (b mod 60)); symmetry;
      [apply Z.leb_le | apply Z.leb_le | apply Z.leb_gt]; lia.
  - symmetry. apply Z.leb_le. lia.
  - symmetry. apply Z.leb_gt. lia.
Qed.


(** Across midnight the two bounds swap and the string window is empty:
    at 23:45 not even the slot 23:45 is inside it. *)
Example window_across_midnight : ~ withinWindow 1425 "23:45".
Proof. intros [_ H]. vm_compute in H. discriminate. Qed.




(** *** Date lookup *)


Lemma sameUtcDay_day d1 d2 :
  utcDay d1 = utcDay d2 -> sameUtcDay d1 = sameUtcDay d2.
Proof.
  intros H. change (sameUtcDay d1) with (fun e => utcDay (date e) =? utcDay d1).
  rewrite H. reflexivity.
Qed.








(** The first copy of the controller compares calendar days of the
    server's local time when it repairs the inventory. On a server two
    hours ahead of UTC, an entry stored at 23:00 UTC is used by booking
    creation and not found again by the cancellation: the slot is lost. *)
Example cancelA_local_day_miss :
  let late := {| date := Sample.june1 + 82800000; tables := [Sample.table7] |} in
  let r := setAvailableTables [late] Sample.restaurantX in
  let st0 := setRestaurants {[ 1%N := r ]} Sample.store0 in
  let st1 := (createBooking Sample.diner (Some 1%N) (Some Sample.june1)
                (Some "18:00") (JSNumber 4) st0).2 in
  Sample.slotsOf st1 = [["18:30"]]
  /\ Sample.slotsOf (ControllerA.cancelBooking 120 Sample.diner 100%N st1).2
     = [["18:30"]]
  /\ Sample.slotsOf (ControllerA.cancelBooking 0 Sample.diner 100%N st1).2
     = [["18:30"; "18:00"]].
Proof. repeat split; vm_compute; reflexivity. Qed.

(** *** Create then cancel *)

(** C2 fails on the first copy of the controller: its cancellation appends
    the slot and does not sort. Scenario A followed by scenario C leaves
    18:30 before 18:00. The second copy gives the list back as it was. *)
Theorem C2_cancel_appends_without_sorting :
  Sample.slotsOf Sample.store0 = [["18:00"; "18:30"]]
  /\ Sample.slotsOf Sample.store1 = [["18:30"]]
  /\ (exists b, (ControllerA.cancelBooking 0 Sample.diner 100%N Sample.store1).1
                = Json 200 b /\ status b = cancelled)
  /\ Sample.slotsOf (ControllerA.cancelBooking 0 Sample.diner 100%N Sample.store1).2
     = [["18:30"; "18:00"]]
  /\ Sample.slotsOf
       (ControllerB.cancelBooking canonicalHHmm Sample.diner 100%N Sample.store1).2
     = [["18:00"; "18:30"]].
Proof.
  repeat split; try (vm_compute; reflexivity).
  eexists. split; vm_compute; reflexivity.
Qed.

(** *** The slot / booking invariant *)

Lemma updateFirst_none {A} (p : A -> bool) (f : A -> A) (l : list A) :
  List.find p l = None -> updateFirst p f l = l.
Proof.
  induction l as [|a l IH]; simpl; auto.
  destruct (p a); [discriminate|]. intros H. now rewrite IH.
Qed.

Lemma updateFirst_map {A B} (k : A -> B) (p : A -> bool) (f : A -> A) (l : list A) :
  (forall x, k (f x) = k x) -> map k (updateFirst p f l) = map k l.
Proof.
  intros Hk. induction l as [|a l IH]; simpl; auto.
  destruct (p a); simpl; now rewrite ?Hk, ?IH.
Qed.

Lemma updateFirst_In {A} (p : A -> bool) (f : A -> A) (l : list A) (y : A) :
  In y (updateFirst p f l) -> In y l \/ exists x, In x l /\ y = f x.
Proof.
  induction l as [|a l IH]; simpl; auto.
  destruct (p a); simpl.
  - intros [<-|H]; [right; exists a; auto | auto].
  - intros [<-|H]; [auto|]. destruct (IH H) as [?|(x & ? & ?)]; eauto.
Qed.

Lemma find_updateFirst_same {A} (p : A -> bool) (f : A -> A) (l : list A) :
  (forall x, p (f x) = p x) ->
  List.find p (updateFirst p f l) = f <$> List.find p l.
Proof.
  intros Hp. induction l as [|a l IH]; simpl; auto.
  destruct (p a) eqn:Ha; simpl.
  - now rewrite Hp, Ha.
  - now rewrite Ha.
Qed.

Lemma find_updateFirst_other {A} (p q : A -> bool) (f : A -> A) (l : list A) :
  (forall x, q (f x) = q x) -> (forall x, p x = true -> q x = false) ->
  List.find q (updateFirst p f l) = List.find q l.
Proof.
  intros Hq Hpq. induction l as [|a l IH]; simpl; auto.
  destruct (p a) eqn:Ha; simpl.
  - now rewrite Hq, (Hpq a Ha).
  - now rewrite IH.
Qed.

Lemma find_updateFirst_byId (p : TableDefinition -> bool)
  (f : TableDefinition -> TableDefinition) (l : list TableDefinition)
  (t : TableDefinition) (tid : ObjectId) :
  List.NoDup (map table_id l) -> (forall x, table_id (f x) = table_id x) ->
  List.find p l = Some t ->
  List.find (hasId tid) (updateFirst p f l)
  = if decide (tid = table_id t) then Some (f t) else List.find (hasId tid) l.
Proof.
  intros Hnd Hf. induction l as [|a l IH]; simpl; [discriminate|].
  apply NoDup_cons_iff in Hnd. destruct Hnd as [Hnotin Hnd].
  destruct (p a) eqn:Ha.
  - intros [= <-]. simpl. unfold hasId at 1. rewrite Hf.
    destruct (decide (tid = table_id a)) as [->|Hne].
    + now rewrite N.eqb_refl.
    + unfold hasId at 2.
      assert ((table_id a =? tid)%N = false) as -> by (apply N.eqb_neq; congruence).
      reflexivity.
  - intros Hfind. simpl. specialize (IH Hnd Hfind).
    destruct (hasId tid a) eqn:Hid.
    + apply N.eqb_eq in Hid.
      destruct (decide (tid = table_id t)) as [->|Hne]; [|reflexivity].
      exfalso. apply Hnotin. rewrite Hid. apply in_map.
      apply find_some in Hfind. tauto.
    + exact IH.
Qed.

Lemma find_hasId_unique (l : list TableDefinition) (t : TableDefinition) :
  List.NoDup (map table_id l) -> In t l -> List.find (hasId (table_id t)) l = Some t.
Proof.
  induction l as [|a l IH]; simpl; [tauto|].
  intros Hnd Hin. apply NoDup_cons_iff in Hnd. destruct Hnd as [Hnotin Hnd].
  destruct Hin as [->|Hin].
  - unfold hasId. now rewrite N.eqb_refl.
  - destruct (hasId (table_id t) a) eqn:Hid.
    + apply N.eqb_eq in Hid. exfalso. apply Hnotin. rewrite Hid. now apply in_map.
    + auto.
Qed.

Lemma find_onDay_unique (l : list DateAvailability) (e : DateAvailability) :
  List.NoDup (map (fun e => utcDay (date e)) l) -> In e l ->
  List.find (onDay (utcDay (date e))) l = Some e.
Proof.
  induction l as [|a l IH]; simpl; [tauto|].
  intros Hnd Hin. apply NoDup_cons_iff in Hnd. destruct Hnd as [Hnotin Hnd].
  destruct Hin as [->|Hin].
  - unfold onDay. now rewrite Z.eqb_refl.
  - destruct (onDay (utcDay (date e)) a) eqn:Hd.
    + apply Z.eqb_eq in Hd. exfalso. apply Hnotin. rewrite Hd.
      now apply (in_map (fun e => utcDay (date e))).
    + auto.
Qed.

Lemma tableAt_In rs rid r e t :
  rs !! rid = Some r -> wellFormedRestaurant r ->
  In e (availableTables r) -> In t (tables e) ->
  tableAt rs rid (utcDay (date e)) (table_id t) = Some t.
Proof.
  intros Hr [Hdays Hent] He Ht. unfold tableAt. rewrite Hr.
  rewrite (find_onDay_unique _ _ Hdays He).
  apply find_hasId_unique; auto. now apply Hent.
Qed.

Lemma updateTable_wellFormed pd pt ft r r' :
  (forall x, table_id (ft x) = table_id x) ->
  availableTables r' = updateTable pd pt ft r ->
  wellFormedRestaurant r -> wellFormedRestaurant r'.
Proof.
  intros Hft Hr' [Hdays Hent]. unfold wellFormedRestaurant. rewrite Hr'.
  unfold updateTable. split.
  - rewrite updateFirst_map; auto.
  - intros e He. apply updateFirst_In in He.
    destruct He as [He|(x & Hx & ->)]; [auto|]. simpl.
    rewrite updateFirst_map by exact Hft. auto.
Qed.

Lemma tableAt_updateTable rs rid r r' day pd pt ft e t rid' day' tid' :
  rs !! rid = Some r ->
  (forall x, In x (availableTables r) -> pd x = onDay day x) ->
  (forall x, table_id (ft x) = table_id x) ->
  List.find (onDay day) (availableTables r) = Some e ->
  List.NoDup (map table_id (tables e)) ->
  List.find pt (tables e) = Some t ->
  availableTables r' = updateTable pd pt ft r ->
  tableAt (<[rid := r']> rs) rid' day' tid'
  = if decide (rid' = rid /\ day' = day /\ tid' = table_id t)
    then Some (ft t) else tableAt rs rid' day' tid'.
Proof.
  intros Hr Hpd Hft He Hnd Ht Hr'. unfold tableAt.
  destruct (decide (rid' = rid)) as [->|Hrid].
  2:{ rewrite lookup_insert_ne by congruence.
      destruct (decide _) as [(? & _)|_]; [congruence | reflexivity]. }
  rewrite lookup_insert_eq, Hr, Hr'. unfold updateTable.
  rewrite (updateFirst_ext pd (onDay day) _ _ _ Hpd (fun _ _ => eq_refl)).
  destruct (decide (day' = day)) as [->|Hday].
  - rewrite find_updateFirst_same by reflexivity. rewrite He. simpl.
    rewrite (find_updateFirst_byId _ _ _ _ tid' Hnd Hft Ht).
    destruct (decide (tid' = table_id t)) as [->|Htid].
    + destruct (decide _) as [_|Hn]; [reflexivity | tauto].
    + destruct (decide _) as [(_ & _ & ?)|_]; [congruence | reflexivity].
  - rewrite find_updateFirst_other.
    + destruct (decide _) as [(_ & ? & _)|_]; [congruence | reflexivity].
    + reflexivity.
    + intros x Hx. unfold onDay in *. apply Z.eqb_eq in Hx. apply Z.eqb_neq. congruence.
Qed.

Lemma inventoryChange_update st st' rid r r' day pd pt ft e t :
  (forall rid r, restaurants st !! rid = Some r -> wellFormedRestaurant r) ->
  restaurants st !! rid = Some r ->
  (forall x, In x (availableTables r) -> pd x = onDay day x) ->
  (forall x, table_id (ft x) = table_id x) ->
  List.find (onDay day) (availableTables r) = Some e ->
  List.find pt (tables e) = Some t ->
  availableTables r' = updateTable pd pt ft r ->
  restaurants st' = <[rid := r']> (restaurants st) ->
  inventoryChange st st' rid day (table_id t) t (ft t).
Proof.
  intros Hwf Hr Hpd Hft He Ht Hr' Hst'.
  pose proof (Hwf rid r Hr) as Hwfr.
  assert (List.NoDup (map table_id (tables e))) as Hnd.
  { apply Hwfr. apply find_some in He. tauto. }
  split; [|split].
  - intros rid' r0. rewrite Hst'.
    destruct (decide (rid' = rid)) as [->|Hne].
    + rewrite lookup_insert_eq. intros [= <-].
      eapply updateTable_wellFormed; eauto.
    + rewrite lookup_insert_ne by congruence. apply Hwf.
  - unfold tableAt. rewrite Hr, He. apply find_hasId_unique; auto.
    apply find_some in Ht. tauto.
  - intros rid' day' tid'. rewrite Hst'.
    eapply tableAt_updateTable; eauto.
Qed.

Lemma inventoryChange_none st st' rid day tid t :
  (forall rid r, restaurants st !! rid = Some r -> wellFormedRestaurant r) ->
  restaurants st' = restaurants st ->
  tableAt (restaurants st) rid day tid = Some t ->
  inventoryChange st st' rid day tid t t.
Proof.
  intros Hwf Hrs Ht. split; [|split].
  - rewrite Hrs. exact Hwf.
  - exact Ht.
  - intros rid' day' tid'. rewrite Hrs.
    destruct (decide _) as [(-> & -> & ->)|_]; auto.
Qed.

Lemma Inv_initial st0 :
  bookings st0 = ∅ ->
  (forall rid r, restaurants st0 !! rid = Some r -> wellFormedRestaurant r) ->
  Inv st0 st0.
Proof.
  intros Hbs Hwf. split; auto.
  - intros rid day tid s. split; [|tauto]. intros H. split; [exact H|].
    intros (id & b & Hb & _). rewrite Hbs in Hb. now rewrite lookup_empty in Hb.
  - intros id b Hb. rewrite Hbs in Hb. now rewrite lookup_empty in Hb.
  - intros id b Hb. rewrite Hbs in Hb. now rewrite lookup_empty in Hb.
  - intros id1 b1 id2 b2 Hb. rewrite Hbs in Hb. now rewrite lookup_empty in Hb.
Qed.

Lemma Inv_consume st0 st st' rid day tid t t' tm b :
  Inv st0 st ->
  inventoryChange st st' rid day tid t t' ->
  (forall s, In s (availableTimes t') <-> In s (availableTimes t) /\ s <> tm) ->
  In tm (availableTimes t) ->
  bookings st' = <[nextId st := b]> (bookings st) ->
  nextId st' = N.succ (nextId st) ->
  status b = confirmed -> restaurantId b = rid ->
  bookedTableDefinitionId b = Some tid -> utcDay (bookingDate b) = day ->
  bookingDate b mod msPerDay = 0 -> time b = tm ->
  Inv st0 st'.
Proof.
  intros HI (Hwf' & Hbefore & Hafter) Hmem Hin Hbs Hnext Hs Hrid Htid Hday Hmid Htm.
  assert (bookings st !! nextId st = None) as Hfresh.
  { destruct (bookings st !! nextId st) as [b0|] eqn:Hb0; [|reflexivity].
    apply (inv_fresh _ _ HI) in Hb0. lia. }
  assert (forall rid' day' tid' s,
            confirmedOn (bookings st') rid' day' tid' s <->
            confirmedOn (bookings st) rid' day' tid' s
            \/ (rid' = rid /\ day' = day /\ tid' = tid /\ s = tm)) as Hconf.
  { intros rid' day' tid' s. split.
    - intros (id & b0 & Hb0 & H1 & H2 & H3 & H4 & H5). rewrite Hbs in Hb0.
      destruct (decide (id = nextId st)) as [->|Hne].
      + rewrite lookup_insert_eq in Hb0. injection Hb0 as <-.
        right. repeat split; congruence.
      + rewrite lookup_insert_ne in Hb0 by congruence.
        left. exists id, b0. repeat split; assumption.
    - intros [(id & b0 & Hb0 & H)|(-> & -> & -> & ->)].
      + exists id, b0. split; [|exact H]. rewrite Hbs.
        rewrite lookup_insert_ne; [exact Hb0 | congruence].
      + exists (nextId st), b. rewrite Hbs, lookup_insert_eq.
        repeat split; assumption || reflexivity. }
  assert (In tm (slotTimes (restaurants st0) rid day tid)) as Hseeded.
  { apply (inv_slots _ _ HI rid day tid tm). unfold slotTimes. now rewrite Hbefore. }
  split.
  - exact Hwf'.
  - intros rid' day' tid' H0. rewrite Hafter.
    destruct (decide _); [discriminate | now apply (inv_tables _ _ HI)].
  - intros rid' day' tid' s. rewrite Hconf.
    pose proof (inv_slots _ _ HI rid' day' tid' s) as Hold.
    unfold slotTimes at 1. rewrite Hafter.
    destruct (decide _) as [(-> & -> & ->)|Hne].
    + unfold slotTimes at 1 in Hold. rewrite Hbefore in Hold.
      rewrite Hmem. tauto.
    + fold (slotTimes (restaurants st) rid' day' tid'). tauto.
  - intros id b0. rewrite Hbs, Hnext.
    destruct (decide (id = nextId st)) as [->|Hne].
    + intros _. lia.
    + rewrite lookup_insert_ne by congruence. intros Hb0.
      apply (inv_fresh _ _ HI) in Hb0. lia.
  - intros id b0. rewrite Hbs.
    destruct (decide (id = nextId st)) as [->|Hne].
    + rewrite lookup_insert_eq. intros [= <-] _. split; [exact Hmid|].
      exists tid. split; [exact Htid|]. now rewrite Hrid, Hday, Htm.
    + rewrite lookup_insert_ne by congruence. apply (inv_booked _ _ HI).
  - assert (forall id0 b0, bookings st !! id0 = Some b0 -> status b0 = confirmed ->
              restaurantId b0 = rid -> bookedTableDefinitionId b0 = Some tid ->
              utcDay (bookingDate b0) = day -> time b0 = tm -> False) as Hclash.
    { intros id0 b0 Hb0 H1 H2 H3 H4 H5.
      apply (proj1 (inv_slots _ _ HI rid day tid tm)).
      - unfold slotTimes. now rewrite Hbefore.
      - exists id0, b0. repeat split; assumption. }
    intros id1 b1 id2 b2. rewrite Hbs.
    destruct (decide (id1 = nextId st)) as [->|Hne1];
      destruct (decide (id2 = nextId st)) as [->|Hne2]; auto.
    + rewrite lookup_insert_eq, lookup_insert_ne by congruence.
      intros [= <-] Hb2 _ Hs2 Hr Ht Hd Htm2. exfalso.
      apply (Hclash id2 b2 Hb2 Hs2); congruence.
    + rewrite lookup_insert_eq, lookup_insert_ne by congruence.
      intros Hb1 [= <-] Hs1 _ Hr Ht Hd Htm1. exfalso.
      apply (Hclash id1 b1 Hb1 Hs1); congruence.
    + rewrite !lookup_insert_ne by congruence. apply (inv_unique _ _ HI).
Qed.

Lemma Inv_release st0 st st' id b tid t t' :
  Inv st0 st ->
  bookings st !! id = Some b -> status b = confirmed ->
  bookedTableDefinitionId b = Some tid ->
  inventoryChange st st' (restaurantId b) (utcDay (bookingDate b)) tid t t' ->
  (forall s, In s (availableTimes t') <-> s = time b \/ In s (availableTimes t)) ->
  bookings st' = <[id := setStatus cancelled b]> (bookings st) ->
  nextId st' = nextId st ->
  Inv st0 st'.
Proof.
  intros HI Hb Hs Htid (Hwf' & Hbefore & Hafter) Hmem Hbs Hnext.
  set (rid := restaurantId b) in *. set (day := utcDay (bookingDate b)) in *.
  assert (forall rid' day' tid' s,
            confirmedOn (bookings st') rid' day' tid' s <->
            confirmedOn (bookings st) rid' day' tid' s
            /\ ~ (rid' = rid /\ day' = day /\ tid' = tid /\ s = time b)) as Hconf.
  { intros rid' day' tid' s. split.
    - intros (id' & b' & Hb' & H1 & H2 & H3 & H4 & H5). rewrite Hbs in Hb'.
      destruct (decide (id' = id)) as [->|Hne].
      + rewrite lookup_insert_eq in Hb'. injection Hb' as <-. discriminate H1.
      + rewrite lookup_insert_ne in Hb' by congruence. split.
        * exists id', b'. repeat split; assumption.
        * intros (-> & -> & -> & ->). apply Hne. subst rid day.
          apply (inv_unique _ _ HI id' b' id b); auto; congruence.
    - intros ((id' & b' & Hb' & H1 & H2 & H3 & H4 & H5) & Hnot).
      exists id', b'. split; [|repeat split; assumption]. rewrite Hbs.
      rewrite lookup_insert_ne; [exact Hb'|]. intros <-.
      apply Hnot. assert (b' = b) by congruence. subst b' rid day.
      repeat split; congruence. }
  assert (In (time b) (slotTimes (restaurants st0) rid day tid)) as Hseeded.
  { destruct (inv_booked _ _ HI id b Hb Hs) as (_ & tid0 & Htid0 & Hin).
    assert (tid0 = tid) by congruence. now subst tid0. }
  split.
  - exact Hwf'.
  - intros rid' day' tid' H0. rewrite Hafter.
    destruct (decide _); [discriminate | now apply (inv_tables _ _ HI)].
  - intros rid' day' tid' s. rewrite Hconf.
    pose proof (inv_slots _ _ HI rid' day' tid' s) as Hold.
    unfold slotTimes at 1. rewrite Hafter.
    destruct (decide _) as [(-> & -> & ->)|Hne].
    + unfold slotTimes at 1 in Hold. rewrite Hbefore in Hold.
      rewrite Hmem. destruct (string_dec s (time b)) as [->|Hdiff]; tauto.
    + fold (slotTimes (restaurants st) rid' day' tid'). tauto.
  - intros id' b'. rewrite Hbs, Hnext.
    destruct (decide (id' = id)) as [->|Hne].
    + intros _. apply (inv_fresh _ _ HI id b Hb).
    + rewrite lookup_insert_ne by congruence. apply (inv_fresh _ _ HI).
  - intros id' b'. rewrite Hbs.
    destruct (decide (id' = id)) as [->|Hne].
    + rewrite lookup_insert_eq. intros [= <-]. discriminate.
    + rewrite lookup_insert_ne by congruence. apply (inv_booked _ _ HI).
  - intros id1 b1 id2 b2. rewrite Hbs.
    destruct (decide (id1 = id)) as [->|Hne1].
    { rewrite lookup_insert_eq. intros [= <-] _. discriminate. }
    destruct (decide (id2 = id)) as [->|Hne2].
    { rewrite lookup_insert_eq. intros _ [= <-] _. discriminate. }
    rewrite !lookup_insert_ne by congruence. apply (inv_unique _ _ HI).
Qed.

Lemma slotTimes_tableAt rs rid day tid s :
  In s (slotTimes rs rid day tid) -> tableAt rs rid day tid <> None.
Proof. unfold slotTimes. destruct (tableAt rs rid day tid); [discriminate | intros []]. Qed.

Lemma utcDay_startOfDayUTC d : utcDay (startOfDayUTC d) = utcDay d.
Proof. unfold startOfDayUTC, utcDay. apply Z.div_mul. discriminate. Qed.

Lemma startOfDayUTC_midnight d : startOfDayUTC d mod msPerDay = 0.
Proof. unfold startOfDayUTC. apply Z.mod_mul. discriminate. Qed.

Lemma sameLocalDay_midnight utcOffset d x :
  d mod msPerDay = 0 -> date x mod msPerDay = 0 ->
  ControllerA.sameLocalDay utcOffset d x = onDay (utcDay d) x.
Proof.
  intros Hd Hx. unfold ControllerA.sameLocalDay, onDay, localDay, utcDay.
  assert (msPerDay <> 0) as HD by discriminate.
  rewrite (Z.div_mod (date x) msPerDay HD) at 1.
  rewrite (Z.div_mod d msPerDay HD) at 1.
  rewrite Hd, Hx, !Z.add_0_r.
  rewrite !(Z.mul_comm msPerDay), !Z.div_add_l by exact HD.
  destruct (Z.eqb_spec (date x / msPerDay) (d / msPerDay)) as [->|Hne].
  - apply Z.eqb_refl.
  - apply Z.eqb_neq. lia.
Qed.

Lemma consumeSlot_In tm t s :
  In s (availableTimes (consumeSlot tm t)) <-> In s (availableTimes t) /\ s <> tm.
Proof.
  unfold consumeSlot. simpl. rewrite filter_In, negb_true_iff, String.eqb_neq. tauto.
Qed.

Lemma insertSorted_In momentHHmm x l s :
  In s (ControllerB.insertSorted momentHHmm x l) <-> s = x \/ In s l.
Proof.
  induction l as [|y l IH]; simpl.
  - split; [intros [<-|[]]; auto | intros [->|[]]; auto].
  - destruct (_ <=? 0); simpl; [intuition congruence|].
    rewrite IH. intuition congruence.
Qed.

Lemma sort_In momentHHmm l s : In s (ControllerB.sort momentHHmm l) <-> In s l.
Proof.
  induction l as [|y l IH]; simpl; [tauto|].
  unfold ControllerB.sort in *. simpl. rewrite insertSorted_In, IH.
  intuition congruence.
Qed.

Lemma createBooking_Inv st0 user rid d tm ps st :
  Inv st0 st -> Inv st0 (createBooking user rid d tm ps st).2.
Proof.
  intros HI. unfold createBooking.
  destruct rid as [rid|], d as [d|], tm as [tm|]; try exact HI.
  destruct (negb (truthyStr (Some tm)) || negb (truthy ps)); [exact HI|].
  destruct (parseInt ps) as [n|]; [|exact HI].
  destruct (n <=? 0); [exact HI|].
  destruct (restaurants st !! rid) as [r|] eqn:Hr; [|exact HI].
  destruct (availabilityForDate r d) as [e|] eqn:He; [|exact HI].
  destruct (suitableTable e n tm) as [t|] eqn:Ht; [|exact HI].
  cbv zeta. unfold snd.
  assert (In tm (availableTimes t)) as Hin.
  { apply find_some in Ht. destruct Ht as [_ Ht].
    apply suits_qualifies in Ht. apply Ht. }
  eapply (Inv_consume st0 st _ rid (utcDay d) (table_id t) t (consumeSlot tm t) tm);
    try reflexivity; try exact HI; try exact Hin.
  - eapply (inventoryChange_update st _ rid r _ (utcDay d) (sameUtcDay d)
              (suits n tm) (consumeSlot tm) e t); try reflexivity; auto.
    apply (inv_wf _ _ HI).
  - intros s. apply consumeSlot_In.
  - apply utcDay_startOfDayUTC.
  - apply startOfDayUTC_midnight.
Qed.

(** Under the invariant, the booking being cancelled designates a table
    of the current inventory. *)
Lemma booked_table st0 st id b :
  Inv st0 st -> bookings st !! id = Some b -> status b = confirmed ->
  bookingDate b mod msPerDay = 0
  /\ exists tid r e t,
       bookedTableDefinitionId b = Some tid
       /\ restaurants st !! restaurantId b = Some r
       /\ List.find (onDay (utcDay (bookingDate b))) (availableTables r) = Some e
       /\ List.find (hasId tid) (tables e) = Some t
       /\ table_id t = tid.
Proof.
  intros HI Hb Hs.
  destruct (inv_booked _ _ HI id b Hb Hs) as (Hmid & tid & Htid & Hseed).
  split; [exact Hmid|]. exists tid.
  apply slotTimes_tableAt in Hseed. apply (inv_tables _ _ HI) in Hseed.
  unfold tableAt in Hseed.
  destruct (restaurants st !! restaurantId b) as [r|] eqn:Hr; [|congruence].
  destruct (List.find (onDay _) (availableTables r)) as [e|] eqn:He; [|congruence].
  destruct (List.find (hasId tid) (tables e)) as [t|] eqn:Ht; [|congruence].
  exists r, e, t. repeat split; auto.
  apply find_some in Ht. destruct Ht as [_ Ht]. now apply N.eqb_eq.
Qed.

Lemma pushSlot_In tm t s :
  In s (availableTimes (ControllerA.pushSlot tm t)) <-> s = tm \/ In s (availableTimes t).
Proof. simpl. rewrite in_app_iff. simpl. intuition congruence. Qed.

Lemma cancelA_Inv st0 utcOffset user id st :
  Inv st0 st -> Inv st0 (ControllerA.cancelBooking utcOffset user id st).2.
Proof.
  intros HI. unfold ControllerA.cancelBooking.
  destruct (bookings st !! id) as [b|] eqn:Hb; [|exact HI].
  destruct (negb _ && negb _); [exact HI|].
  destruct (status b) eqn:Hs; [|exact HI].
  destruct (booked_table _ _ _ _ HI Hb Hs)
    as (Hmid & tid & r & e & t & Htid & Hr & He & Ht & Hidt).
  pose proof (inv_wf _ _ HI _ _ Hr) as Hwfr.
  assert (forall x, In x (availableTables r) ->
            ControllerA.sameLocalDay utcOffset (bookingDate b) x
            = onDay (utcDay (bookingDate b)) x) as Hpd.
  { intros x Hx. apply sameLocalDay_midnight; [exact Hmid|]. now apply Hwfr. }
  cbv zeta. simpl restaurants. rewrite Hr.
  rewrite (find_ext _ _ _ Hpd), He, Htid, Ht. unfold snd.
  eapply (Inv_release st0 st _ id b tid t (ControllerA.pushSlot (time b) t));
    try reflexivity; try eassumption.
  - subst tid.
    eapply (inventoryChange_update st _ (restaurantId b) r _ (utcDay (bookingDate b))
              (ControllerA.sameLocalDay utcOffset (bookingDate b))
              (hasId (table_id t)) (ControllerA.pushSlot (time b)) e t);
      try reflexivity; auto.
    apply (inv_wf _ _ HI).
  - intros s. apply pushSlot_In.
Qed.

Lemma releaseTarget_hasId b tid :
  bookedTableDefinitionId b = Some tid ->
  forall x, ControllerB.releaseTarget b x = hasId tid x.
Proof. intros H x. unfold ControllerB.releaseTarget. now rewrite H. Qed.

Lemma cancelB_Inv st0 momentHHmm user id st :
  Inv st0 st -> Inv st0 (ControllerB.cancelBooking momentHHmm user id st).2.
Proof.
  intros HI. unfold ControllerB.cancelBooking.
  destruct (bookings st !! id) as [b|] eqn:Hb; [|exact HI].
  destruct (negb _); [exact HI|].
  destruct (status b) eqn:Hs; [|exact HI].
  destruct (booked_table _ _ _ _ HI Hb Hs)
    as (Hmid & tid & r & e & t & Htid & Hr & He & Ht & Hidt).
  cbv zeta. simpl restaurants. rewrite Hr.
  change (sameUtcDay (bookingDate b)) with (onDay (utcDay (bookingDate b))).
  rewrite He.
  rewrite (find_ext _ _ _ (fun x _ => releaseTarget_hasId b tid Htid x)), Ht.
  assert (tableAt (restaurants st) (restaurantId b) (utcDay (bookingDate b)) tid
          = Some t) as Hat.
  { unfold tableAt. now rewrite Hr, He. }
  destruct (includes (availableTimes t) (time b)) eqn:Hinc; unfold snd.
  - apply includes_In in Hinc.
    eapply (Inv_release st0 st _ id b tid t t); try reflexivity; try eassumption.
    + apply inventoryChange_none; auto. apply (inv_wf _ _ HI).
    + intros s. split; [auto | intros [->|H]; auto].
  - eapply (Inv_release st0 st _ id b tid t (ControllerB.releaseSlot momentHHmm (time b) t));
      try reflexivity; try eassumption.
    + subst tid.
      eapply (inventoryChange_update st _ (restaurantId b) r _ (utcDay (bookingDate b))
                (onDay (utcDay (bookingDate b)))
                (ControllerB.releaseTarget b)
                (ControllerB.releaseSlot momentHHmm (time b)) e t);
        try reflexivity; auto.
      * apply (inv_wf _ _ HI).
      * intros x. unfold ControllerB.releaseSlot. case_match; reflexivity.
      * rewrite (find_ext _ _ _ (fun x _ => releaseTarget_hasId b _ Htid x)).
        exact Ht.
    + intros s. unfold ControllerB.releaseSlot. rewrite Hinc. simpl.
      rewrite sort_In, in_app_iff. simpl. intuition congruence.
Qed.

Section Reachability.

(** The environment of the controllers. *)
Variable utcOffset : Z.

Variable momentHHmm : string -> option Z.

Lemma reachable_Inv st0 st :
  seeded st0 -> reachable utcOffset momentHHmm st0 st -> Inv st0 st.
Proof.
  intros [Hbs Hwf]. revert st. apply (rtc_ind_r (Inv st0) st0).
  - now apply Inv_initial.
  - intros st st' _ Hstep IH. destruct Hstep.
    + now apply createBooking_Inv.
    + now apply cancelA_Inv.
    + now apply cancelB_Inv.
Qed.

(** C1 (amended). In every state reached from a seeded store by
    createBooking and cancelBooking requests, for every restaurant, date
    entry, table of that entry and time string: the time is in the table's
    availableTimes exactly when it was among the times the table was
    seeded with and no confirmed booking holds that restaurant, table, day
    and time. *)
Theorem C1_slots_mirror_confirmed_bookings st0 st :
  seeded st0 -> reachable utcOffset momentHHmm st0 st -> seededSlotInvariant st0 st.
Proof.
  intros Hseed Hreach. pose proof (reachable_Inv _ _ Hseed Hreach) as HI.
  intros rid r entry table s Hr He Ht.
  pose proof (inv_slots _ _ HI rid (utcDay (date entry)) (table_id table) s) as H.
  unfold slotTimes at 1 in H.
  rewrite (tableAt_In _ _ _ _ _ Hr (inv_wf _ _ HI _ _ Hr) He Ht) in H.
  exact H.
Qed.

End Reachability.

Lemma sample_seeded : seeded Sample.store0.
Proof.
  split; [reflexivity|]. intros rid r Hr.
  change (restaurants Sample.store0) with ({[ 1%N := Sample.restaurantX ]} : gmap ObjectId Restaurant) in Hr.
  apply lookup_singleton_Some in Hr. destruct Hr as [_ <-]. split.
  - simpl. constructor; [intros [] | constructor].
  - intros e [<-|[]]. split; [reflexivity|].
    simpl. constructor; [intros [] | constructor].
Defined.

(** C1 as written fails already in a seeded store, for a time the table
    was never open at: 19:00 is not in the list and no booking holds it. *)
Lemma C1_counterexample :
  seeded Sample.store0
  /\ reachable 0 canonicalHHmm Sample.store0 Sample.store0
  /\ ~ slotInvariant Sample.store0.
Proof.
  split; [exact sample_seeded|]. split; [apply rtc_refl|].
  intros H.
  specialize (H 1%N Sample.restaurantX
                {| date := Sample.june1; tables := [Sample.table7] |}
                Sample.table7 "19:00" eq_refl (or_introl eq_refl) (or_introl eq_refl)).
  destruct H as [_ H].
  assert (In "19:00" (availableTimes Sample.table7)) as Hin.
  { apply H. intros (id & b & Hb & _). simpl in Hb. now rewrite lookup_empty in Hb. }
  simpl in Hin. intuition discriminate.
Qed.

(** After scenario A the invariant holds of the store. *)
Lemma C1_slots_mirror_confirmed_bookings_witness :
  seededSlotInvariant Sample.store0 Sample.store1.
Proof.
  apply (C1_slots_mirror_confirmed_bookings 0 canonicalHHmm Sample.store0 Sample.store1).
  - exact sample_seeded.
  - apply rtc_once.
    exact (step_create 0 canonicalHHmm Sample.store0 Sample.diner (Some 1%N)
             (Some Sample.june1) (Some "18:00") (JSNumber 4)).
Defined.

(** *** Create then cancel, second copy of the controller *)

Lemma updateFirst_undo_byId (p : TableDefinition -> bool)
  (f g : TableDefinition -> TableDefinition) (l : list TableDefinition)
  (t : TableDefinition) :
  List.NoDup (map table_id l) -> List.find p l = Some t ->
  table_id (f t) = table_id t -> g (f t) = t ->
  updateFirst (hasId (table_id t)) g (updateFirst p f l) = l.
Proof.
  intros Hnd Hfind Hid Hg. induction l as [|a l IH]; simpl in *; [discriminate|].
  apply NoDup_cons_iff in Hnd. destruct Hnd as [Hnotin Hnd].
  destruct (p a) eqn:Ha.
  - injection Hfind as ->. simpl. unfold hasId. now rewrite Hid, N.eqb_refl, Hg.
  - simpl. destruct (hasId (table_id t) a) eqn:Hida.
    + apply N.eqb_eq in Hida. exfalso. apply Hnotin. rewrite Hida.
      apply in_map. apply find_some in Hfind. tauto.
    + now rewrite IH.
Qed.

Lemma updateFirst_undo {A} (p : A -> bool) (f g : A -> A) (l : list A) (e : A) :
  (forall x, p (f x) = p x) -> List.find p l = Some e -> g (f e) = e ->
  updateFirst p g (updateFirst p f l) = l.
Proof.
  intros Hp Hfind Hg. induction l as [|a l IH]; simpl in *; [discriminate|].
  destruct (p a) eqn:Ha.
  - injection Hfind as ->. simpl. now rewrite Hp, Ha, Hg.
  - simpl. now rewrite Ha, IH.
Qed.

Section SortedTimes.

Variable momentHHmm : string -> option Z.

Lemma diffHHmm_antisym a b :
  ControllerB.diffHHmm momentHHmm a b < 0 -> 0 < ControllerB.diffHHmm momentHHmm b a.
Proof.
  unfold ControllerB.diffHHmm.
  destruct (momentHHmm a), (momentHHmm b); lia.
Qed.

Lemma diffHHmm_irrefl a : ~ ControllerB.diffHHmm momentHHmm a a < 0.
Proof. unfold ControllerB.diffHHmm. destruct (momentHHmm a); lia. Qed.

Lemma insertSorted_least x l :
  (forall y, In y l -> ControllerB.diffHHmm momentHHmm x y < 0) ->
  ControllerB.insertSorted momentHHmm x l = x :: l.
Proof.
  destruct l as [|y l]; simpl; [reflexivity|]. intros H.
  assert ((ControllerB.diffHHmm momentHHmm x y <=? 0) = true) as ->; [|reflexivity].
  apply Z.leb_le. specialize (H y (or_introl eq_refl)). lia.
Qed.

Lemma sort_after_least tm l :
  chronological momentHHmm l ->
  (forall y, In y l -> ControllerB.diffHHmm momentHHmm tm y < 0) ->
  foldr (ControllerB.insertSorted momentHHmm) [tm] l = tm :: l.
Proof.
  intros Hs. unfold chronological in Hs.
  induction Hs as [|y l Hs IH Hall]; simpl; [reflexivity|].
  intros Hlt. rewrite IH by auto. simpl.
  assert ((ControllerB.diffHHmm momentHHmm y tm <=? 0) = false) as ->.
  { apply Z.leb_gt. apply diffHHmm_antisym. auto. }
  rewrite insertSorted_least; [reflexivity|].
  rewrite List.Forall_forall in Hall. exact Hall.
Qed.

Lemma filter_absent tm l :
  ~ In tm l -> List.filter (fun t => negb (String.eqb t tm)) l = l.
Proof.
  induction l as [|a l IH]; simpl; [reflexivity|]. intros H.
  assert (String.eqb a tm = false) as -> by (apply String.eqb_neq; intros ->; tauto).
  simpl. rewrite IH; tauto.
Qed.

Lemma sort_restores tm l :
  chronological momentHHmm l -> In tm l ->
  ControllerB.sort momentHHmm
    (List.filter (fun t => negb (String.eqb t tm)) l ++ [tm]) = l.
Proof.
  unfold ControllerB.sort. rewrite foldr_app. simpl.
  intros Hs. unfold chronological in Hs.
  induction Hs as [|a l Hs IH Hall]; simpl; [tauto|].
  rewrite List.Forall_forall in Hall.
  destruct (String.eqb a tm) eqn:Ha; simpl.
  - apply String.eqb_eq in Ha. subst a. intros _.
    rewrite filter_absent.
    + now apply sort_after_least.
    + intros Hin. apply (diffHHmm_irrefl tm). auto.
  - apply String.eqb_neq in Ha. intros [Heq|Hin]; [congruence|].
    rewrite IH by exact Hin. now apply insertSorted_least.
Qed.

Lemma releaseSlot_consumeSlot tm t :
  chronological momentHHmm (availableTimes t) -> In tm (availableTimes t) ->
  ControllerB.releaseSlot momentHHmm tm (consumeSlot tm t) = t.
Proof.
  intros Hs Hin. unfold ControllerB.releaseSlot.
  assert (includes (availableTimes (consumeSlot tm t)) tm = false) as ->.
  { destruct (includes _ tm) eqn:Hinc; [|reflexivity].
    apply includes_In, consumeSlot_In in Hinc. tauto. }
  simpl. rewrite (sort_restores _ _ Hs Hin). now destruct t.
Qed.

(** X24. On the second copy of the controller, a successful createBooking
    followed by the cancellation of that booking by its owner gives every
    restaurant its availableTables back, the matched table's list in its
    original order, provided that list was chronological and the table
    ids of the entry are distinct. *)
Theorem createBooking_cancelB_roundtrip user rid d tm ps n st r e t :
  validRequest tm ps n ->
  restaurants st !! rid = Some r ->
  availabilityForDate r d = Some e ->
  suitableTable e n tm = Some t ->
  List.NoDup (map table_id (tables e)) ->
  chronological momentHHmm (availableTimes t) ->
  let created := createBooking user (Some rid) (Some d) (Some tm) ps st in
  let undone := ControllerB.cancelBooking momentHHmm user (nextId st) created.2 in
  (exists b, created.1 = Json 201 b /\ booking_id b = nextId st)
  /\ (exists b, undone.1 = Json 200 b /\ status b = cancelled)
  /\ availableTables <$> (restaurants undone.2 !! rid) = Some (availableTables r)
  /\ forall rid', rid' <> rid ->
                  restaurants undone.2 !! rid' = restaurants st !! rid'.
Proof.
  intros Hv Hr He Ht Hnd Hs created undone. subst created undone.
  rewrite (createBooking_valid _ _ _ _ _ _ _ _ Hv Hr), He, Ht.
  split; [eexists; split; reflexivity|].
  assert (In tm (availableTimes t)) as Hin.
  { apply find_some in Ht. destruct Ht as [_ Ht].
    apply suits_qualifies in Ht. apply Ht. }
  assert (hasId (table_id t) t = true) as Hidt by apply N.eqb_refl.
  unfold ControllerB.cancelBooking. cbn [snd bookings restaurants].
  rewrite lookup_insert_eq. cbn [userId status restaurantId bookingDate
                                  setBookings restaurants bookings].
  rewrite N.eqb_refl. cbn [negb]. rewrite lookup_insert_eq.
  cbn [incTimesBookedToday availableTables consumeIn setAvailableTables].
  rewrite (sameUtcDay_day _ _ (utcDay_startOfDayUTC d)).
  rewrite find_updateFirst_same by reflexivity.
  unfold availabilityForDate in He. rewrite He. cbn [fmap option_fmap option_map].
  cbn [tables setTables].
  rewrite (find_ext (ControllerB.releaseTarget _) (hasId (table_id t)))
    by (intros; reflexivity).
  unfold suitableTable in Ht.
  rewrite (find_updateFirst_byId (suits n tm) (consumeSlot tm) (tables e) t
             (table_id t) Hnd (fun _ => eq_refl) Ht).
  destruct (decide (table_id t = table_id t)) as [_|Hne]; [|congruence].
  assert (includes (availableTimes (consumeSlot tm t)) tm = false) as Hinc.
  { destruct (includes _ tm) eqn:Hinc; [|reflexivity].
    apply includes_In, consumeSlot_In in Hinc. tauto. }
  cbn [time]. rewrite Hinc.
  split; [eexists; split; reflexivity|].
  cbn [snd setRestaurants restaurants]. split.
  - rewrite lookup_insert_eq. cbn [fmap option_fmap option_map]. f_equal.
    unfold ControllerB.releaseIn.
    cbn [availableTables setAvailableTables bookingDate time].
    rewrite (sameUtcDay_day _ _ (utcDay_startOfDayUTC d)).
    apply updateFirst_undo with e; [reflexivity | exact He |].
    cbn [tables setTables].
    match goal with
    | |- context [ControllerB.releaseTarget ?b] =>
        change (ControllerB.releaseTarget b) with (hasId (table_id t))
    end.
    rewrite (updateFirst_undo_byId (suits n tm) (consumeSlot tm)
               (ControllerB.releaseSlot momentHHmm tm) (tables e) t Hnd Ht eq_refl
               (releaseSlot_consumeSlot tm t Hs Hin)).
    now destruct e.
  - intros rid' Hne. now rewrite !lookup_insert_ne by congruence.
Qed.

End SortedTimes.

(** Scenario A then scenario C on the second copy of the controller. *)
Example createBooking_cancelB_roundtrip_sample :
  availableTables
  <$> (restaurants
         (ControllerB.cancelBooking canonicalHHmm Sample.diner 100%N
            (createBooking Sample.diner (Some 1%N) (Some Sample.june1) (Some "18:00")
               (JSNumber 4) Sample.store0).2).2 !! 1%N)
  = Some (availableTables Sample.restaurantX).
Proof.
  refine (proj1 (proj2 (proj2
    (createBooking_cancelB_roundtrip canonicalHHmm Sample.diner 1%N Sample.june1
       "18:00" (JSNumber 4) 4 Sample.store0 Sample.restaurantX
       {| date := Sample.june1; tables := [Sample.table7] |} Sample.table7
       sample_valid eq_refl eq_refl eq_refl _ _)))).
  - simpl. constructor; [intros [] | constructor].
  - repeat constructor.
Defined.

(** ** Further properties of the booking controller *)

(** *** createBooking: answers and effects *)

(** X1. Whenever createBooking answers 400 or 404, the store is exactly
    what it was: no booking is stored, no slot is taken and no counter
    moves, so the same request sent again gets the same answer. *)
Theorem createBooking_error_leaves_store user rid d tm ps st code msg st' :
  createBooking user rid d tm ps st = (Error code msg, st') ->
  code = 400 \/ code = 404 ->
  st' = st /\ createBooking user rid d tm ps st' = (Error code msg, st').
Proof.
  intros H _.
  assert (st' = st) as ->; [|split; [reflexivity | exact H]].
  revert H.
  unfold createBooking, MissingFieldsError, InvalidPartySizeError,
    RestaurantNotFoundError, NoAvailabilityForDate, NoSuitableTable.
  destruct rid as [rid|], d as [d|], tm as [tm|]; try congruence.
  destruct (negb (truthyStr (Some tm)) || negb (truthy ps)); [congruence|].
  destruct (parseInt ps) as [n|]; [|congruence].
  destruct (n <=? 0); [congruence|].
  destruct (restaurants st !! rid) as [r|]; [|congruence].
  destruct (availabilityForDate r d) as [e|]; [|congruence].
  destruct (suitableTable e n tm) as [t|]; [|congruence].
  discriminate.
Qed.

(** The request for the slot scenario A has taken. *)
Lemma createBooking_error_leaves_store_witness :
  (createBooking Sample.other (Some 1%N) (Some Sample.june1) (Some "18:00")
     (JSNumber 2) Sample.store1).2 = Sample.store1.
Proof.
  destruct (createBooking Sample.other (Some 1%N) (Some Sample.june1) (Some "18:00")
              (JSNumber 2) Sample.store1) as [resp st'] eqn:E.
  assert (exists msg, resp = Error 400 msg) as (msg & ->).
  { vm_compute in E. injection E as <- _. eauto. }
  exact (proj1 (createBooking_error_leaves_store _ _ _ _ _ _ _ _ _ E
                  (or_introl eq_refl))).
Defined.

Lemma updateFirst_split {A} (p : A -> bool) (f : A -> A) (pre post : list A) (x : A) :
  (forall y, In y pre -> p y = false) -> p x = true ->
  updateFirst p f (pre ++ x :: post) = pre ++ f x :: post.
Proof.
  induction pre as [|a pre IH]; simpl; intros Hpre Hx.
  - now rewrite Hx.
  - rewrite (Hpre a) by auto. f_equal. apply IH; auto.
Qed.

Lemma find_app_skip {A} (p : A -> bool) (pre post : list A) (x : A) :
  (forall y, In y pre -> p y = false) -> p x = false ->
  List.find p (pre ++ x :: post) = List.find p post.
Proof.
  induction pre as [|a pre IH]; simpl; intros Hpre Hx.
  - now rewrite Hx.
  - rewrite (Hpre a) by auto. apply IH; auto.
Qed.

Lemma consumeSlot_not_suits n tm t : suits n tm (consumeSlot tm t) = false.
Proof.
  apply suits_false. intros [_ Hin]. apply consumeSlot_In in Hin. tauto.
Qed.

Lemma restaurantShape_updateTable pd pt ft r r' :
  (forall x, tableShape (ft x) = tableShape x) ->
  isApproved r' = isApproved r -> city r' = city r -> zip r' = zip r ->
  availableTables r' = updateTable pd pt ft r ->
  restaurantShape r' = restaurantShape r.
Proof.
  intros Hft Ha Hc Hz Hr'. unfold restaurantShape. rewrite Ha, Hc, Hz, Hr'.
  f_equal. unfold updateTable. apply updateFirst_map.
  intros e. unfold entryShape. simpl. f_equal. now apply updateFirst_map.
Qed.

(** X2. A successful createBooking stores one more booking, under the
    next id: confirmed, owned by the requester, dated at UTC midnight of
    the requested day, with the parsed positive party size. Nothing else
    changes in the booking collection, no other restaurant changes, and
    the booked restaurant keeps its description, its dates, table ids and
    table sizes; its display counter goes up by one. *)
Theorem createBooking_success_frame user rid d tm ps st c b st' :
  createBooking user rid d tm ps st = (Json c b, st') ->
  c = 201
  /\ booking_id b = nextId st /\ status b = confirmed /\ userId b = user_id user
  /\ rid = Some (restaurantId b) /\ tm = Some (time b)
  /\ (exists d0, d = Some d0 /\ bookingDate b = startOfDayUTC d0)
  /\ bookingDate b mod msPerDay = 0
  /\ parseInt ps = Some (partySize b) /\ 0 < partySize b
  /\ bookings st' = <[nextId st := b]> (bookings st)
  /\ nextId st' = N.succ (nextId st)
  /\ (forall rid', rid' <> restaurantId b ->
        restaurants st' !! rid' = restaurants st !! rid')
  /\ exists r r',
       restaurants st !! restaurantId b = Some r
       /\ restaurants st' !! restaurantId b = Some r'
       /\ restaurantShape r' = restaurantShape r
       /\ timesBookedToday r' = timesBookedToday r + 1.
Proof.
  unfold createBooking. intros H.
  destruct rid as [rid|], d as [d|], tm as [tm|]; try discriminate.
  destruct (negb (truthyStr (Some tm)) || negb (truthy ps)); [discriminate|].
  destruct (parseInt ps) as [n|] eqn:Hn; [|discriminate].
  destruct (n <=? 0) eqn:Hpos; [discriminate|].
  destruct (restaurants st !! rid) as [r|] eqn:Hr; [|discriminate].
  destruct (availabilityForDate r d) as [e|]; [|discriminate].
  destruct (suitableTable e n tm) as [t|]; [|discriminate].
  cbv zeta in H. injection H as <- <- <-. simpl.
  repeat split; try reflexivity.
  - eexists. split; reflexivity.
  - apply startOfDayUTC_midnight.
  - lia.
  - intros rid' Hne. now rewrite lookup_insert_ne by congruence.
  - exists r, (incTimesBookedToday (consumeIn d n tm r)).
    rewrite lookup_insert_eq. repeat split; auto.
    eapply (restaurantShape_updateTable (sameUtcDay d) (suits n tm) (consumeSlot tm));
      reflexivity.
Qed.

Lemma createBooking_success_frame_witness :
  exists b,
    bookings Sample.store1 = <[100%N := b]> (bookings Sample.store0)
    /\ status b = confirmed /\ bookingDate b mod msPerDay = 0.
Proof.
  destruct (createBooking Sample.diner (Some 1%N) (Some Sample.june1) (Some "18:00")
              (JSNumber 4) Sample.store0) as [resp st'] eqn:E.
  assert (exists c b, resp = Json c b) as (c & b & ->).
  { vm_compute in E. injection E as <- _. eauto. }
  pose proof (createBooking_success_frame _ _ _ _ _ _ _ _ _ E)
    as (_ & _ & Hs & _ & _ & _ & _ & Hmid & _ & _ & Hbs & _).
  exists b. unfold Sample.store1. rewrite E. auto.
Defined.

(** X3. After a successful booking the matched table no longer offers
    the time and keeps every other time; the tables before and after it
    are untouched. The same request again is matched against the tables
    after it only: it takes a later table or is answered NoSuitableTable. *)
Theorem createBooking_consumes_first_fit user rid d tm ps n st r e pre t post :
  validRequest tm ps n -> restaurants st !! rid = Some r ->
  availabilityForDate r d = Some e ->
  tables e = pre ++ t :: post ->
  (forall x, In x pre -> ~ qualifies n tm x) -> qualifies n tm t ->
  let st' := (createBooking user (Some rid) (Some d) (Some tm) ps st).2 in
  exists r' e',
    restaurants st' !! rid = Some r'
    /\ availabilityForDate r' d = Some e'
    /\ date e' = date e
    /\ tables e' = pre ++ consumeSlot tm t :: post
    /\ ~ In tm (availableTimes (consumeSlot tm t))
    /\ (forall s, s <> tm ->
          (In s (availableTimes (consumeSlot tm t)) <-> In s (availableTimes t)))
    /\ suitableTable e' n tm = List.find (suits n tm) post.
Proof.
  intros Hv Hr He Htabs Hpre Hq st'. subst st'.
  assert (forall y, In y pre -> suits n tm y = false) as Hpre'.
  { intros y Hy. apply suits_false. auto. }
  assert (suits n tm t = true) as Ht' by now apply suits_qualifies.
  assert (suitableTable e n tm = Some t) as Ht.
  { unfold suitableTable. rewrite Htabs. now apply find_app_first. }
  rewrite (createBooking_valid _ _ _ _ _ _ _ _ Hv Hr), He, Ht.
  cbn [snd restaurants]. rewrite lookup_insert_eq.
  eexists _, (setTables (updateFirst (suits n tm) (consumeSlot tm) (tables e)) e).
  split; [reflexivity|]. split.
  { unfold availabilityForDate in *. cbn [incTimesBookedToday consumeIn
      setAvailableTables availableTables].
    rewrite find_updateFirst_same by reflexivity. now rewrite He. }
  split; [reflexivity|].
  cbn [tables setTables]. rewrite Htabs, (updateFirst_split _ _ _ _ _ Hpre' Ht').
  split; [reflexivity|]. split.
  { intros Hin. apply consumeSlot_In in Hin. tauto. }
  split.
  { intros s Hs. rewrite consumeSlot_In. tauto. }
  unfold suitableTable. cbn [tables].
  apply find_app_skip; [exact Hpre' | apply consumeSlot_not_suits].
Qed.

Lemma createBooking_consumes_first_fit_witness :
  exists r' e',
    restaurants Sample.store1 !! 1%N = Some r'
    /\ availabilityForDate r' Sample.june1 = Some e'
    /\ date e' = Sample.june1
    /\ tables e' = [consumeSlot "18:00" Sample.table7]
    /\ ~ In "18:00" (availableTimes (consumeSlot "18:00" Sample.table7))
    /\ (forall s, s <> "18:00" ->
          (In s (availableTimes (consumeSlot "18:00" Sample.table7))
           <-> In s (availableTimes Sample.table7)))
    /\ suitableTable e' 4 "18:00" = None.
Proof.
  refine (createBooking_consumes_first_fit Sample.diner 1%N Sample.june1 "18:00"
            (JSNumber 4) 4 Sample.store0 Sample.restaurantX
            {| date := Sample.june1; tables := [Sample.table7] |}
            [] Sample.table7 [] sample_valid eq_refl eq_refl eq_refl _ _).
  - intros x [].
  - split; [vm_compute; discriminate | simpl; auto].
Defined.

(** *** cancelBooking: what it leaves alone *)

Lemma cancelFrame_refl id st : cancelFrame id st st.
Proof. repeat split; auto. Qed.

Lemma cancelFrame_status id st b :
  bookings st !! id = Some b -> status b = confirmed ->
  cancelFrame id st (setBookings (<[id := setStatus cancelled b]> (bookings st)) st).
Proof.
  intros Hb Hs. repeat split; simpl; auto.
  - intros id' Hne. now rewrite lookup_insert_ne by congruence.
  - right. exists b. rewrite lookup_insert_eq. auto.
Qed.

Lemma cancelFrame_release id st b r r' :
  bookings st !! id = Some b -> status b = confirmed ->
  restaurants st !! restaurantId b = Some r ->
  restaurantShape r' = restaurantShape r ->
  timesBookedToday r' = timesBookedToday r ->
  cancelFrame id st
    (setRestaurants (<[restaurantId b := r']> (restaurants st))
       (setBookings (<[id := setStatus cancelled b]> (bookings st)) st)).
Proof.
  intros Hb Hs Hr Hshape Hcount. repeat split; simpl; auto.
  - intros id' Hne. now rewrite lookup_insert_ne by congruence.
  - right. exists b. rewrite lookup_insert_eq. auto.
  - intros rid. destruct (decide (rid = restaurantId b)) as [->|Hne].
    + rewrite lookup_insert_eq, Hr. simpl. now rewrite Hshape.
    + now rewrite lookup_insert_ne by congruence.
  - intros rid. destruct (decide (rid = restaurantId b)) as [->|Hne].
    + rewrite lookup_insert_eq, Hr. simpl. now rewrite Hcount.
    + now rewrite lookup_insert_ne by congruence.
  - intros b0 rid Hb0 Hne. assert (b0 = b) by congruence. subst b0.
    now rewrite lookup_insert_ne by congruence.
Qed.

Lemma releaseSlot_shape momentHHmm tm t :
  tableShape (ControllerB.releaseSlot momentHHmm tm t) = tableShape t.
Proof. unfold ControllerB.releaseSlot. now destruct (includes _ _). Qed.

Lemma cancel_frames utcOffset momentHHmm user id st :
  cancelFrame id st (ControllerA.cancelBooking utcOffset user id st).2
  /\ cancelFrame id st (ControllerB.cancelBooking momentHHmm user id st).2.
Proof.
  split.
  - unfold ControllerA.cancelBooking.
    destruct (bookings st !! id) as [b|] eqn:Hb; [|apply cancelFrame_refl].
    destruct (negb _ && negb _); [apply cancelFrame_refl|].
    destruct (status b) eqn:Hs; [|apply cancelFrame_refl].
    cbv zeta. simpl restaurants.
    destruct (restaurants st !! restaurantId b) as [r|] eqn:Hr;
      [|now apply cancelFrame_status].
    destruct (List.find _ (availableTables r)) as [e|];
      [|now apply cancelFrame_status].
    destruct (bookedTableDefinitionId b) as [tid|].
    + destruct (List.find (hasId tid) (tables e));
        [|now apply cancelFrame_status].
      apply (cancelFrame_release id st b r _ Hb Hs Hr); [|reflexivity].
      eapply (restaurantShape_updateTable _ (hasId tid)
                (ControllerA.pushSlot (time b))); reflexivity.
    + destruct (tables e); now apply cancelFrame_status.
  - unfold ControllerB.cancelBooking.
    destruct (bookings st !! id) as [b|] eqn:Hb; [|apply cancelFrame_refl].
    destruct (negb _); [apply cancelFrame_refl|].
    destruct (status b) eqn:Hs; [|apply cancelFrame_refl].
    cbv zeta. simpl restaurants.
    destruct (restaurants st !! restaurantId b) as [r|] eqn:Hr;
      [|now apply cancelFrame_status].
    destruct (List.find _ (availableTables r)) as [e|];
      [|now apply cancelFrame_status].
    destruct (List.find _ (tables e)) as [t|]; [|now apply cancelFrame_status].
    destruct (includes _ _); [now apply cancelFrame_status|].
    apply (cancelFrame_release id st b r _ Hb Hs Hr); [|reflexivity].
    eapply (restaurantShape_updateTable _ (ControllerB.releaseTarget b)
              (ControllerB.releaseSlot momentHHmm (time b)));
      try reflexivity.
    apply releaseSlot_shape.
Qed.

(** X4. Whatever the answer, a cancellation by either copy of the
    controller changes at most the status of the booking named (from
    confirmed to cancelled) and lists of available times in that
    booking's restaurant: no booking is added or removed, no other
    booking and no other restaurant changes, and every restaurant keeps
    its approval flag, address, dates, table ids, table sizes and its
    timesBookedToday counter (which is not decremented). *)
Theorem cancelBooking_frame utcOffset momentHHmm user id st :
  cancelFrame id st (ControllerA.cancelBooking utcOffset user id st).2
  /\ cancelFrame id st (ControllerB.cancelBooking momentHHmm user id st).2.
Proof. apply cancel_frames. Qed.

(** X5. On the second copy, the owner's cancellation of a confirmed
    booking never depends on the inventory: whatever the restaurant
    collection holds (restaurant deleted, no entry for the day, no such
    table), the answer is 200 with the booking cancelled and the booking
    is stored as cancelled. On the first copy the same holds for an
    entitled requester when the restaurant no longer exists, and then the
    restaurant collection is untouched. *)
Theorem cancelBooking_not_blocked_by_inventory user id st b :
  bookings st !! id = Some b -> status b = confirmed ->
  (forall momentHHmm,
     userId b = user_id user ->
     (ControllerB.cancelBooking momentHHmm user id st).1
     = Json 200 (setStatus cancelled b)
     /\ bookings (ControllerB.cancelBooking momentHHmm user id st).2
        = <[id := setStatus cancelled b]> (bookings st)
     /\ (restaurants st !! restaurantId b = None ->
         restaurants (ControllerB.cancelBooking momentHHmm user id st).2
         = restaurants st))
  /\ (forall utcOffset,
        userId b = user_id user \/ role user = "admin" ->
        restaurants st !! restaurantId b = None ->
        ControllerA.cancelBooking utcOffset user id st
        = (Json 200 (setStatus cancelled b),
           setBookings (<[id := setStatus cancelled b]> (bookings st)) st)).
Proof.
  intros Hb Hs. split.
  - intros momentHHmm Hu. unfold ControllerB.cancelBooking.
    rewrite Hb, Hs, Hu, N.eqb_refl. cbv zeta. simpl restaurants. cbn [negb].
    split; [|split].
    + repeat case_match; reflexivity.
    + repeat case_match; reflexivity.
    + intros ->. reflexivity.
  - intros utcOffset Hauth Hr. unfold ControllerA.cancelBooking. rewrite Hb, Hs.
    assert (negb (userId b =? user_id user)%N && negb (String.eqb (role user) "admin")
            = false) as ->.
    { destruct Hauth as [->| ->].
      - now rewrite N.eqb_refl.
      - simpl. apply andb_false_r. }
    cbv zeta. simpl restaurants. now rewrite Hr.
Qed.

Lemma cancelBooking_not_blocked_by_inventory_witness :
  let orphan := setRestaurants ∅ Sample.store1 in
  exists b,
    status b = cancelled
    /\ ControllerA.cancelBooking 0 Sample.diner 100%N orphan
       = (Json 200 b, setBookings (<[100%N := b]> (bookings orphan)) orphan)
    /\ (ControllerB.cancelBooking canonicalHHmm Sample.diner 100%N orphan).1
       = Json 200 b.
Proof.
  intros orphan.
  pose (b := {| booking_id := 100%N; userId := 5%N; restaurantId := 1%N;
                bookingDate := Sample.june1; time := "18:00"; partySize := 4;
                bookedTableSize := 4; bookedTableDefinitionId := Some 7%N;
                status := confirmed |}).
  assert (bookings orphan !! 100%N = Some b) as Hb by (vm_compute; reflexivity).
  destruct (cancelBooking_not_blocked_by_inventory Sample.diner 100%N orphan b
              Hb eq_refl) as [HB HA].
  exists (setStatus cancelled b). split; [reflexivity|]. split.
  - apply (HA 0); [left; reflexivity | reflexivity].
  - apply (HB canonicalHHmm). reflexivity.
Defined.

(** X6. On the first copy, cancelling a booking that carries no
    bookedTableDefinitionId, when the restaurant has an entry for the
    booking's local day with at least one table, is answered 500 although
    the booking has already been stored as cancelled; the inventory is
    untouched, and a further attempt is answered AlreadyCancelledError. *)
Theorem cancelA_legacy_booking_fails_after_cancelling utcOffset user id st b r e :
  bookings st !! id = Some b -> status b = confirmed ->
  userId b = user_id user \/ role user = "admin" ->
  bookedTableDefinitionId b = None ->
  restaurants st !! restaurantId b = Some r ->
  List.find (ControllerA.sameLocalDay utcOffset (bookingDate b)) (availableTables r)
  = Some e ->
  tables e <> [] ->
  let st' := (ControllerA.cancelBooking utcOffset user id st).2 in
  (ControllerA.cancelBooking utcOffset user id st).1 = CancelInternalError
  /\ bookings st' = <[id := setStatus cancelled b]> (bookings st)
  /\ restaurants st' = restaurants st
  /\ ControllerA.cancelBooking utcOffset user id st' = (AlreadyCancelledError, st').
Proof.
  intros Hb Hs Hauth Hid Hr He Hne st'.
  assert (ControllerA.cancelBooking utcOffset user id st
          = (CancelInternalError,
             setBookings (<[id := setStatus cancelled b]> (bookings st)) st)) as Heq.
  { unfold ControllerA.cancelBooking. rewrite Hb, Hs.
    assert (negb (userId b =? user_id user)%N && negb (String.eqb (role user) "admin")
            = false) as ->.
    { destruct Hauth as [->| ->].
      - now rewrite N.eqb_refl.
      - simpl. apply andb_false_r. }
    cbv zeta. simpl restaurants. rewrite Hr, He, Hid.
    destruct (tables e); [congruence | reflexivity]. }
  subst st'. rewrite Heq. cbn [fst snd]. repeat split.
  apply cancelA_cancelled with (setStatus cancelled b); auto.
  simpl. apply lookup_insert_eq.
Qed.

Lemma cancelA_legacy_booking_fails_after_cancelling_witness :
  let legacy :=
    {| booking_id := 100%N; userId := 5%N; restaurantId := 1%N;
       bookingDate := Sample.june1; time := "18:00"; partySize := 4;
       bookedTableSize := 4; bookedTableDefinitionId := None;
       status := confirmed |} in
  let st := setBookings {[ 100%N := legacy ]} Sample.store1 in
  (ControllerA.cancelBooking 0 Sample.diner 100%N st).1 = CancelInternalError
  /\ bookings (ControllerA.cancelBooking 0 Sample.diner 100%N st).2 !! 100%N
     = Some (setStatus cancelled legacy).
Proof.
  intros legacy st.
  assert (restaurants st !! 1%N <> None) as Hr by (vm_compute; discriminate).
  destruct (restaurants st !! 1%N) as [r|] eqn:Er; [|congruence].
  assert (exists e, List.find (ControllerA.sameLocalDay 0 Sample.june1)
                      (availableTables r) = Some e /\ tables e <> [])
    as (e & He & Hne).
  { vm_compute in Er. injection Er as <-. eexists. split; [reflexivity|]. discriminate. }
  assert (bookings st !! 100%N = Some legacy) as Hb by (vm_compute; reflexivity).
  destruct (cancelA_legacy_booking_fails_after_cancelling 0 Sample.diner 100%N st
              legacy r e Hb eq_refl (or_introl eq_refl) eq_refl Er He Hne)
    as (H1 & H2 & _).
  split; [exact H1|]. rewrite H2. apply lookup_insert_eq.
Defined.

(** *** Giving a slot back *)

Section ReleaseSlot.

Variable momentHHmm : string -> option Z.

Lemma diffHHmm_total a b :
  ~ ControllerB.diffHHmm momentHHmm a b <= 0 ->
  ControllerB.diffHHmm momentHHmm b a <= 0.
Proof.
  unfold ControllerB.diffHHmm.
  destruct (momentHHmm a), (momentHHmm b); lia.
Qed.

Lemma insertSorted_Permutation x l :
  Permutation (ControllerB.insertSorted momentHHmm x l) (x :: l).
Proof.
  induction l as [|y l IH]; simpl; [reflexivity|].
  destruct (_ <=? 0); [reflexivity|].
  rewrite IH. apply perm_swap.
Qed.

Lemma sort_Permutation l : Permutation (ControllerB.sort momentHHmm l) l.
Proof.
  unfold ControllerB.sort. induction l as [|y l IH]; simpl; [reflexivity|].
  rewrite insertSorted_Permutation. now constructor.
Qed.

Lemma insertSorted_HdRel a x l :
  HdRel (earlierOrSame momentHHmm) a l -> earlierOrSame momentHHmm a x ->
  HdRel (earlierOrSame momentHHmm) a (ControllerB.insertSorted momentHHmm x l).
Proof.
  intros Hl Hx. destruct l as [|y l]; simpl.
  - now constructor.
  - destruct (_ <=? 0); constructor; auto. now inversion Hl.
Qed.

Lemma insertSorted_Sorted x l :
  Sorted (earlierOrSame momentHHmm) l ->
  Sorted (earlierOrSame momentHHmm) (ControllerB.insertSorted momentHHmm x l).
Proof.
  induction 1 as [|y l Hs IH Hhd]; simpl.
  - repeat constructor.
  - destruct (ControllerB.diffHHmm momentHHmm x y <=? 0) eqn:Hle.
    + apply Z.leb_le in Hle. repeat constructor; auto.
    + apply Z.leb_gt in Hle. constructor; [exact IH|].
      apply insertSorted_HdRel; [exact Hhd|].
      apply diffHHmm_total. lia.
Qed.

Lemma sort_Sorted l :
  Sorted (earlierOrSame momentHHmm) (ControllerB.sort momentHHmm l).
Proof.
  unfold ControllerB.sort. induction l as [|y l IH]; simpl.
  - constructor.
  - now apply insertSorted_Sorted.
Qed.

Lemma releaseSlot_present tm t :
  In tm (availableTimes t) -> ControllerB.releaseSlot momentHHmm tm t = t.
Proof.
  intros Hin. unfold ControllerB.releaseSlot.
  apply includes_In in Hin. now rewrite Hin.
Qed.

Lemma releaseSlot_absent tm t :
  ~ In tm (availableTimes t) ->
  ControllerB.releaseSlot momentHHmm tm t
  = setAvailableTimes (ControllerB.sort momentHHmm (availableTimes t ++ [tm])) t.
Proof.
  intros Hnot. unfold ControllerB.releaseSlot.
  destruct (includes (availableTimes t) tm) eqn:Hinc; [|reflexivity].
  apply includes_In in Hinc. tauto.
Qed.

(** X7. Giving a slot back to a table whose times moment can all read
    (second copy of the controller): the table keeps its id and size; if
    the time is already offered the table is unchanged; otherwise the new
    list holds exactly the old times and the returned one, in non
    decreasing order of time of day; a list without duplicates stays
    without duplicates, and giving the same slot back again changes
    nothing. *)
Theorem releaseSlot_inserts_once_in_order tm t :
  (forall s, In s (tm :: availableTimes t) -> momentHHmm s <> None) ->
  let t' := ControllerB.releaseSlot momentHHmm tm t in
  table_id t' = table_id t /\ tableSize t' = tableSize t
  /\ (In tm (availableTimes t) -> t' = t)
  /\ (~ In tm (availableTimes t) ->
      Permutation (availableTimes t') (tm :: availableTimes t)
      /\ Sorted (earlierOrSame momentHHmm) (availableTimes t'))
  /\ (List.NoDup (availableTimes t) -> List.NoDup (availableTimes t'))
  /\ ControllerB.releaseSlot momentHHmm tm t' = t'.
Proof.
  intros _ t'. subst t'.
  destruct (in_dec string_dec tm (availableTimes t)) as [Hin|Hnot].
  - rewrite !(releaseSlot_present _ _ Hin). repeat split; auto; tauto.
  - rewrite (releaseSlot_absent _ _ Hnot).
    assert (Permutation (ControllerB.sort momentHHmm (availableTimes t ++ [tm]))
              (tm :: availableTimes t)) as Hperm.
    { rewrite sort_Permutation. rewrite Permutation_app_comm. reflexivity. }
    simpl. repeat split; auto; try tauto.
    + apply sort_Sorted.
    + intros Hnd. apply (Permutation_NoDup (Permutation_sym Hperm)).
      now constructor.
    + apply releaseSlot_present. simpl.
      apply (Permutation_in _ (Permutation_sym Hperm)). now left.
Qed.

End ReleaseSlot.

Lemma releaseSlot_inserts_once_in_order_witness :
  let t := ControllerB.releaseSlot canonicalHHmm "17:30" Sample.table7 in
  table_id t = 7%N
  /\ Permutation (availableTimes t) ["17:30"; "18:00"; "18:30"]
  /\ Sorted (earlierOrSame canonicalHHmm) (availableTimes t)
  /\ ControllerB.releaseSlot canonicalHHmm "17:30" t = t.
Proof.
  intros t.
  assert (forall s, In s ("17:30" :: availableTimes Sample.table7) ->
                    canonicalHHmm s <> None) as Hvalid.
  { simpl. intros s [<-|[<-|[<-|[]]]]; vm_compute; discriminate. }
  assert (~ In "17:30" (availableTimes Sample.table7)) as Hnew.
  { simpl. intros [H|[H|[]]]; discriminate. }
  destruct (releaseSlot_inserts_once_in_order canonicalHHmm "17:30" Sample.table7
              Hvalid) as (Hid & _ & _ & Hins & _ & Hagain).
  destruct (Hins Hnew) as [Hperm Hsorted].
  repeat split; auto.
Defined.

(** X8. On the first copy, the cancellation of a confirmed booking whose
    restaurant, date entry (by local day) and table (first with the booked
    id) are found puts the time at the end of that table's list, whether
    or not the list already holds it; the tables before and after are
    untouched. *)
Theorem cancelA_appends_slot utcOffset user id st b tid r e pre t post :
  bookings st !! id = Some b -> status b = confirmed ->
  userId b = user_id user \/ role user = "admin" ->
  bookedTableDefinitionId b = Some tid ->
  restaurants st !! restaurantId b = Some r ->
  List.find (ControllerA.sameLocalDay utcOffset (bookingDate b)) (availableTables r)
  = Some e ->
  tables e = pre ++ t :: post ->
  (forall x, In x pre -> table_id x <> tid) -> table_id t = tid ->
  let st' := (ControllerA.cancelBooking utcOffset user id st).2 in
  exists r' e',
    restaurants st' !! restaurantId b = Some r'
    /\ List.find (ControllerA.sameLocalDay utcOffset (bookingDate b))
         (availableTables r') = Some e'
    /\ date e' = date e
    /\ tables e' = pre ++ ControllerA.pushSlot (time b) t :: post
    /\ availableTimes (ControllerA.pushSlot (time b) t)
       = availableTimes t ++ [time b]
    /\ (In (time b) (availableTimes t) ->
        ~ List.NoDup (availableTimes (ControllerA.pushSlot (time b) t))).
Proof.
  intros Hb Hs Hauth Htid Hr He Htabs Hpre Ht st'. subst st'.
  assert (forall y, In y pre -> hasId tid y = false) as Hpre'.
  { intros y Hy. apply N.eqb_neq. auto. }
  assert (hasId tid t = true) as Ht' by now apply N.eqb_eq.
  unfold ControllerA.cancelBooking. rewrite Hb, Hs.
  assert (negb (userId b =? user_id user)%N && negb (String.eqb (role user) "admin")
          = false) as ->.
  { destruct Hauth as [->| ->].
    - now rewrite N.eqb_refl.
    - simpl. apply andb_false_r. }
  assert (List.find (hasId tid) (tables e) = Some t) as Hfind.
  { rewrite Htabs. now apply find_app_first. }
  cbv zeta. simpl restaurants. rewrite Hr, He, Htid, Hfind.
  cbn [snd setRestaurants restaurants]. rewrite lookup_insert_eq.
  eexists _, (setTables (updateFirst (hasId tid) (ControllerA.pushSlot (time b))
                           (tables e)) e).
  split; [reflexivity|]. split.
  { unfold ControllerA.releaseIn. cbn [availableTables setAvailableTables].
    rewrite find_updateFirst_same by reflexivity. now rewrite He. }
  split; [reflexivity|].
  cbn [tables setTables]. rewrite Htabs, (updateFirst_split _ _ _ _ _ Hpre' Ht').
  split; [reflexivity|]. split; [reflexivity|].
  intros Hin Hnd. simpl in Hnd.
  apply NoDup_remove_2 in Hnd. rewrite app_nil_r in Hnd. tauto.
Qed.

Lemma cancelA_appends_slot_witness :
  exists r' e',
    restaurants (ControllerA.cancelBooking 0 Sample.diner 100%N Sample.store1).2 !! 1%N
    = Some r'
    /\ List.find (ControllerA.sameLocalDay 0 Sample.june1) (availableTables r')
       = Some e'
    /\ tables e'
       = [ControllerA.pushSlot "18:00" (consumeSlot "18:00" Sample.table7)].
Proof.
  pose (b := {| booking_id := 100%N; userId := 5%N; restaurantId := 1%N;
                bookingDate := Sample.june1; time := "18:00"; partySize := 4;
                bookedTableSize := 4; bookedTableDefinitionId := Some 7%N;
                status := confirmed |}).
  assert (bookings Sample.store1 !! 100%N = Some b) as Hb by (vm_compute; reflexivity).
  assert (restaurants Sample.store1 !! 1%N <> None) as Hr by (vm_compute; discriminate).
  destruct (restaurants Sample.store1 !! 1%N) as [r|] eqn:Er; [|congruence].
  assert (List.find (ControllerA.sameLocalDay 0 Sample.june1) (availableTables r)
          = Some {| date := Sample.june1;
                    tables := [consumeSlot "18:00" Sample.table7] |}) as He.
  { vm_compute in Er. injection Er as <-. reflexivity. }
  destruct (cancelA_appends_slot 0 Sample.diner 100%N Sample.store1 b 7%N r _
              [] (consumeSlot "18:00" Sample.table7) []
              Hb eq_refl (or_introl eq_refl) eq_refl Er He eq_refl
              (fun x (H : In x []) => match H with end) eq_refl)
    as (r' & e' & H1 & H2 & _ & H3 & _).
  exists r', e'. auto.
Defined.

(** *** Listing bookings *)

Lemma insertByDateDesc_In b l x : In x (insertByDateDesc b l) <-> x = b \/ In x l.
Proof.
  induction l as [|c l IH]; simpl.
  - intuition congruence.
  - destruct (_ <=? _); simpl; [intuition congruence|].
    rewrite IH. intuition congruence.
Qed.

Lemma sortByDateDesc_In l x : In x (sortByDateDesc l) <-> In x l.
Proof.
  unfold sortByDateDesc. induction l as [|c l IH]; simpl; [tauto|].
  rewrite insertByDateDesc_In, IH. intuition congruence.
Qed.

Lemma insertByDateDesc_HdRel a b l :
  HdRel laterOrSame a l -> laterOrSame a b ->
  HdRel laterOrSame a (insertByDateDesc b l).
Proof.
  intros Hl Hb. destruct l as [|c l]; simpl.
  - now constructor.
  - destruct (_ <=? _); constructor; auto. now inversion Hl.
Qed.

Lemma insertByDateDesc_Sorted b l :
  Sorted laterOrSame l -> Sorted laterOrSame (insertByDateDesc b l).
Proof.
  induction 1 as [|c l Hs IH Hhd]; simpl.
  - repeat constructor.
  - destruct (bookingDate c <=? bookingDate b) eqn:Hle.
    + apply Z.leb_le in Hle. repeat constructor; auto.
    + apply Z.leb_gt in Hle. constructor; [exact IH|].
      apply insertByDateDesc_HdRel; [exact Hhd|]. unfold laterOrSame. lia.
Qed.

Lemma sortByDateDesc_Sorted l : Sorted laterOrSame (sortByDateDesc l).
Proof.
  unfold sortByDateDesc. induction l as [|c l IH]; simpl.
  - constructor.
  - now apply insertByDateDesc_Sorted.
Qed.

Lemma findBookings_In p (bs : gmap ObjectId Booking) b :
  In b (findBookings p bs) <-> (exists id, bs !! id = Some b) /\ p b = true.
Proof.
  unfold findBookings. rewrite sortByDateDesc_In, filter_In, in_map_iff.
  apply and_iff_compat_r. split.
  - intros ([id b0] & Heq & Hin). simpl in Heq. subst b0.
    apply list_elem_of_In, elem_of_map_to_list in Hin. eauto.
  - intros (id & Hb). exists (id, b). split; [reflexivity|].
    apply list_elem_of_In, elem_of_map_to_list. exact Hb.
Qed.

(** X9. getUserBookings answers exactly the stored bookings of the
    requester, cancelled ones included, and getRestaurantBookings exactly
    those of the restaurant named; both list them by date, latest first. *)
Theorem bookings_listed_by_owner_latest_first user rid st :
  let mine := listed (getUserBookings user st) in
  let theirs := listed (getRestaurantBookings rid st) in
  (forall b, In b mine <->
             (exists id, bookings st !! id = Some b) /\ userId b = user_id user)
  /\ (forall b, In b theirs <->
                (exists id, bookings st !! id = Some b) /\ restaurantId b = rid)
  /\ Sorted laterOrSame mine /\ Sorted laterOrSame theirs.
Proof.
  simpl. split; [|split; [|split]]; try apply sortByDateDesc_Sorted.
  - intros b. rewrite findBookings_In, N.eqb_eq. tauto.
  - intros b. rewrite findBookings_In, N.eqb_eq. tauto.
Qed.

Lemma setStatus_setStatus s1 s2 b : setStatus s1 (setStatus s2 b) = setStatus s1 b.
Proof. reflexivity. Qed.

Lemma cancelFrame_listing id st st' (p : Booking -> bool) :
  cancelFrame id st st' ->
  (forall b, p (setStatus cancelled b) = p b) ->
  forall x,
    In x (map (setStatus cancelled) (findBookings p (bookings st'))) <->
    In x (map (setStatus cancelled) (findBookings p (bookings st))).
Proof.
  intros (_ & Hother & Hid & _) Hp x. rewrite !in_map_iff.
  split; intros (b & <- & Hin); apply findBookings_In in Hin;
    destruct Hin as [(id' & Hb) Hpb].
  - destruct (decide (id' = id)) as [->|Hne].
    + destruct Hid as [Hsame|(b0 & Hb0 & _ & Hb')].
      * exists b. split; [reflexivity|]. apply findBookings_In.
        split; [|exact Hpb]. exists id. congruence.
      * assert (b = setStatus cancelled b0) by congruence. subst b.
        exists b0. split; [reflexivity|]. apply findBookings_In.
        split; [eauto|]. now rewrite <- Hp.
    + exists b. split; [reflexivity|]. apply findBookings_In.
      split; [|exact Hpb]. exists id'. rewrite <- Hother; auto.
  - destruct (decide (id' = id)) as [->|Hne].
    + destruct Hid as [Hsame|(b0 & Hb0 & _ & Hb')].
      * exists b. split; [reflexivity|]. apply findBookings_In.
        split; [|exact Hpb]. exists id. congruence.
      * assert (b = b0) by congruence. subst b0.
        exists (setStatus cancelled b). split; [reflexivity|].
        apply findBookings_In. split; [eauto|]. now rewrite Hp.
    + exists b. split; [reflexivity|]. apply findBookings_In.
      split; [|exact Hpb]. exists id'. rewrite Hother; auto.
Qed.

(** X10. A cancellation, by either copy of the controller and whatever
    its answer, removes no booking from any listing and adds none: for
    every user and every restaurant, the bookings listed afterwards are
    those listed before, up to the status of the cancelled one. *)
Theorem cancelBooking_keeps_bookings_listed utcOffset momentHHmm user id st who rid :
  let stA := (ControllerA.cancelBooking utcOffset user id st).2 in
  let stB := (ControllerB.cancelBooking momentHHmm user id st).2 in
  forall x,
    (In x (map (setStatus cancelled) (listed (getUserBookings who stA))) <->
     In x (map (setStatus cancelled) (listed (getUserBookings who st))))
    /\ (In x (map (setStatus cancelled) (listed (getUserBookings who stB))) <->
        In x (map (setStatus cancelled) (listed (getUserBookings who st))))
    /\ (In x (map (setStatus cancelled) (listed (getRestaurantBookings rid stA))) <->
        In x (map (setStatus cancelled) (listed (getRestaurantBookings rid st))))
    /\ (In x (map (setStatus cancelled) (listed (getRestaurantBookings rid stB))) <->
        In x (map (setStatus cancelled) (listed (getRestaurantBookings rid st)))).
Proof.
  intros stA stB x. subst stA stB.
  destruct (cancel_frames utcOffset momentHHmm user id st) as [HA HB].
  unfold getUserBookings, getRestaurantBookings, listed.
  split; [|split; [|split]].
  - apply (cancelFrame_listing id _ _ _ HA). reflexivity.
  - apply (cancelFrame_listing id _ _ _ HB). reflexivity.
  - apply (cancelFrame_listing id _ _ _ HA). reflexivity.
  - apply (cancelFrame_listing id _ _ _ HB). reflexivity.
Qed.

(** X11. A booking just created is listed for the user who made it and
    for the restaurant it was made at. *)
Theorem createBooking_is_listed user rid d tm ps st c b st' :
  createBooking user rid d tm ps st = (Json c b, st') ->
  In b (listed (getUserBookings user st'))
  /\ In b (listed (getRestaurantBookings (restaurantId b) st')).
Proof.
  intros H. unfold createBooking in H.
  destruct rid as [rid|], d as [d|], tm as [tm|]; try discriminate.
  destruct (negb (truthyStr (Some tm)) || negb (truthy ps)); [discriminate|].
  destruct (parseInt ps) as [n|]; [|discriminate].
  destruct (n <=? 0); [discriminate|].
  destruct (restaurants st !! rid) as [r|]; [|discriminate].
  destruct (availabilityForDate r d) as [e|]; [|discriminate].
  destruct (suitableTable e n tm) as [t|]; [|discriminate].
  cbv zeta in H. injection H as <- <- <-. simpl.
  split; apply findBookings_In; (split; [|apply N.eqb_refl]);
    exists (nextId st); apply lookup_insert_eq.
Qed.

Lemma createBooking_is_listed_witness :
  exists b, In b (listed (getUserBookings Sample.diner Sample.store1))
            /\ status b = confirmed.
Proof.
  destruct (createBooking Sample.diner (Some 1%N) (Some Sample.june1) (Some "18:00")
              (JSNumber 4) Sample.store0) as [resp st'] eqn:E.
  assert (exists b, resp = Json 201 b /\ status b = confirmed) as (b & -> & Hs).
  { vm_compute in E. injection E as <- _. eauto. }
  exists b. split; [|exact Hs].
  unfold Sample.store1. rewrite E.
  exact (proj1 (createBooking_is_listed _ _ _ _ _ _ _ _ _ E)).
Defined.

(** ** Further properties of the search *)

Lemma aggregate_subseteq (keep1 keep2 : Restaurant -> bool)
  (rs : gmap ObjectId Restaurant) :
  (forall r, keep1 r = true -> keep2 r = true) ->
  Search.aggregate keep1 rs ⊆ Search.aggregate keep2 rs.
Proof.
  intros H. apply map_subseteq_spec. intros id r.
  rewrite !aggregate_lookup. intros [? ?]. auto.
Qed.

Lemma pipeline_initialQuery regexTestI location sd byParty n a b r :
  Search.pipeline regexTestI location sd byParty n a b r = true ->
  Search.initialQuery regexTestI location r = true.
Proof. unfold Search.pipeline. intros H. now apply andb_true_iff in H. Qed.

Lemma initialQuery_approved regexTestI location r :
  Search.initialQuery regexTestI location r = true -> isApproved r = true.
Proof. unfold Search.initialQuery. intros H. now apply andb_true_iff in H. Qed.

(** X12. Whenever a search answers with a listing, the code is 200 and
    the listing holds only documents of the collection, unchanged, that
    are approved and pass the location filter: it is contained in the
    listing of the search without date and time. Whenever a search is
    answered 400, date and time were both supplied and moment cannot read
    the time. *)
Theorem search_lists_only_approved
  momentHHmm regexTestI location date time partySize rs :
  let result :=
    Search.searchRestaurants momentHHmm regexTestI location date time
      partySize rs in
  (forall code found,
     result = Json code found ->
     code = 200
     /\ found ⊆ Search.aggregate (Search.initialQuery regexTestI location) rs
     /\ forall id r, found !! id = Some r ->
                     rs !! id = Some r /\ isApproved r = true
                     /\ Search.initialQuery regexTestI location r = true)
  /\ (forall msg,
        result = Error 400 msg ->
        result = InvalidTimeFormatError
        /\ truthyStr date = true /\ truthyStr time = true
        /\ time ≫= momentHHmm = None).
Proof.
  intros result. subst result.
  assert (forall keep code found,
            (forall r, keep r = true ->
                       Search.initialQuery regexTestI location r = true) ->
            Json 200 (Search.aggregate keep rs) = Json code found ->
            code = 200
            /\ found ⊆ Search.aggregate (Search.initialQuery regexTestI location) rs
            /\ forall id r, found !! id = Some r ->
                            rs !! id = Some r /\ isApproved r = true
                            /\ Search.initialQuery regexTestI location r = true)
    as Hagg.
  { intros keep code found Hkeep [= <- <-]. split; [reflexivity|].
    split; [now apply aggregate_subseteq|].
    intros id r Hr. apply aggregate_lookup in Hr. destruct Hr as [Hr Hk].
    split; [exact Hr|]. split; [|now apply Hkeep].
    eapply initialQuery_approved; eauto. }
  unfold Search.searchRestaurants.
  destruct date as [dt|], time as [tm|];
    try (split; [intros code found; now apply Hagg | discriminate]).
  destruct (truthyStr (Some dt) && truthyStr (Some tm)) eqn:Hboth;
    [|split; [intros code found; now apply Hagg | discriminate]].
  apply andb_true_iff in Hboth. destruct Hboth as [Hd Ht].
  destruct (Search.partySizeFilter partySize) as [n byParty].
  simpl. destruct (momentHHmm tm) as [searchTime|].
  - destruct (Search.searchDate dt) as [sd|].
    + split; [|discriminate]. intros code found. apply Hagg.
      intros r. apply pipeline_initialQuery.
    + split; discriminate.
  - split; [discriminate|]. intros msg _. repeat split; auto.
Qed.

(** The search of scenario D. *)
Lemma search_lists_only_approved_witness :
  exists found,
    Search.searchRestaurants canonicalHHmm substringTest None (Some "2024-06-01")
      (Some "18:15") (Some "4") (restaurants Sample.store0) = Json 200 found
    /\ found ⊆ Search.aggregate (Search.initialQuery substringTest None)
                 (restaurants Sample.store0).
Proof.
  destruct (Search.searchRestaurants canonicalHHmm substringTest None
              (Some "2024-06-01") (Some "18:15") (Some "4")
              (restaurants Sample.store0)) as [code found|code msg] eqn:E;
    [|vm_compute in E; discriminate].
  destruct (proj1 (search_lists_only_approved canonicalHHmm substringTest None
                     (Some "2024-06-01") (Some "18:15") (Some "4")
                     (restaurants Sample.store0)) code found E) as (-> & Hsub & _).
  exists found. split; [reflexivity | exact Hsub].
Defined.

Lemma tableMatches_weaken byParty1 byParty2 n1 n2 a b table :
  (byParty2 = true -> byParty1 = true /\ n2 <= n1) ->
  Search.tableMatches byParty1 n1 a b table = true ->
  Search.tableMatches byParty2 n2 a b table = true.
Proof.
  intros Hby. unfold Search.tableMatches. rewrite !andb_true_iff.
  intros [Hsize Hslot]. split; [|exact Hslot].
  destruct byParty2; [|reflexivity].
  destruct (Hby eq_refl) as [-> Hle]. apply Z.leb_le in Hsize. apply Z.leb_le. lia.
Qed.

Lemma pipeline_weaken regexTestI location sd byParty1 byParty2 n1 n2 a b r :
  (byParty2 = true -> byParty1 = true /\ n2 <= n1) ->
  Search.pipeline regexTestI location sd byParty1 n1 a b r = true ->
  Search.pipeline regexTestI location sd byParty2 n2 a b r = true.
Proof.
  intros Hby. unfold Search.pipeline. rewrite !andb_true_iff.
  intros [Hq Hm]. split; [exact Hq|].
  destruct (Search.dateEntry sd r) as [|entry rest]; [discriminate|].
  assert (Search.matchingTables byParty1 n1 a b entry <> []) as Hne
    by (destruct (Search.matchingTables byParty1 n1 a b entry); congruence).
  apply filter_nonempty in Hne. destruct Hne as (table & Hin & Ht).
  assert (Search.matchingTables byParty2 n2 a b entry <> []) as Hne2.
  { apply filter_nonempty. exists table. split; [exact Hin|].
    eapply tableMatches_weaken; eauto. }
  destruct (Search.matchingTables byParty2 n2 a b entry); congruence.
Qed.

Lemma partySizeFilter_valid s n :
  parseInt10 s = Some n -> 0 < n -> Search.partySizeFilter (Some s) = (n, true).
Proof.
  intros Hn Hpos. unfold Search.partySizeFilter, truthyStr.
  destruct (String.eqb s "") eqn:Hs.
  - apply String.eqb_eq in Hs. subst s. discriminate.
  - simpl. rewrite Hn. assert ((0 <? n) = true) as -> by lia. reflexivity.
Qed.

(** X13. With the other criteria fixed, asking for a larger party never
    lists more restaurants, and asking for any party size never lists
    more than asking for none. *)
Theorem search_party_size_is_monotone
  momentHHmm regexTestI location date time rs s1 n1 s2 n2 :
  parseInt10 s1 = Some n1 -> parseInt10 s2 = Some n2 -> 0 < n1 -> n1 <= n2 ->
  forall found1 found2 found0 partySize foundAny,
    Search.searchRestaurants momentHHmm regexTestI location date time (Some s1) rs
    = Json 200 found1 ->
    Search.searchRestaurants momentHHmm regexTestI location date time (Some s2) rs
    = Json 200 found2 ->
    Search.searchRestaurants momentHHmm regexTestI location date time None rs
    = Json 200 found0 ->
    Search.searchRestaurants momentHHmm regexTestI location date time partySize rs
    = Json 200 foundAny ->
    found2 ⊆ found1 /\ foundAny ⊆ found0.
Proof.
  intros Hn1 Hn2 Hpos Hle found1 found2 found0 partySize foundAny.
  unfold Search.searchRestaurants.
  rewrite (partySizeFilter_valid _ _ Hn1 Hpos).
  rewrite (partySizeFilter_valid s2 n2 Hn2) by lia.
  destruct date as [dt|], time as [tm|];
    try (intros [= <-] [= <-] [= <-] [= <-]; split; reflexivity).
  destruct (truthyStr (Some dt) && truthyStr (Some tm));
    [|intros [= <-] [= <-] [= <-] [= <-]; split; reflexivity].
  destruct (Search.partySizeFilter partySize) as [n byParty].
  change (Search.partySizeFilter None) with (0, false).
  cbv zeta beta iota. destruct (momentHHmm tm) as [searchTime|]; [|discriminate].
  destruct (Search.searchDate dt) as [sd|]; [|discriminate].
  intros [= <-] [= <-] [= <-] [= <-]. split.
  - apply aggregate_subseteq. intros r. apply pipeline_weaken. intros _. auto.
  - apply aggregate_subseteq. intros r. apply pipeline_weaken. discriminate.
Qed.

Lemma search_party_size_is_monotone_witness :
  exists found2 found4,
    Search.searchRestaurants canonicalHHmm substringTest None (Some "2024-06-01")
      (Some "18:15") (Some "2") (restaurants Sample.store0) = Json 200 found2
    /\ Search.searchRestaurants canonicalHHmm substringTest None (Some "2024-06-01")
         (Some "18:15") (Some "4") (restaurants Sample.store0) = Json 200 found4
    /\ found4 ⊆ found2.
Proof.
  eexists _, _. split; [reflexivity|]. split; [reflexivity|].
  refine (proj1 (search_party_size_is_monotone canonicalHHmm substringTest None
                   (Some "2024-06-01") (Some "18:15") (restaurants Sample.store0)
                   "2" 2 "4" 4 eq_refl eq_refl _ _ _ _ _ None _
                   eq_refl eq_refl eq_refl eq_refl)); lia.
Defined.

(** *** The time window *)





(** X14. For a requested time between 00:30 and 23:29 and a slot in the
    canonical HH:mm form, the comparison of strings the search pipeline
    makes is the comparison of times: the slot is in the window exactly
    when it is at most thirty minutes before or after the requested
    time. *)
Theorem search_window_is_thirty_minutes searchTime slot m :
  canonicalHHmm slot = Some m -> 30 <= searchTime < 1410 ->
  Search.inWindow (formatHHmm (searchTime - 30)) (formatHHmm (searchTime + 30)) slot
  = true
  <-> searchTime - 30 <= m <= searchTime + 30.
Proof.
  intros Hs Ht. apply canonicalHHmm_format in Hs. destruct Hs as [-> Hm].
  unfold Search.inWindow. rewrite andb_true_iff, !formatHHmm_leb by lia. lia.
Qed.

Lemma search_window_is_thirty_minutes_witness :
  Search.inWindow (formatHHmm (1095 - 30)) (formatHHmm (1095 + 30)) "18:00" = true
  <-> 1095 - 30 <= 1080 <= 1095 + 30.
Proof.
  apply (search_window_is_thirty_minutes 1095 "18:00" 1080); [reflexivity | lia].
Defined.




(** *** The searched date *)

Lemma string_app_nil_r s : String.append s "" = s.
Proof.
  induction s as [|c s IH]; [reflexivity|].
  change (String.append (String c s) "") with (String c (String.append s "")).
  now rewrite IH.
Qed.

Lemma string_app_assoc a b c :
  String.append (String.append a b) c = String.append a (String.append b c).
Proof.
  induction a as [|x a IH]; [reflexivity|].
  change (String.append (String.append (String x a) b) c)
    with (String x (String.append (String.append a b) c)).
  now rewrite IH.
Qed.

Lemma digit_is_plain c v :
  digitOf c = Some v ->
  Ascii.eqb c "-" = false
  /\ forall rest, parseInt10 (String c rest) = digitsPrefix (String c rest) None.
Proof.
  destruct c as [[] [] [] [] [] [] [] []]; vm_compute digitOf; intros H;
    try discriminate H; split; reflexivity.
Qed.

Lemma splitAcc_numeral a rest cur :
  allDigits a = true ->
  splitAcc "-" (String.append a (String "-" rest)) cur
  = String.append cur a :: splitAcc "-" rest "".
Proof.
  revert cur. induction a as [|c a IH]; intros cur Ha.
  - rewrite string_app_nil_r. reflexivity.
  - simpl in Ha. destruct (digitOf c) as [v|] eqn:Hc; [|discriminate].
    destruct (digit_is_plain c v Hc) as [Hsep _].
    change (splitAcc "-" (String.append (String c a) (String "-" rest)) cur)
      with (if Ascii.eqb c "-" then cur :: splitAcc "-" (String.append a (String "-" rest)) ""
            else splitAcc "-" (String.append a (String "-" rest))
                   (String.append cur (String c ""))).
    rewrite Hsep, IH by exact Ha. now rewrite string_app_assoc.
Qed.

Lemma splitAcc_head sep s : forall cur,
  exists rest, splitAcc sep s cur = String.append cur (upTo sep s) :: rest.
Proof.
  induction s as [|c s IH]; intros cur.
  - exists []. simpl upTo. now rewrite string_app_nil_r.
  - cbn [splitAcc upTo]. destruct (Ascii.eqb c sep).
    + eexists. now rewrite string_app_nil_r.
    + destruct (IH (String.append cur (String c ""))) as [rest ->].
      exists rest. now rewrite string_app_assoc.
Qed.

Lemma upTo_numeral d x :
  allDigits d = true -> upTo "-" (String.append d x) = String.append d (upTo "-" x).
Proof.
  induction d as [|c d IH]; simpl; [reflexivity|].
  destruct (digitOf c) as [v|] eqn:Hc; [|discriminate].
  destruct (digit_is_plain c v Hc) as [-> _]. intros Hd. now rewrite IH.
Qed.

Lemma noLeadingDigit_upTo x :
  noLeadingDigit x = true -> noLeadingDigit (upTo "-" x) = true.
Proof.
  destruct x as [|c x]; simpl; [reflexivity|].
  destruct (Ascii.eqb c "-"); [reflexivity|]. simpl. auto.
Qed.

Lemma digitsPrefix_app d x :
  allDigits d = true -> noLeadingDigit x = true ->
  forall acc, digitsPrefix (String.append d x) acc = digitsPrefix d acc.
Proof.
  intros Hd Hx. induction d as [|c d IH]; simpl; intros acc.
  - destruct x as [|c x]; simpl in *; [reflexivity|].
    now destruct (digitOf c).
  - simpl in Hd. destruct (digitOf c); [|discriminate]. now apply IH.
Qed.

Lemma digitsPrefix_some d a :
  allDigits d = true -> exists v, digitsPrefix d (Some a) = Some v.
Proof.
  revert a. induction d as [|c d IH]; simpl; intros a Hd; [eauto|].
  destruct (digitOf c); [|discriminate]. now apply IH.
Qed.

Lemma parseInt10_numeral d x :
  isNumeral d = true -> noLeadingDigit x = true ->
  parseInt10 (String.append d x) = parseInt10 d
  /\ exists v, parseInt10 d = Some v.
Proof.
  destruct d as [|c d]; [discriminate|]. intros Hd Hx.
  change (isNumeral (String c d)) with (allDigits (String c d)) in Hd.
  pose proof Hd as Hd'. simpl in Hd'.
  destruct (digitOf c) as [v|] eqn:Hc; [|discriminate].
  destruct (digit_is_plain c v Hc) as [_ Hplain].
  change (String.append (String c d) x) with (String c (String.append d x)).
  rewrite !Hplain. split.
  - apply (digitsPrefix_app (String c d) x Hd Hx).
  - simpl. rewrite Hc. now apply digitsPrefix_some.
Qed.

(** X16. The date a search looks for is read from the first three pieces
    between hyphens only, each up to its last leading digit: for a text
    made of a year, a month and a day in digits, whatever follows the day
    (a time of day, a zone offset) is ignored, and the instant searched is
    Date.UTC of that year, month and day. *)
Theorem searchDate_ignores_what_follows_the_day y m d suffix :
  isNumeral y = true -> isNumeral m = true -> isNumeral d = true ->
  noLeadingDigit suffix = true ->
  exists yv mv dv,
    parseInt10 y = Some yv /\ parseInt10 m = Some mv /\ parseInt10 d = Some dv
    /\ Search.searchDate
         (String.append y (String "-" (String.append m
            (String "-" (String.append d suffix)))))
       = DateUTC yv (mv - 1) dv.
Proof.
  intros Hy Hm Hd Hx.
  destruct (parseInt10_numeral y "" Hy eq_refl) as [_ [yv Hyv]].
  destruct (parseInt10_numeral m "" Hm eq_refl) as [_ [mv Hmv]].
  destruct (parseInt10_numeral d (upTo "-" suffix) Hd (noLeadingDigit_upTo _ Hx))
    as [Hdx [dv Hdv]].
  exists yv, mv, dv. repeat split; auto.
  assert (allDigits y = true /\ allDigits m = true /\ allDigits d = true)
    as (Hy' & Hm' & Hd').
  { destruct y, m, d; try discriminate; auto. }
  unfold Search.searchDate, split.
  rewrite (splitAcc_numeral y _ "" Hy'), (splitAcc_numeral m _ "" Hm').
  destruct (splitAcc_head "-" (String.append d suffix) "") as [rest ->].
  rewrite (upTo_numeral d suffix Hd').
  match goal with
  | |- context [Search.parsePart ?parts 0] =>
      change (Search.parsePart parts 0) with (parseInt10 y);
      change (Search.parsePart parts 1) with (parseInt10 m);
      change (Search.parsePart parts 2)
        with (parseInt10 (String.append d (upTo "-" suffix)))
  end.
  now rewrite Hyv, Hmv, Hdx, Hdv.
Qed.

Lemma searchDate_ignores_what_follows_the_day_witness :
  Search.searchDate "2024-06-01T23:30:00-05:00" = DateUTC 2024 5 1.
Proof.
  destruct (searchDate_ignores_what_follows_the_day "2024" "06" "01" "T23:30:00-05:00"
              eq_refl eq_refl eq_refl eq_refl) as (yv & mv & dv & Hy & Hm & Hd & H).
  vm_compute in Hy, Hm, Hd. injection Hy as <-. injection Hm as <-. injection Hd as <-.
  exact H.
Defined.

(** ** Properties of the restaurant controller and its routes *)

Lemma guarded_pass {A S} roles u (handler : User -> S -> Response A * S) s :
  role u <> "" -> In (role u) roles ->
  guarded roles (Some u) handler s = handler u s.
Proof.
  intros H1 H2. unfold guarded.
  now rewrite (proj2 (authorize_passes roles u) (conj H1 H2)).
Qed.

Lemma guarded_block {A S} roles user (handler : User -> S -> Response A * S) s :
  (forall u, user = Some u -> ~ In (role u) roles) ->
  (guarded roles user handler s).2 = s
  /\ exists code msg,
       (guarded roles user handler s).1 = Error code msg
       /\ (code = 401 \/ code = 403).
Proof.
  intros Hno. unfold guarded. destruct user as [u|].
  - destruct (authorize roles (Some u)) as [r|] eqn:Ha.
    + split; [reflexivity|]. unfold authorize in Ha.
      destruct (String.eqb (role u) ""); [|destruct (includes roles (role u))];
        simplify_eq; simpl; eauto.
    + apply authorize_passes in Ha. destruct Ha as [_ Hin].
      exfalso. apply (Hno u); auto.
  - split; [reflexivity|]. simpl. eauto.
Qed.

Lemma publicView_lookup docs id :
  publicView docs !! id = fields <$> (docs !! id).
Proof. unfold publicView. apply lookup_fmap. Qed.

Lemma unfiltered_search_lookup momentHHmm regexTestI rs :
  exists found,
    Search.searchRestaurants momentHHmm regexTestI None None None None rs
    = Json 200 found
    /\ forall id, found !! id
                  = match rs !! id with
                    | Some r => if isApproved r then Some r else None
                    | None => None
                    end.
Proof.
  eexists. split; [reflexivity|]. intros id.
  destruct (Search.aggregate _ rs !! id) as [r|] eqn:Hf.
  - apply aggregate_lookup in Hf. destruct Hf as [-> Hq].
    apply initialQuery_approved in Hq. now rewrite Hq.
  - destruct (rs !! id) as [r|] eqn:Hr; [|reflexivity].
    destruct (isApproved r) eqn:Ha; [|reflexivity].
    assert (Search.aggregate (Search.initialQuery regexTestI None) rs !! id = Some r)
      as Hin; [|congruence].
    apply aggregate_lookup. split; [exact Hr|].
    unfold Search.initialQuery. now rewrite Ha.
Qed.

(** X17. Approval decides what the public sees. When an admin approves a
    stored restaurant through its route, a search without criteria lists
    it; when an admin puts it on hold, no such search lists it. Either
    operation rewrites only the two flags of that one document (its
    inventory, manager and every other document are as before), and each
    undoes the other. *)
Theorem approval_decides_public_listing momentHHmm regexTestI admin id d docs :
  role admin = "admin" -> docs !! id = Some d ->
  let approved := (routeApprove (Some admin) id docs).2 in
  let held := (routeHold (Some admin) id docs).2 in
  approved = <[id := setApproval true false d]> docs
  /\ held = <[id := setApproval false true d]> docs
  /\ (exists found,
        Search.searchRestaurants momentHHmm regexTestI None None None None
          (publicView approved) = Json 200 found
        /\ found !! id = Some (setIsApproved true (fields d)))
  /\ (exists found,
        Search.searchRestaurants momentHHmm regexTestI None None None None
          (publicView held) = Json 200 found
        /\ found !! id = None)
  /\ (routeHold (Some admin) id approved).2 = held
  /\ (routeApprove (Some admin) id held).2 = approved.
Proof.
  intros Hrole Hd approved held.
  assert (role admin <> "" /\ In (role admin) ["admin"]) as [Hne Hin].
  { rewrite Hrole. split; [discriminate | now left]. }
  assert (approved = <[id := setApproval true false d]> docs) as Happ.
  { subst approved. unfold routeApprove. rewrite guarded_pass by auto.
    unfold approveRestaurant. now rewrite Hrole, Hd. }
  assert (held = <[id := setApproval false true d]> docs) as Hheld.
  { subst held. unfold routeHold. rewrite guarded_pass by auto.
    unfold setRestaurantOnHold. now rewrite Hd. }
  split; [exact Happ|]. split; [exact Hheld|]. split; [|split; [|split]].
  - destruct (unfiltered_search_lookup momentHHmm regexTestI (publicView approved))
      as (found & Hs & Hl).
    exists found. split; [exact Hs|].
    now rewrite Hl, publicView_lookup, Happ, lookup_insert_eq.
  - destruct (unfiltered_search_lookup momentHHmm regexTestI (publicView held))
      as (found & Hs & Hl).
    exists found. split; [exact Hs|].
    now rewrite Hl, publicView_lookup, Hheld, lookup_insert_eq.
  - rewrite Happ, Hheld. unfold routeHold. rewrite guarded_pass by auto.
    unfold setRestaurantOnHold. rewrite lookup_insert_eq. simpl.
    now rewrite insert_insert_eq.
  - rewrite Happ, Hheld. unfold routeApprove. rewrite guarded_pass by auto.
    unfold approveRestaurant. rewrite Hrole, lookup_insert_eq. simpl.
    now rewrite insert_insert_eq.
Qed.

(** X18. Only an admin changes an approval: for any other requester (no
    valid token, no role, another role) the approve and hold routes answer
    401 or 403 and leave the collection as it is. *)
Theorem only_admins_moderate user id docs :
  (forall u, user = Some u -> role u <> "admin") ->
  (routeApprove user id docs).2 = docs /\ (routeHold user id docs).2 = docs
  /\ (exists code msg, (routeApprove user id docs).1 = Error code msg
                       /\ (code = 401 \/ code = 403))
  /\ (exists code msg, (routeHold user id docs).1 = Error code msg
                       /\ (code = 401 \/ code = 403)).
Proof.
  intros Hno.
  assert (forall u, user = Some u -> ~ In (role u) ["admin"]) as Hblock.
  { intros u Hu [Heq|[]]. apply (Hno u Hu). now symmetry. }
  destruct (guarded_block ["admin"] user (fun u => approveRestaurant u id) docs Hblock)
    as [H1 H2].
  destruct (guarded_block ["admin"] user (fun _ => setRestaurantOnHold id) docs Hblock)
    as [H3 H4].
  repeat split; assumption.
Qed.

(** X19. Through its route a restaurant is deleted exactly when it is
    stored and the requester is an admin or the manager it belongs to;
    then only that document disappears. In every other case the answer is
    an error and the collection is as it was. The handler itself checks
    ownership for managers only: the route's role list is what stops any
    other role. *)
Theorem delete_needs_admin_or_own_manager user id docs :
  let result := routeDelete user id docs in
  (forall u d, user = Some u -> docs !! id = Some d ->
     role u = "admin" \/ (role u = "manager" /\ managerId d = user_id u) ->
     result = (Json 200 "Restaurant deleted successfully", delete id docs))
  /\ ((exists u d, user = Some u /\ docs !! id = Some d
                   /\ (role u = "admin"
                       \/ (role u = "manager" /\ managerId d = user_id u)))
      \/ (result.2 = docs /\ exists code msg, result.1 = Error code msg))
  /\ (forall u d, docs !! id = Some d -> role u <> "manager" ->
        deleteRestaurant u id docs
        = (Json 200 "Restaurant deleted successfully", delete id docs)).
Proof.
  intros result. subst result. split; [|split].
  - intros u d -> Hd Hwho. unfold routeDelete. rewrite guarded_pass.
    + unfold deleteRestaurant. rewrite Hd.
      destruct Hwho as [->|[-> ->]]; [reflexivity|].
      now rewrite N.eqb_refl.
    + destruct Hwho as [->|[-> _]]; discriminate.
    + destruct Hwho as [->|[-> _]]; simpl; auto.
  - destruct user as [u|]; [|right; split; [reflexivity | simpl; eauto]].
    unfold routeDelete, guarded.
    destruct (authorize ["manager"; "admin"] (Some u)) as [r|] eqn:Ha.
    + right. split; [reflexivity|]. unfold authorize in Ha.
      destruct (String.eqb (role u) ""); [|destruct (includes _ (role u))];
        simplify_eq; simpl; eauto.
    + apply authorize_passes in Ha. destruct Ha as [_ Hin].
      unfold deleteRestaurant.
      destruct (docs !! id) as [d|] eqn:Hd;
        [|right; split; [reflexivity | simpl; eauto]].
      destruct Hin as [Hm|[Hadm|[]]].
      * rewrite <- Hm. simpl.
        destruct (managerId d =? user_id u)%N eqn:Ho; simpl.
        -- apply N.eqb_eq in Ho. left. exists u, d. auto.
        -- right. split; [reflexivity | eauto].
      * left. exists u, d. auto.
  - intros u d Hd Hrole. unfold deleteRestaurant. rewrite Hd.
    apply String.eqb_neq in Hrole. now rewrite Hrole.
Qed.

(** X20. Who may change a restaurant document: through its route an
    update reaches the collection only for a requester whose role is
    'manager' and who is the manager of the stored document (an admin is
    refused). Then every path the body holds is overwritten, the approval
    flag included, and the others are kept: the managing user who sends
    isApproved = true is listed by the public search without any admin;
    an empty body changes nothing. *)
Theorem update_is_for_the_manager momentHHmm regexTestI user id body docs :
  let result := routeUpdate user id body docs in
  (result.2 = docs
   \/ exists u d, user = Some u /\ role u = "manager" /\ docs !! id = Some d
                  /\ managerId d = user_id u
                  /\ result = (Json 200 (assign body d), <[id := assign body d]> docs))
  /\ (forall u d, user = Some u -> role u = "manager" -> docs !! id = Some d ->
        managerId d = user_id u ->
        result = (Json 200 (assign body d), <[id := assign body d]> docs)
        /\ (body = emptyBody -> result.2 = docs)
        /\ (body_isApproved body = Some true ->
            exists found,
              Search.searchRestaurants momentHHmm regexTestI None None None None
                (publicView result.2) = Json 200 found
              /\ found !! id = Some (fields (assign body d)))).
Proof.
  intros result. subst result. split.
  - destruct user as [u|]; [|left; reflexivity].
    unfold routeUpdate, guarded.
    destruct (authorize ["manager"] (Some u)) as [r|] eqn:Ha; [left; reflexivity|].
    apply authorize_passes in Ha. destruct Ha as [_ [Hm|[]]].
    unfold updateRestaurant.
    destruct (docs !! id) as [d|] eqn:Hd; [|left; reflexivity].
    destruct (managerId d =? user_id u)%N eqn:Ho; [|left; reflexivity].
    apply N.eqb_eq in Ho. right. exists u, d. auto.
  - intros u d -> Hrole Hd Ho.
    assert (routeUpdate (Some u) id body docs
            = (Json 200 (assign body d), <[id := assign body d]> docs)) as Heq.
    { unfold routeUpdate. rewrite guarded_pass.
      - unfold updateRestaurant. now rewrite Hd, Ho, N.eqb_refl.
      - rewrite Hrole. discriminate.
      - rewrite Hrole. now left. }
    rewrite Heq. split; [reflexivity|]. split.
    + intros ->. simpl. apply insert_id. rewrite Hd. f_equal.
      destruct d as [[] ? ?]. reflexivity.
    + intros Happroved. simpl.
      destruct (unfiltered_search_lookup momentHHmm regexTestI
                  (publicView (<[id := assign body d]> docs))) as (found & Hs & Hl).
      exists found. split; [exact Hs|].
      rewrite Hl, publicView_lookup, lookup_insert_eq. simpl. now rewrite Happroved.
Qed.

Lemma managedBy_lookup (u : User) (docs : gmap ObjectId RestaurantDoc) id d :
  getManagedRestaurants u docs !! id = Some d <->
  docs !! id = Some d /\ managerId d = user_id u.
Proof. unfold getManagedRestaurants. now rewrite map_lookup_filter_Some. Qed.

(** X21. The two protected listings. The route of getAllRestaurants
    answers an admin with the whole collection, approved or not, and
    anyone else with 401 or 403; the handler's approved-only branch, which
    that route never reaches, lists what a search without criteria lists.
    The my-restaurants route answers a manager with exactly the documents
    that name that manager. *)
Theorem protected_listings momentHHmm regexTestI user docs :
  (forall u, user = Some u -> role u = "admin" ->
     routeGetAll user docs = (Json 200 docs, docs))
  /\ ((forall u, user = Some u -> role u <> "admin") ->
      exists code msg, (routeGetAll user docs).1 = Error code msg
                       /\ (code = 401 \/ code = 403))
  /\ (forall u, role u <> "admin" ->
        Search.searchRestaurants momentHHmm regexTestI None None None None
          (publicView docs)
        = Json 200 (publicView (getAllRestaurants (Some u) docs)))
  /\ (forall u, user = Some u -> role u = "manager" ->
        exists mine,
          routeMyRestaurants user docs = (Json 200 mine, docs)
          /\ forall id d, mine !! id = Some d <->
                          docs !! id = Some d /\ managerId d = user_id u).
Proof.
  split; [|split; [|split]].
  - intros u -> Hrole. unfold routeGetAll. rewrite guarded_pass.
    + unfold getAllRestaurants. now rewrite Hrole.
    + rewrite Hrole. discriminate.
    + rewrite Hrole. now left.
  - intros Hno. apply (guarded_block ["admin"] user).
    intros u Hu [Heq|[]]. apply (Hno u Hu). now symmetry.
  - intros u Hrole. unfold Search.searchRestaurants. f_equal.
    apply map_eq. intros id. unfold getAllRestaurants.
    apply String.eqb_neq in Hrole. rewrite Hrole.
    rewrite publicView_lookup.
    destruct (Search.aggregate _ (publicView docs) !! id) as [r|] eqn:Hf.
    + apply aggregate_lookup in Hf. destruct Hf as [Hr Hq].
      rewrite publicView_lookup in Hr.
      destruct (docs !! id) as [d|] eqn:Hd; [|discriminate].
      simpl in Hr. injection Hr as <-. apply initialQuery_approved in Hq.
      symmetry. apply fmap_Some. exists d. split; [|reflexivity].
      apply map_lookup_filter_Some. split; [exact Hd|]. simpl. now rewrite Hq.
    + symmetry. apply fmap_None.
      destruct (filter _ docs !! id) as [d|] eqn:Hd; [|reflexivity].
      apply map_lookup_filter_Some in Hd. destruct Hd as [Hd Ha]. simpl in Ha.
      assert (Search.aggregate (Search.initialQuery regexTestI None)
                (publicView docs) !! id = Some (fields d)) as Hin; [|congruence].
      apply aggregate_lookup. rewrite publicView_lookup, Hd. split; [reflexivity|].
      unfold Search.initialQuery. apply Is_true_true in Ha. now rewrite Ha.
  - intros u -> Hrole. eexists. split.
    + unfold routeMyRestaurants. rewrite guarded_pass; [reflexivity | |].
      * rewrite Hrole. discriminate.
      * rewrite Hrole. now left.
    + intros id d. apply managedBy_lookup.
Qed.

Lemma approval_decides_public_listing_witness :
  exists found,
    Search.searchRestaurants canonicalHHmm substringTest None None None None
      (publicView (routeApprove (Some Sample.admin) 1%N SampleDocs.collection).2)
    = Json 200 found
    /\ found !! 1%N = Some (setIsApproved true (fields SampleDocs.pending)).
Proof.
  exact (proj1 (proj2 (proj2
    (approval_decides_public_listing canonicalHHmm substringTest Sample.admin 1%N
       SampleDocs.pending SampleDocs.collection eq_refl eq_refl)))).
Defined.

Lemma only_admins_moderate_witness :
  (routeApprove (Some SampleDocs.manager) 1%N SampleDocs.collection).2
  = SampleDocs.collection
  /\ (routeHold None 1%N SampleDocs.collection).2 = SampleDocs.collection.
Proof.
  split.
  - apply (only_admins_moderate (Some SampleDocs.manager) 1%N SampleDocs.collection).
    intros u [= <-]. discriminate.
  - apply (only_admins_moderate None 1%N SampleDocs.collection).
    intros u [=].
Defined.

Lemma delete_needs_admin_or_own_manager_witness :
  routeDelete (Some SampleDocs.manager) 1%N SampleDocs.collection
  = (Json 200 "Restaurant deleted successfully", delete 1%N SampleDocs.collection).
Proof.
  apply (proj1 (delete_needs_admin_or_own_manager (Some SampleDocs.manager) 1%N
                  SampleDocs.collection) SampleDocs.manager SampleDocs.pending
           eq_refl eq_refl).
  right. split; reflexivity.
Defined.

Lemma update_is_for_the_manager_witness :
  let body :=
    {| body_isApproved := Some true; body_isPending := None; body_managerId := None;
       body_availableTables := None; body_timesBookedToday := None |} in
  exists found,
    Search.searchRestaurants canonicalHHmm substringTest None None None None
      (publicView (routeUpdate (Some SampleDocs.manager) 1%N body
                     SampleDocs.collection).2) = Json 200 found
    /\ found !! 1%N = Some (fields (assign body SampleDocs.pending)).
Proof.
  intros body.
  exact (proj2 (proj2 (proj2
    (update_is_for_the_manager canonicalHHmm substringTest (Some SampleDocs.manager)
       1%N body SampleDocs.collection)
    SampleDocs.manager SampleDocs.pending eq_refl eq_refl eq_refl eq_refl)) eq_refl).
Defined.

Lemma protected_listings_witness :
  routeGetAll (Some Sample.admin) SampleDocs.collection
  = (Json 200 SampleDocs.collection, SampleDocs.collection).
Proof.
  apply (proj1 (protected_listings canonicalHHmm substringTest (Some Sample.admin)
                  SampleDocs.collection) Sample.admin eq_refl eq_refl).
Defined.

(** ** Properties of the mail service and of the dashboard *)

(** X22. The confirmation mail for a booking that createBooking has just
    answered is never held back by the booking's own fields: it goes out
    exactly when the user has an email and a first name and the restaurant
    has a name, to that email, with the restaurant's name in the subject.
    Without a user, a booking or a restaurant nothing is sent. *)
Theorem confirmation_mail_for_a_new_booking user rid d tm ps st c b st' u name :
  createBooking user rid d tm ps st = (Json c b, st') ->
  (sendBookingConfirmationEmail (Some u) (Some b) (Some name)
   = if String.eqb (email u) "" || String.eqb (firstName u) "" || String.eqb name ""
     then None
     else Some {| mailTo := email u;
                  subject := String.append "Your Booking Confirmation at " name |})
  /\ sendBookingConfirmationEmail None (Some b) (Some name) = None
  /\ sendBookingConfirmationEmail (Some u) None (Some name) = None
  /\ sendBookingConfirmationEmail (Some u) (Some b) None = None.
Proof.
  intros H. unfold createBooking in H.
  destruct rid as [rid|], d as [d|], tm as [tm|]; try discriminate.
  destruct (negb (truthyStr (Some tm)) || negb (truthy ps)) eqn:Hpresent;
    [discriminate|].
  destruct (parseInt ps) as [n|]; [|discriminate].
  destruct (n <=? 0) eqn:Hpos; [discriminate|].
  destruct (restaurants st !! rid) as [r|]; [|discriminate].
  destruct (availabilityForDate r d) as [e|]; [|discriminate].
  destruct (suitableTable e n tm) as [t|]; [|discriminate].
  cbv zeta in H. injection H as <- <- <-.
  apply orb_false_iff in Hpresent. destruct Hpresent as [Htm _].
  apply negb_false_iff in Htm. simpl in Htm. apply negb_true_iff in Htm.
  assert ((n =? 0) = false) as Hn by lia.
  unfold sendBookingConfirmationEmail. simpl. rewrite Htm, Hn. simpl.
  repeat split.
  - destruct (String.eqb (email u) "" || String.eqb (firstName u) ""); reflexivity.
  - now destruct (String.eqb (email u) "" || String.eqb (firstName u) "").
  - now destruct (String.eqb (email u) "" || String.eqb (firstName u) "").
Qed.

Lemma confirmation_mail_for_a_new_booking_witness :
  exists b,
    sendBookingConfirmationEmail
      (Some {| email := "ana@example.com"; firstName := "Ana" |}) (Some b)
      (Some "Chez X")
    = Some {| mailTo := "ana@example.com";
              subject := "Your Booking Confirmation at Chez X" |}.
Proof.
  destruct (createBooking Sample.diner (Some 1%N) (Some Sample.june1) (Some "18:00")
              (JSNumber 4) Sample.store0) as [resp st'] eqn:E.
  assert (exists b, resp = Json 201 b) as (b & ->).
  { vm_compute in E. injection E as <- _. eauto. }
  exists b.
  exact (proj1 (confirmation_mail_for_a_new_booking _ _ _ _ _ _ _ _ _
                  {| email := "ana@example.com"; firstName := "Ana" |} "Chez X" E)).
Defined.

(** X23. The two tabs of the dashboard never show the same booking. A
    cancelled booking is on the second tab only; a booking that is not
    cancelled is on the first tab if its moment is after now, on the
    second if it is before now, and on neither tab if its moment is
    exactly now or is invalid. *)
Theorem dashboard_tabs_are_disjoint bookingDateTime now tab userBookings booking :
  tab <> 0 ->
  let upcoming := filterBookings bookingDateTime now 0 userBookings in
  let past := filterBookings bookingDateTime now tab userBookings in
  ~ (In booking upcoming /\ In booking past)
  /\ (In booking userBookings ->
      (status booking = cancelled -> In booking past /\ ~ In booking upcoming)
      /\ (status booking <> cancelled ->
          (forall t, bookingDateTime booking = Some t -> now < t ->
                     In booking upcoming /\ ~ In booking past)
          /\ (forall t, bookingDateTime booking = Some t -> t < now ->
                        In booking past /\ ~ In booking upcoming)
          /\ (bookingDateTime booking = Some now \/ bookingDateTime booking = None ->
              ~ In booking upcoming /\ ~ In booking past))).
Proof.
  intros Htab upcoming past. apply Z.eqb_neq in Htab.
  assert (Hup : In booking upcoming <->
                In booking userBookings /\ isAfter (bookingDateTime booking) now = true
                /\ status booking <> cancelled).
  { subst upcoming. unfold filterBookings. rewrite filter_In. simpl.
    now rewrite andb_true_iff, negb_true_iff, bool_decide_eq_false. }
  assert (Hpast : In booking past <->
                  In booking userBookings
                  /\ (isBefore (bookingDateTime booking) now = true
                      \/ status booking = cancelled)).
  { subst past. unfold filterBookings. rewrite filter_In, Htab.
    now rewrite orb_true_iff, bool_decide_eq_true. }
  setoid_rewrite Hup. setoid_rewrite Hpast. clear Hup Hpast.
  unfold isAfter, isBefore.
  split.
  - destruct (bookingDateTime booking) as [t|].
    + rewrite !Z.ltb_lt. intros [(_ & H1 & H2) (_ & [H3|H3])]; [lia|contradiction].
    + intros [(_ & H1 & _) _]. discriminate.
  - intros Hin. split.
    + intros Hs. split; [tauto|]. intros (_ & _ & H). contradiction.
    + intros Hs. split; [|split].
      * intros t -> Hlt. rewrite !Z.ltb_lt. split; [tauto|].
        intros (_ & [H|H]); [lia|contradiction].
      * intros t -> Hlt. rewrite !Z.ltb_lt. split; [tauto|].
        intros (_ & H & _). lia.
      * intros [-> | ->].
        -- rewrite !Z.ltb_lt. split.
           ++ intros (_ & H & _). lia.
           ++ intros (_ & [H|H]); [lia|contradiction].
        -- split.
           ++ intros (_ & H & _). discriminate.
           ++ intros (_ & [H|H]); [discriminate|contradiction].
Qed.

Lemma dashboard_tabs_are_disjoint_witness :
  let b := {| booking_id := 100%N; userId := 5%N; restaurantId := 1%N;
              bookingDate := Sample.june1; time := "18:00"; partySize := 4;
              bookedTableSize := 4; bookedTableDefinitionId := Some 7%N;
              status := confirmed |} in
  ~ In b (filterBookings (fun _ => Some 1717264800000) 1717264800000 0 [b])
  /\ ~ In b (filterBookings (fun _ => Some 1717264800000) 1717264800000 1 [b]).
Proof.
  intros b.
  apply (proj2 (proj2 (proj2 (dashboard_tabs_are_disjoint
                  (fun _ => Some 1717264800000)
                  1717264800000 1 [b] b ltac:(discriminate)) (or_introl eq_refl))
           ltac:(discriminate))).
  left. reflexivity.
Defined.
